(** * Aura Bank ML API: a shallow embedding of [model/ml_api.py]

    The Flask handlers of [ml_api.py] are embedded as functions from the
    request body and the module-level model handles to a response (an HTTP
    status and a JSON body).  [predict_fraud] and [predict_loan], which
    test the body for emptiness, take the outcome of [request.json]: the
    decoded body (a JSON value), or the exception raised on a body that
    cannot be decoded, which their [try] turns into a 500 answer.  The
    other handlers call [data.get] at once and are embedded on the decoded
    body.  Python floats are binary64 numbers, so they are modelled by
    Rocq's primitive floats and every score below is computed with the
    rounding Python performs. *)

From Stdlib Require Import Floats ZArith Ascii String Lia.
From stdpp Require Import gmap strings list pretty.

Set Warnings "-inexact-float,-register-all".
(* A decimal literal such as [0.3] denotes the nearest binary64 number, as
   it does in Python source. *)

(** ** Exceptions and results *)

Inductive exn :=
| TypeError (msg : string)
| ValueError (msg : string)
| OverflowError (msg : string)
| ZeroDivisionError (msg : string)
| AttributeError (msg : string)
| RuntimeError (msg : string).

(** [str(e)] *)
Definition str_exn (e : exn) : string :=
  match e with
  | TypeError m | ValueError m | OverflowError m
  | ZeroDivisionError m | AttributeError m | RuntimeError m => m
  end.

Inductive result (A : Type) :=
| Ok (a : A)
| Raise (e : exn).
Arguments Ok {A} a.
Arguments Raise {A} e.

#[global] Instance result_ret : MRet result := fun _ a => Ok a.
#[global] Instance result_bind : MBind result := fun _ _ k c =>
  match c with
  | Ok a => k a
  | Raise e => Raise e
  end.

(** [try: c except Exception as e: h e] *)
Definition try_except {A} (c : result A) (h : exn -> result A) : result A :=
  match c with
  | Ok a => Ok a
  | Raise e => h e
  end.

(** ** JSON values, as [request.json] delivers them and [jsonify] takes them *)

Inductive json :=
| JNull
| JBool (b : bool)
| JInt (n : Z)
| JFloat (x : float)
| JStr (s : string)
| JList (l : list json)
| JDict (d : gmap string json).

(** A Python dict literal (the literals of the source have distinct keys). *)
Definition dict (l : list (string * json)) : json := JDict (list_to_map l).

(** Python truth value of a decoded JSON value ([if not data], [if x.get(..)]). *)
Definition truthy (v : json) : bool :=
  match v with
  | JNull => false
  | JBool b => b
  | JInt n => negb (n =? 0)%Z
  | JFloat x => negb (x =? 0)%float
  | JStr s => negb (String.eqb s "")
  | JList l => match l with [] => false | _ => true end
  | JDict d => negb (bool_decide (d = ∅))
  end.

(** [v.get(k, dflt)]: only dicts have [get]. *)
Definition py_get (v : json) (k : string) (dflt : json) : result json :=
  match v with
  | JDict d => Ok (default dflt (d !! k))
  | _ => Raise (AttributeError "object has no attribute 'get'")
  end.

(** [v == s] for a string literal [s]. *)
Definition eq_str (v : json) (s : string) : bool :=
  match v with
  | JStr s' => String.eqb s' s
  | _ => false
  end.

(** [for x in v]: lists yield their items, strings their characters, dicts
    their keys; other JSON values are not iterable. *)
Definition py_iter (v : json) : result (list json) :=
  match v with
  | JList l => Ok l
  | JStr s => Ok ((fun c => JStr (String c EmptyString)) <$> String.list_ascii_of_string s)
  | JDict d => Ok ((fun kv => JStr kv.1) <$> map_to_list d)
  | _ => Raise (TypeError "object is not iterable")
  end.

(** ** Python floats *)

Module PyFloat.
Local Open Scope float_scope.

(** [a > b], [a < b], [a >= b], [a <= b], [a == b] on floats (all false on NaN) *)
Definition gt (a b : float) : bool := b <? a.
Definition lt (a b : float) : bool := a <? b.
Definition ge (a b : float) : bool := b <=? a.
Definition le (a b : float) : bool := a <=? b.
Definition eq (a b : float) : bool := a =? b.

(** [min(a, b)] and [max(a, b)]: the builtin keeps its first argument unless
    the second compares strictly smaller (larger). *)
Definition py_min (a b : float) : float := if b <? a then b else a.
Definition py_max (a b : float) : float := if a <? b then b else a.

(** [a / b] *)
Definition div (a b : float) : result float :=
  if b =? 0 then Raise (ZeroDivisionError "float division by zero") else Ok (a / b).

(** Implicit and explicit conversion of an int to a float: round to nearest,
    ties to even; too large an int raises. *)
Definition of_int (n : Z) : result float :=
  let x := SF2Prim (binary_normalize prec emax n 0 false) in
  if is_infinity x then Raise (OverflowError "int too large to convert to float")
  else Ok x.

(** [a / n] for a float [a] and an int [n]: a zero divisor raises, any
    other is converted and divides. *)
Definition div_int (a : float) (n : Z) : result float :=
  if (n =? 0)%Z then Raise (ZeroDivisionError "float division by zero")
  else b ← of_int n; Ok (a / b).

(** [int(x)]: truncation towards zero. *)
Definition to_int (x : float) : result Z :=
  match Prim2SF x with
  | S754_nan => Raise (ValueError "cannot convert float NaN to integer")
  | S754_infinity _ => Raise (OverflowError "cannot convert float infinity to integer")
  | S754_zero _ => Ok 0%Z
  | S754_finite s m e =>
      let a := (if 0 <=? e then Z.pos m * 2 ^ e else Z.pos m / 2 ^ (- e))%Z in
      Ok (if s then (- a)%Z else a)
  end.

(** The integer nearest to [num / den] ([den > 0]), ties to the even one. *)
Definition div_half_even (num den : Z) : Z :=
  let q := (num / den)%Z in
  let r := (num mod den)%Z in
  match (2 * r ?= den)%Z with
  | Lt => q
  | Gt => (q + 1)%Z
  | Eq => if Z.even q then q else (q + 1)%Z
  end.

(** The number of [10^-ndigits] units nearest to the exact value of the
    finite float [m * 2^e]. *)
Definition decimal_units (m : positive) (e ndigits : Z) : Z :=
  if (0 <=? e)%Z then (Z.pos m * 2 ^ e * 10 ^ ndigits)%Z
  else div_half_even (Z.pos m * 10 ^ ndigits) (2 ^ (- e)).

(** [round(x, ndigits)] for [ndigits >= 0]: the exact value of [x] is rounded
    to [ndigits] decimals (ties to even) and the decimal is read back as the
    nearest float; NaN and the infinities round to themselves. *)
Definition round (x : float) (ndigits : Z) : float :=
  match Prim2SF x with
  | S754_finite s m e =>
      match decimal_units m e ndigits with
      | Z.pos n =>
          SF2Prim (SFdiv prec emax (S754_finite s n 0)
                     (S754_finite false (Z.to_pos (10 ^ ndigits)) 0))
      | _ => SF2Prim (S754_zero s)
      end
  | _ => x
  end.

(** [f'{x:.1f}'] *)
Definition format_f1 (x : float) : string :=
  match Prim2SF x with
  | S754_nan => "nan"
  | S754_infinity s => if s then "-inf" else "inf"
  | S754_zero s => if s then "-0.0" else "0.0"
  | S754_finite s m e =>
      let n := decimal_units m e 1 in
      (if s then "-" else "") +:+ pretty (n / 10)%Z +:+ "." +:+ pretty (n mod 10)%Z
  end.

End PyFloat.

(** ** Builtins that live outside the repository

    [float(s)], [int(s)] and [s.lower()] on a string belong to the
    interpreter and [pow] on floats to the C library.  The handlers are
    embedded over any behaviour of the four; [cpython] below is an
    executable instance.

    A [str] is represented by its UTF-8 bytes.  [s.lower()] follows the
    Unicode case mappings of the interpreter (it sends the Kelvin sign
    U+212A to [k], for one), so it is left to the interpreter as a whole;
    the substring test [kw in s] on an ASCII keyword is the test on the
    bytes. *)

Class PyBuiltins := {
  float_of_str : string -> result float;       (* float(s) *)
  int_of_str : string -> result Z;             (* int(s) *)
  float_pow : float -> float -> result float;  (* pow(x, y) on two floats *)
  str_lower : string -> string                 (* s.lower() *)
}.

Section Conversions.
Context `{PyBuiltins}.

(** [float(v)] *)
Definition py_float (v : json) : result float :=
  match v with
  | JBool b => Ok (if b then 1 else 0)%float
  | JInt n => PyFloat.of_int n
  | JFloat x => Ok x
  | JStr s => float_of_str s
  | JNull | JList _ | JDict _ =>
      Raise (TypeError "float() argument must be a string or a real number")
  end.

(** [int(v)] *)
Definition py_int (v : json) : result Z :=
  match v with
  | JBool b => Ok (Z.b2z b)
  | JInt n => Ok n
  | JFloat x => PyFloat.to_int x
  | JStr s => int_of_str s
  | JNull | JList _ | JDict _ =>
      Raise (TypeError "int() argument must be a string or a real number")
  end.

(** [pow(x, n)] for a float [x] and an int [n]: the int is converted first. *)
Definition py_pow (x : float) (n : Z) : result float :=
  y ← PyFloat.of_int n; float_pow x y.

End Conversions.

(** The float of an integer literal of the source (exact: the literals are small). *)
Definition literal (n : Z) : float := SF2Prim (binary_normalize prec emax n 0 false).

(** [v < n] and [v > n] for a decoded value [v] and an integer literal [n];
    only numbers (and booleans, which are ints) are ordered against an int. *)
Definition py_lt_int (v : json) (n : Z) : result bool :=
  match v with
  | JBool b => Ok (Z.b2z b <? n)%Z
  | JInt z => Ok (z <? n)%Z
  | JFloat x => Ok (PyFloat.lt x (literal n))
  | _ => Raise (TypeError "'<' not supported between these instances")
  end.

Definition py_gt_int (v : json) (n : Z) : result bool :=
  match v with
  | JBool b => Ok (n <? Z.b2z b)%Z
  | JInt z => Ok (n <? z)%Z
  | JFloat x => Ok (PyFloat.gt x (literal n))
  | _ => Raise (TypeError "'>' not supported between these instances")
  end.

(** ** An executable instance of the builtins *)

Module CPython.

Definition is_space (c : ascii) : bool :=
  let n := nat_of_ascii c in
  (n =? 32)%nat || ((9 <=? n)%nat && (n <=? 13)%nat) || ((28 <=? n)%nat && (n <=? 31)%nat).

Definition is_digit (c : ascii) : bool :=
  let n := nat_of_ascii c in (48 <=? n)%nat && (n <=? 57)%nat.

Definition digit_value (c : ascii) : Z := Z.of_nat (nat_of_ascii c) - 48.

Fixpoint drop_space (l : list ascii) : list ascii :=
  match l with
  | c :: l' => if is_space c then drop_space l' else l
  | [] => []
  end.

Definition strip (l : list ascii) : list ascii :=
  reverse (drop_space (reverse (drop_space l))).

(** Underscores may only separate two digits; they are dropped. *)
Fixpoint drop_underscores (prev : option ascii) (l : list ascii) : option (list ascii) :=
  match l with
  | [] => if bool_decide (prev = Some "_"%char) then None else Some []
  | c :: l' =>
      if bool_decide (c = "_"%char) then
        match prev with
        | Some p => if is_digit p then drop_underscores (Some c) l' else None
        | None => None
        end
      else if bool_decide (prev = Some "_"%char) && negb (is_digit c) then None
      else (c ::.) <$> drop_underscores (Some c) l'
  end.

(** The longest prefix of digits, read as a number, with its length. *)
Fixpoint digits (acc : Z) (count : nat) (l : list ascii) : Z * nat * list ascii :=
  match l with
  | c :: l' => if is_digit c then digits (10 * acc + digit_value c) (S count) l'
               else (acc, count, l)
  | [] => (acc, count, [])
  end.

Definition sign (l : list ascii) : bool * list ascii :=
  match l with
  | "-"%char :: l' => (true, l')
  | "+"%char :: l' => (false, l')
  | _ => (false, l)
  end.

Definition lower_ascii (c : ascii) : ascii :=
  let n := nat_of_ascii c in
  if (65 <=? n)%nat && (n <=? 90)%nat then ascii_of_nat (n + 32) else c.

(** [s.lower()] on ASCII text: the letters A-Z are lowered and every other
    byte is kept.  It is [str.lower] on the texts of the sample requests,
    which are ASCII, and on them only. *)
Definition ascii_lower (s : string) : string :=
  string_of_list_ascii (lower_ascii <$> String.list_ascii_of_string s).

(** The float nearest to [(-1)^s * n * 10^e]. *)
Definition decimal_to_float (s : bool) (n e : Z) : float :=
  match n with
  | Z.pos p =>
      if (0 <=? e)%Z then SF2Prim (binary_round prec emax s (Z.to_pos (Z.pos p * 10 ^ e)) 0)
      else SF2Prim (SFdiv prec emax (S754_finite s p 0)
                      (S754_finite false (Z.to_pos (10 ^ (- e))) 0))
  | _ => SF2Prim (S754_zero s)
  end.

Definition parse_float (str : string) : option float :=
  l ← drop_underscores None (strip (String.list_ascii_of_string str));
  let '(s, l) := sign l in
  let word := string_of_list_ascii (lower_ascii <$> l) in
  if bool_decide (word = "inf") || bool_decide (word = "infinity")
  then Some (if s then neg_infinity else infinity)
  else if bool_decide (word = "nan") then Some nan
  else
    let '(ipart, icount, l) := digits 0 0 l in
    let '(fpart, fcount, l) :=
      match l with
      | "."%char :: l' => digits ipart 0 l'
      | _ => (ipart, 0%nat, l)
      end in
    if (icount + fcount =? 0)%nat then None
    else
      let mantissa_exp := (- Z.of_nat fcount)%Z in
      match l with
      | [] => Some (decimal_to_float s fpart mantissa_exp)
      | c :: l' =>
          if bool_decide (lower_ascii c = "e"%char) then
            let '(es, l') := sign l' in
            match digits 0 0 l' with
            | (_, O, _) => None
            | (e, _, []) =>
                Some (decimal_to_float s fpart (mantissa_exp + (if es then - e else e)))
            | _ => None
            end
          else None
      end.

Definition parse_int (str : string) : option Z :=
  l ← drop_underscores None (strip (String.list_ascii_of_string str));
  let '(s, l) := sign l in
  match digits 0 0 l with
  | (_, O, _) => None
  | (n, _, []) => Some (if s then - n else n)%Z
  | _ => None
  end.

(** [x ** n] rounded once from its exact value, for an integer [n >= 1]. *)
Definition exact_pow (x : float) (n : positive) : result float :=
  match Prim2SF x with
  | S754_finite s m e =>
      let r := SF2Prim (binary_round prec emax (s && Z.odd (Z.pos n)) (m ^ n)%positive (e * Z.pos n)) in
      if is_infinity r then Raise (OverflowError "(34, 'Numerical result out of range')")
      else Ok r
  | S754_zero s => Ok (SF2Prim (S754_zero (s && Z.odd (Z.pos n))))
  | S754_infinity s => Ok (SF2Prim (S754_infinity (s && Z.odd (Z.pos n))))
  | S754_nan => Ok nan
  end.

(** [pow] on the exponents the calculator uses (positive whole numbers);
    the instance gives no value elsewhere. *)
Definition pow (x y : float) : result float :=
  match PyFloat.to_int y with
  | Ok (Z.pos n) =>
      if (literal (Z.pos n) =? y)%float then exact_pow x n
      else Raise (ValueError "exponent outside the instance")
  | _ => Raise (ValueError "exponent outside the instance")
  end.

End CPython.

#[global] Instance cpython : PyBuiltins := {
  float_of_str s :=
    match CPython.parse_float s with
    | Some x => Ok x
    | None => Raise (ValueError "could not convert string to float")
    end;
  int_of_str s :=
    match CPython.parse_int s with
    | Some n => Ok n
    | None => Raise (ValueError "invalid literal for int() with base 10")
    end;
  float_pow := CPython.pow;
  str_lower := CPython.ascii_lower
}.

(** ** Model handles and the module state *)

(** One row of a [pandas.DataFrame]: the columns in order, with their values. *)
Definition frame := list (string * json).

(** A fitted scikit-learn classifier.  [clf_predict X] stands for
    [int(model.predict(X)[0])] and [clf_predict_proba X] for
    [float(model.predict_proba(X)[0][1])], building the frame included;
    either may raise. *)
Record classifier := {
  clf_predict : frame -> result Z;
  clf_predict_proba : frame -> result float
}.

(** The TF-IDF vectorizer and the expense classifier.  [vec_transform d]
    stands for [expense_vectorizer.transform([d])], [txt_predict x] for
    [expense_classifier.predict(x)[0]] and [txt_predict_proba_max x] for
    [expense_classifier.predict_proba(x).max()]. *)
Definition tfidf := list (nat * float).

Record vectorizer := {
  vec_transform : json -> result tfidf
}.

Record text_classifier := {
  txt_predict : tfidf -> result string;
  txt_predict_proba_max : tfidf -> result float
}.

(** The globals [fraud_model], [loan_model], [expense_classifier] and
    [expense_vectorizer]; [None] is Python's [None]. *)
Record models := {
  fraud_model : option classifier;
  loan_model : option classifier;
  expense_classifier : option text_classifier;
  expense_vectorizer : option vectorizer
}.

(** What [load_models] finds for one artifact of [MODEL_DIR]: no file, a
    file that loads, or a file on which loading raises. *)
Inductive artifact (A : Type) :=
| Missing
| Loads (a : A)
| Corrupt (e : exn).
Arguments Missing {A}.
Arguments Loads {A} a.
Arguments Corrupt {A} e.

Definition exists_ {A} (f : artifact A) : bool :=
  match f with Missing => false | _ => true end.

Record model_dir := {
  credit_card_model_pkl : artifact classifier;
  load_prediction_model_joblib : artifact classifier;
  expense_classifier_clean_pkl : artifact text_classifier;
  tfidf_vectorizer_clean_pkl : artifact vectorizer
}.

(** [load_models]: three independent [try] blocks over globals that start as
    [None].  In the third block the classifier is assigned before the
    vectorizer is loaded. *)
Definition load_models (dir : model_dir) : models :=
  let fraud_model :=
    match credit_card_model_pkl dir with
    | Loads m => Some m
    | _ => None
    end in
  let loan_model :=
    match load_prediction_model_joblib dir with
    | Loads m => Some m
    | _ => None
    end in
  let '(expense_classifier, expense_vectorizer) :=
    if exists_ (expense_classifier_clean_pkl dir) && exists_ (tfidf_vectorizer_clean_pkl dir)
    then
      match expense_classifier_clean_pkl dir with
      | Loads c =>
          match tfidf_vectorizer_clean_pkl dir with
          | Loads v => (Some c, Some v)
          | _ => (Some c, None)
          end
      | _ => (None, None)
      end
    else (None, None) in
  {| fraud_model := fraud_model; loan_model := loan_model;
     expense_classifier := expense_classifier;
     expense_vectorizer := expense_vectorizer |}.

(** ** Responses *)

Record response := Resp { status : Z; body : json }.

(** [return jsonify(d)] and [return jsonify(d), code] *)
Definition jsonify (l : list (string * json)) : response := Resp 200 (dict l).
Definition jsonify_with (l : list (string * json)) (code : Z) : response := Resp code (dict l).

(** The outer [try: ... except Exception as e: return jsonify({'error': str(e)}), 500] *)
Definition handler (c : result response) : response :=
  match c with
  | Ok r => r
  | Raise e => jsonify_with [("error", JStr (str_exn e))] 500
  end.

(** A field of a response body. *)
Definition field (k : string) (r : response) : option json :=
  match body r with
  | JDict d => d !! k
  | _ => None
  end.

(** [health_check] *)
Definition health_check (st : models) : response :=
  jsonify [
    ("status", JStr "OK");
    ("fraud_model_loaded", JBool (bool_decide (is_Some (fraud_model st))));
    ("loan_model_loaded", JBool (bool_decide (is_Some (loan_model st))));
    ("expense_model_loaded",
      JBool (bool_decide (is_Some (expense_classifier st))
             && bool_decide (is_Some (expense_vectorizer st))))
  ].

(** ** Fraud detection *)

Section Fraud.
Context `{PyBuiltins}.
Local Open Scope float_scope.

(** ['HIGH' if p > 0.7 else 'MEDIUM' if p > 0.4 else 'LOW'] *)
Definition risk_level (p : float) : string :=
  if PyFloat.gt p 0.7 then "HIGH" else if PyFloat.gt p 0.4 then "MEDIUM" else "LOW".

(** The amount part of the simplified scoring (lines 127-139). *)
Definition amount_risk (amount : float) : float :=
  let risk_score := 0.0 in
  let risk_score :=
    if PyFloat.gt amount 5000 then risk_score + 0.3
    else if PyFloat.gt amount 2000 then risk_score + 0.15
    else if PyFloat.gt amount 1000 then risk_score + 0.05
    else risk_score in
  if PyFloat.lt amount 1 || PyFloat.gt amount 10000 then risk_score + 0.2
  else risk_score.

(** The simplified mode of [predict_fraud] (lines 122-162). *)
Definition predict_fraud_simplified (data : json) : result response :=
  amount_v ← py_get data "Amount" (JInt 0);
  amount ← py_float amount_v;
  let risk_score := amount_risk amount in
  hour ← py_get data "hour" (JInt 12);
  early ← py_lt_int hour 6;
  late ← (if early : bool then Ok true else py_gt_int hour 23);
  let risk_score := if late : bool then risk_score + 0.1 else risk_score in
  is_foreign ← py_get data "is_foreign" (JBool false);
  let risk_score := if truthy is_foreign then risk_score + 0.15 else risk_score in
  rapid ← py_get data "rapid_transactions" (JBool false);
  let risk_score := if truthy rapid then risk_score + 0.25 else risk_score in
  let risk_score := PyFloat.py_min risk_score 0.95 in
  Ok (jsonify [
    ("is_fraud", JBool (PyFloat.gt risk_score 0.5));
    ("fraud_probability", JFloat (PyFloat.round risk_score 4));
    ("risk_level", JStr (risk_level risk_score));
    ("model_type", JStr "heuristic")
  ]).

(** [['Time'] + [f'V{i}' for i in range(1, 29)] + ['Amount']] *)
Definition feature_names : list string :=
  ["Time"] ++ ((fun i : nat => "V" +:+ pretty i) <$> seq 1 28) ++ ["Amount"].

(** The model mode of [predict_fraud] (lines 165-199). *)
Definition predict_fraud_model (st : models) (data : json) : result response :=
  match fraud_model st with
  | None =>
      Ok (jsonify_with [
        ("error", JStr "Fraud detection model not loaded");
        ("fallback", JBool true);
        ("is_fraud", JBool false);
        ("fraud_probability", JFloat 0.0)
      ] 503)
  | Some model =>
      features ← mapM (fun feat =>
        value ← py_get data feat (JInt 0);
        match value with
        | JNull => Ok 0.0
        | _ => py_float value
        end) feature_names;
      let X := zip feature_names (JFloat <$> features) in
      prediction ← clf_predict model X;
      probability ← try_except (clf_predict_proba model X)
                      (fun _ => PyFloat.of_int prediction);
      Ok (jsonify [
        ("is_fraud", JBool (negb (prediction =? 0)%Z));
        ("fraud_probability", JFloat (PyFloat.round probability 4));
        ("risk_level", JStr (risk_level probability));
        ("model_type", JStr "ml_model")
      ])
  end.

(** [predict_fraud], from the outcome of [request.json], which the handler
    evaluates inside its [try]: the decoded body, or the exception Flask
    raises on a body it cannot decode (a missing body, for one). *)
Definition predict_fraud (st : models) (request_json : result json) : response :=
  handler (
    data ← request_json;
    if negb (truthy data) then
      Ok (jsonify_with [("error", JStr "No input data provided")] 400)
    else
      simplified ← py_get data "simplified" (JBool false);
      if truthy simplified then predict_fraud_simplified data
      else predict_fraud_model st data).

(** One iteration of the loop of [predict_fraud_batch] (lines 443-464). *)
Definition score_transaction (tx : json) : result json :=
  amount_lower ← py_get tx "amount" (JInt 0);
  amount_v ← py_get tx "Amount" amount_lower;
  amount ← py_float amount_v;
  let risk_score := 0.0 in
  let risk_score :=
    if PyFloat.gt amount 5000 then risk_score + 0.3
    else if PyFloat.gt amount 2000 then risk_score + 0.15
    else risk_score in
  let risk_score :=
    if PyFloat.lt amount 1 || PyFloat.gt amount 10000 then risk_score + 0.2
    else risk_score in
  is_foreign ← py_get tx "is_foreign" (JBool false);
  let risk_score := if truthy is_foreign then risk_score + 0.15 else risk_score in
  let risk_score := PyFloat.py_min risk_score 0.95 in
  transaction_id ← py_get tx "transaction_id" JNull;
  id ← py_get tx "id" transaction_id;
  Ok (dict [
    ("transaction_id", id);
    ("is_fraud", JBool (PyFloat.gt risk_score 0.5));
    ("fraud_probability", JFloat (PyFloat.round risk_score 4));
    ("risk_level", JStr (risk_level risk_score))
  ]).

(** [r['is_fraud']] as a truth value, for the [flagged] count. *)
Definition is_flagged (r : json) : bool :=
  match r with
  | JDict d => match d !! "is_fraud" with Some v => truthy v | None => false end
  | _ => false
  end.

(** [predict_fraud_batch] *)
Definition predict_fraud_batch (data : json) : response :=
  handler (
    transactions ← py_get data "transactions" (JList []);
    txs ← py_iter transactions;
    results ← mapM score_transaction txs;
    Ok (jsonify [
      ("success", JBool true);
      ("results", JList results);
      ("total", JInt (Z.of_nat (length results)));
      ("flagged", JInt (Z.of_nat (length (filter (fun r => is_flagged r = true) results))))
    ])).

End Fraud.

(** ** Numbers that are either ints or floats

    [loan_amount] and [loan_term] are floats unless the zero guards replace
    them by the int literals [1] and [360]; [dependents + 1] is an int. *)

Inductive num :=
| Int (n : Z)
| Float (x : float).

Definition num_json (a : num) : json :=
  match a with
  | Int n => JInt n
  | Float x => JFloat x
  end.

Definition num_float (a : num) : result float :=
  match a with
  | Int n => PyFloat.of_int n
  | Float x => Ok x
  end.

(** [a + k] for an integer literal [k] *)
Definition add_int (a : num) (k : Z) : num :=
  match a with
  | Int n => Int (n + k)
  | Float x => Float (x + literal k)
  end.

(** [p / q] on two ints: the exact quotient, rounded once. *)
Definition int_truediv (p q : Z) : result float :=
  let negate := xorb (p <? 0)%Z (q <? 0)%Z in
  match Z.abs p, Z.abs q with
  | _, 0%Z => Raise (ZeroDivisionError "division by zero")
  | Z.pos a, Z.pos b =>
      let r := SF2Prim (SFdiv prec emax (S754_finite negate a 0) (S754_finite false b 0)) in
      if is_infinity r then Raise (OverflowError "integer division result too large for a float")
      else Ok r
  | _, _ => Ok (SF2Prim (S754_zero negate))
  end.

(** [a / b] *)
Definition truediv (a b : num) : result float :=
  match a, b with
  | Int p, Int q => int_truediv p q
  | Float x, Int q => PyFloat.div_int x q
  | _, Float y => x ← num_float a; PyFloat.div x y
  end.

(** ** Loan eligibility *)

Section Loan.
Context `{PyBuiltins}.
Local Open Scope float_scope.

(** One entry of the risk assessment. *)
Definition factor (name status message : string) : json :=
  dict [("factor", JStr name); ("status", JStr status); ("message", JStr message)].

(** [get_risk_factors] *)
Definition get_risk_factors (data : json) (emi income_to_loan credit_history : float)
  : result (list json) :=
  let factors := [] in
  let factors :=
    if PyFloat.eq credit_history 1
    then factors ++ [factor "Credit History" "positive" "Good credit history"]
    else factors ++ [factor "Credit History" "negative" "No credit history or defaults"] in
  let factors :=
    if PyFloat.gt income_to_loan 5
    then factors ++ [factor "Income-to-Loan Ratio" "positive"
                       ("Strong ratio: " +:+ PyFloat.format_f1 income_to_loan +:+ "x")]
    else if PyFloat.gt income_to_loan 2
    then factors ++ [factor "Income-to-Loan Ratio" "neutral"
                       ("Adequate ratio: " +:+ PyFloat.format_f1 income_to_loan +:+ "x")]
    else factors ++ [factor "Income-to-Loan Ratio" "negative"
                       ("Low ratio: " +:+ PyFloat.format_f1 income_to_loan +:+ "x")] in
  applicant_v ← py_get data "ApplicantIncome" (JInt 0);
  applicant ← py_float applicant_v;
  coapplicant_v ← py_get data "CoapplicantIncome" (JInt 0);
  coapplicant ← py_float coapplicant_v;
  let monthly_income := (applicant + coapplicant) / 12 in
  if PyFloat.gt monthly_income 0 then
    let emi_percent := (emi / monthly_income) * 100 in
    if PyFloat.lt emi_percent 30
    then Ok (factors ++ [factor "EMI Affordability" "positive"
               ("EMI is " +:+ PyFloat.format_f1 emi_percent +:+ "% of monthly income")])
    else if PyFloat.lt emi_percent 50
    then Ok (factors ++ [factor "EMI Affordability" "neutral"
               ("EMI is " +:+ PyFloat.format_f1 emi_percent +:+ "% of monthly income")])
    else Ok (factors ++ [factor "EMI Affordability" "negative"
               ("EMI is " +:+ PyFloat.format_f1 emi_percent +:+ "% of monthly income (high)")])
  else Ok factors.

(** The quantities [predict_loan] extracts and derives before it chooses a
    path (lines 235-259). *)
Record loan_inputs := {
  applicant_income : float;
  coapplicant_income : float;
  loan_amount : num;
  loan_term : num;
  credit_history : float;
  dependents : Z;
  total_income : float;
  emi : float;
  income_to_loan : float;
  loan_per_person : float
}.

Definition loan_prelude (data : json) : result loan_inputs :=
  v ← py_get data "ApplicantIncome" (JInt 0);
  applicant_income ← py_float v;
  v ← py_get data "CoapplicantIncome" (JInt 0);
  coapplicant_income ← py_float v;
  v ← py_get data "LoanAmount" (JInt 0);
  loan_amount ← py_float v;
  v ← py_get data "Loan_Amount_Term" (JInt 360);
  loan_term ← py_float v;
  v ← py_get data "Credit_History" (JInt 1);
  credit_history ← py_float v;
  dependents ← py_get data "Dependents" (JInt 0);
  dependents ←
    match dependents with
    | JStr s => if String.eqb s "3+" then Ok 3%Z else py_int dependents
    | _ => py_int dependents
    end;
  let total_income := applicant_income + coapplicant_income in
  let loan_term := if PyFloat.eq loan_term 0 then Int 360 else Float loan_term in
  let loan_amount := if PyFloat.eq loan_amount 0 then Int 1 else Float loan_amount in
  emi ← truediv loan_amount loan_term;
  income_to_loan ← truediv (Float total_income) (add_int loan_amount 1);
  loan_per_person ← truediv loan_amount (Int (dependents + 1));
  Ok {| applicant_income := applicant_income;
        coapplicant_income := coapplicant_income;
        loan_amount := loan_amount;
        loan_term := loan_term;
        credit_history := credit_history;
        dependents := dependents;
        total_income := total_income;
        emi := emi;
        income_to_loan := income_to_loan;
        loan_per_person := loan_per_person |}.

(** [1 if data.get(k, dflt) == s else 0] *)
Definition one_hot (data : json) (k dflt s : string) : result json :=
  v ← py_get data k (JStr dflt);
  Ok (JInt (if eq_str v s then 1 else 0)).

(** The [features] dict of the model path (lines 266-284), as the one row
    of the frame built from it. *)
Definition loan_features (data : json) (i : loan_inputs) : result frame :=
  dependents_f ← PyFloat.of_int (dependents i);
  gender_male ← one_hot data "Gender" "Male" "Male";
  married_yes ← one_hot data "Married" "No" "Yes";
  education_not_graduate ← one_hot data "Education" "Graduate" "Not Graduate";
  self_employed_yes ← one_hot data "Self_Employed" "No" "Yes";
  property_area_semiurban ← one_hot data "Property_Area" "Urban" "Semiurban";
  property_area_urban ← one_hot data "Property_Area" "Urban" "Urban";
  Ok [
    ("ApplicantIncome", JFloat (applicant_income i));
    ("CoapplicantIncome", JFloat (coapplicant_income i));
    ("LoanAmount", num_json (loan_amount i));
    ("Loan_Amount_Term", num_json (loan_term i));
    ("Credit_History", JFloat (credit_history i));
    ("Dependents", JFloat dependents_f);
    ("Total_Income", JFloat (total_income i));
    ("EMI", JFloat (emi i));
    ("Income_to_Loan", JFloat (income_to_loan i));
    ("Loan_per_person", JFloat (loan_per_person i));
    ("Gender_Male", gender_male);
    ("Married_Yes", married_yes);
    ("Education_Not Graduate", education_not_graduate);
    ("Self_Employed_Yes", self_employed_yes);
    ("Property_Area_Semiurban", property_area_semiurban);
    ("Property_Area_Urban", property_area_urban)
  ].

(** The model path of [predict_loan], the body of the inner [try]
    (lines 264-303). *)
Definition loan_model_path (model : classifier) (data : json) (i : loan_inputs)
  : result response :=
  X ← loan_features data i;
  prediction ← clf_predict model X;
  probability ← try_except (clf_predict_proba model X)
                  (fun _ => PyFloat.of_int prediction);
  risk ← get_risk_factors data (emi i) (income_to_loan i) (credit_history i);
  Ok (jsonify [
    ("is_approved", JBool (negb (prediction =? 0)%Z));
    ("approval_probability", JFloat (PyFloat.round probability 4));
    ("risk_assessment", JList risk);
    ("model_type", JStr "ml_model")
  ]).

(** The score of the heuristic path (lines 310-355), given the three
    categorical fields it reads. *)
Definition heuristic_score (i : loan_inputs) (education married property_area : json)
  : float :=
  let score := 0.5 in
  let score :=
    if PyFloat.eq (credit_history i) 1 then score + 0.25 else score - 0.35 in
  let score :=
    if PyFloat.gt (income_to_loan i) 10 then score + 0.15
    else if PyFloat.gt (income_to_loan i) 5 then score + 0.1
    else if PyFloat.gt (income_to_loan i) 2 then score + 0.05
    else if PyFloat.lt (income_to_loan i) 1 then score - 0.15
    else score in
  let monthly_income := total_income i / 12 in
  let score :=
    if PyFloat.gt monthly_income 0 then
      let emi_ratio := emi i / monthly_income in
      if PyFloat.lt emi_ratio 0.2 then score + 0.1
      else if PyFloat.lt emi_ratio 0.4 then score + 0.05
      else if PyFloat.gt emi_ratio 0.5 then score - 0.1
      else score
    else score in
  let score := if eq_str education "Graduate" then score + 0.05 else score in
  let score :=
    if eq_str married "Yes" && PyFloat.gt (coapplicant_income i) 0
    then score + 0.05 else score in
  let score :=
    if eq_str property_area "Semiurban" then score + 0.05
    else if eq_str property_area "Rural" then score - 0.05
    else score in
  PyFloat.py_max 0.05 (PyFloat.py_min 0.95 score).

(** The heuristic path of [predict_loan] (lines 310-362). *)
Definition loan_heuristic (data : json) (i : loan_inputs) : result response :=
  education ← py_get data "Education" (JStr "Graduate");
  married ← py_get data "Married" (JStr "No");
  property_area ← py_get data "Property_Area" (JStr "Urban");
  let score := heuristic_score i education married property_area in
  risk ← get_risk_factors data (emi i) (income_to_loan i) (credit_history i);
  Ok (jsonify [
    ("is_approved", JBool (PyFloat.ge score 0.5));
    ("approval_probability", JFloat (PyFloat.round score 4));
    ("risk_assessment", JList risk);
    ("model_type", JStr "heuristic")
  ]).

(** [predict_loan], from the outcome of [request.json], evaluated inside the
    [try] as in [predict_fraud]. *)
Definition predict_loan (st : models) (request_json : result json) : response :=
  handler (
    data ← request_json;
    if negb (truthy data) then
      Ok (jsonify_with [("error", JStr "No input data provided")] 400)
    else
      i ← loan_prelude data;
      match loan_model st with
      | Some model =>
          try_except (loan_model_path model data i) (fun _ => loan_heuristic data i)
      | None => loan_heuristic data i
      end).

End Loan.

(** ** Loan calculator *)

Section Calculator.
Context `{PyBuiltins}.
Local Open Scope float_scope.

(** The body returned by [calculate_loan] (lines 502-512), from the
    unrounded instalment. *)
Definition loan_summary (principal annual_rate : float) (months : Z) (emi : float)
  : result response :=
  months_f ← PyFloat.of_int months;
  let total_payment := emi * months_f in
  let total_interest := total_payment - principal in
  Ok (jsonify [
    ("emi", JFloat (PyFloat.round emi 2));
    ("total_payment", JFloat (PyFloat.round total_payment 2));
    ("total_interest", JFloat (PyFloat.round total_interest 2));
    ("principal", JFloat principal);
    ("rate", JFloat (annual_rate * 100));
    ("months", JInt months)
  ]).

(** The instalment (lines 494-500). *)
Definition instalment (principal annual_rate : float) (months : Z) : result float :=
  let monthly_rate := annual_rate / 12 in
  if PyFloat.gt monthly_rate 0 then
    growth ← py_pow (1 + monthly_rate) months;
    growth' ← py_pow (1 + monthly_rate) months;
    PyFloat.div (principal * monthly_rate * growth) (growth' - 1)
  else PyFloat.div_int principal months.

(** The three terms [calculate_loan] reads (lines 486-488): the principal,
    the annual rate as a fraction, and the number of months. *)
Definition loan_terms (data : json) : result (float * float * Z) :=
  v ← py_get data "LoanAmount" (JInt 0);
  v ← py_get data "principal" v;
  principal ← py_float v;
  v ← py_get data "interest_rate" (JInt 12);
  v ← py_get data "rate" v;
  rate ← py_float v;
  let annual_rate := rate / 100 in
  v ← py_get data "Loan_Amount_Term" (JInt 360);
  v ← py_get data "months" v;
  months ← py_int v;
  Ok (principal, annual_rate, months).

(** [calculate_loan] *)
Definition calculate_loan (data : json) : response :=
  handler (
    '(principal, annual_rate, months) ← loan_terms data;
    if PyFloat.le principal 0 || (months <=? 0)%Z then
      Ok (jsonify_with [("error", JStr "Invalid loan amount or term")] 400)
    else
      emi ← instalment principal annual_rate months;
      loan_summary principal annual_rate months emi).

End Calculator.

(** ** Expense categorization *)

Record metadata := { icon : string; color : string }.

Definition CATEGORY_METADATA : gmap string metadata :=
  list_to_map [
    ("Food & Dining", {| icon := "restaurant"; color := "#ef4444" |});
    ("Transportation", {| icon := "directions_car"; color := "#f97316" |});
    ("Shopping", {| icon := "shopping_bag"; color := "#8b5cf6" |});
    ("Bills & Utilities", {| icon := "receipt_long"; color := "#06b6d4" |});
    ("Entertainment", {| icon := "movie"; color := "#ec4899" |});
    ("Healthcare", {| icon := "local_hospital"; color := "#10b981" |});
    ("Education", {| icon := "school"; color := "#3b82f6" |});
    ("Travel", {| icon := "flight"; color := "#14b8a6" |});
    ("Personal Care", {| icon := "spa"; color := "#f472b6" |});
    ("Others", {| icon := "category"; color := "#6b7280" |})
  ].

(** [CATEGORY_METADATA['Others']] *)
Definition others_metadata : metadata := {| icon := "category"; color := "#6b7280" |}.

(** [kw in s] *)
Fixpoint contains (kw s : string) : bool :=
  String.prefix kw s ||
  match s with
  | EmptyString => false
  | String _ s' => contains kw s'
  end.

(** [any(kw in s for kw in kws)] *)
Definition any_in (kws : list string) (s : string) : bool :=
  existsb (fun kw => contains kw s) kws.

Definition food_keywords : list string :=
  ["swiggy"; "zomato"; "restaurant"; "cafe"; "food"; "pizza";
   "burger"; "coffee"; "dinner"; "lunch"; "breakfast";
   "mcdonald"; "starbucks"; "domino"; "kfc"; "subway"].
Definition transport_keywords : list string :=
  ["uber"; "ola"; "rapido"; "metro"; "petrol"; "fuel";
   "gas station"; "parking"; "toll"; "cab"; "taxi";
   "bus"; "train"; "flight"; "airline"].
Definition shopping_keywords : list string :=
  ["amazon"; "flipkart"; "myntra"; "shopping"; "store";
   "mart"; "purchase"; "order"; "delivery"; "grocery"].
Definition bills_keywords : list string :=
  ["electricity"; "water bill"; "internet"; "broadband";
   "mobile recharge"; "rent"; "maintenance"; "utility";
   "gas bill"; "phone bill"; "dth"].
Definition entertainment_keywords : list string :=
  ["netflix"; "spotify"; "movie"; "cinema"; "game";
   "hotstar"; "prime"; "youtube"; "concert"; "show"].
Definition healthcare_keywords : list string :=
  ["hospital"; "doctor"; "pharmacy"; "medicine"; "medical";
   "clinic"; "health"; "dental"; "lab test"].
Definition education_keywords : list string :=
  ["course"; "tuition"; "school"; "college"; "book";
   "udemy"; "coursera"; "education"; "training"].
Definition travel_keywords : list string :=
  ["hotel"; "booking"; "airbnb"; "makemytrip";
   "goibibo"; "travel"; "vacation"; "trip"].

(** The chain of tests of [get_category_fallback], on the lower-cased text. *)
Definition match_keywords (description_lower : string) : string * float :=
  if any_in food_keywords description_lower then ("Food & Dining", 0.85%float)
  else if any_in transport_keywords description_lower then ("Transportation", 0.85%float)
  else if any_in shopping_keywords description_lower then ("Shopping", 0.85%float)
  else if any_in bills_keywords description_lower then ("Bills & Utilities", 0.85%float)
  else if any_in entertainment_keywords description_lower then ("Entertainment", 0.85%float)
  else if any_in healthcare_keywords description_lower then ("Healthcare", 0.85%float)
  else if any_in education_keywords description_lower then ("Education", 0.85%float)
  else if any_in travel_keywords description_lower then ("Travel", 0.85%float)
  else ("Others", 0.50%float).

Section Expense.
Context `{PyBuiltins}.

(** [get_category_fallback] *)
Definition get_category_fallback (description : string) : string * float :=
  let description_lower := str_lower description in
  match_keywords description_lower.

(** [get_category_fallback] called on a decoded value: only strings have [lower]. *)
Definition get_category_fallback_json (description : json) : result (string * float) :=
  match description with
  | JStr s => Ok (get_category_fallback s)
  | _ => Raise (AttributeError "object has no attribute 'lower'")
  end.

(** The choice between the model and the keywords, with the confidence in
    percent (lines 611-619 and 667-673). *)
Definition categorize (st : models) (description : json) : result (string * float) :=
  match expense_classifier st, expense_vectorizer st with
  | Some classifier, Some vectorizer =>
      input_tfidf ← vec_transform vectorizer description;
      prediction ← txt_predict classifier input_tfidf;
      p ← txt_predict_proba_max classifier input_tfidf;
      Ok (prediction, (p * 100)%float)
  | _, _ =>
      '(prediction, confidence) ← get_category_fallback_json description;
      Ok (prediction, (confidence * 100)%float)
  end.

(** ['ml' if expense_classifier is not None else 'fallback'] *)
Definition model_used (st : models) : string :=
  match expense_classifier st with
  | Some _ => "ml"
  | None => "fallback"
  end.

(** [categorize_expense] *)
Definition categorize_expense (st : models) (data : json) : response :=
  handler (
    description ← py_get data "description" (JStr "");
    if negb (truthy description) then
      Ok (jsonify_with [("error", JStr "Description is required")] 400)
    else
      '(prediction, confidence) ← categorize st description;
      let metadata := default others_metadata (CATEGORY_METADATA !! prediction) in
      Ok (jsonify [
        ("category", JStr prediction);
        ("confidence", JFloat (PyFloat.round confidence 2));
        ("icon", JStr (icon metadata));
        ("color", JStr (color metadata));
        ("model_used", JStr (model_used st))
      ])).

(** One iteration of the loop of [categorize_batch] (lines 663-684). *)
Definition categorize_transaction (st : models) (txn : json) : result json :=
  txn_id ← py_get txn "id" (JStr "");
  description ← py_get txn "description" (JStr "");
  '(prediction, confidence) ← categorize st description;
  let metadata := default others_metadata (CATEGORY_METADATA !! prediction) in
  Ok (dict [
    ("id", txn_id);
    ("description", description);
    ("category", JStr prediction);
    ("confidence", JFloat (PyFloat.round confidence 2));
    ("icon", JStr (icon metadata));
    ("color", JStr (color metadata))
  ]).

(** [categorize_batch] *)
Definition categorize_batch (st : models) (data : json) : response :=
  handler (
    transactions ← py_get data "transactions" (JList []);
    if negb (truthy transactions) then
      Ok (jsonify_with [("error", JStr "Transactions array is required")] 400)
    else
      txns ← py_iter transactions;
      results ← mapM (categorize_transaction st) txns;
      Ok (jsonify [
        ("results", JList results);
        ("count", JInt (Z.of_nat (length results)));
        ("model_used", JStr (model_used st))
      ])).

End Expense.

(** * Specification-level definitions

    The definitions below restate the written rules, to be compared with
    the embedding above; none of them is used by a handler. *)

(** ** Simplified fraud scoring as a function of its predicates *)

Record risk_predicates := {
  over_5000 : bool;       (* amount > 5000 *)
  over_2000 : bool;       (* amount > 2000 *)
  over_1000 : bool;       (* amount > 1000 *)
  extreme_amount : bool;  (* amount < 1 or amount > 10000 *)
  odd_hour : bool;        (* hour < 6 or hour > 23 *)
  foreign : bool;         (* is_foreign *)
  rapid : bool            (* rapid_transactions *)
}.

#[global] Instance risk_predicates_eq_dec : EqDecision risk_predicates.
Proof. solve_decision. Defined.

(** The predicates a simplified request satisfies. *)
Definition request_predicates `{PyBuiltins} (data : json) : result risk_predicates :=
  amount_v ← py_get data "Amount" (JInt 0);
  amount ← py_float amount_v;
  hour ← py_get data "hour" (JInt 12);
  early ← py_lt_int hour 6;
  late ← (if early : bool then Ok true else py_gt_int hour 23);
  is_foreign ← py_get data "is_foreign" (JBool false);
  rapid_transactions ← py_get data "rapid_transactions" (JBool false);
  Ok {| over_5000 := PyFloat.gt amount 5000;
        over_2000 := PyFloat.gt amount 2000;
        over_1000 := PyFloat.gt amount 1000;
        extreme_amount := PyFloat.lt amount 1 || PyFloat.gt amount 10000;
        odd_hour := late;
        foreign := truthy is_foreign;
        rapid := truthy rapid_transactions |}.

Section FraudRules.
Local Open Scope float_scope.

(** The written rule: 0.30, 0.15 or 0.05 by amount tier, 0.20 for an extreme
    amount, 0.10 for an odd hour, 0.15 for a foreign and 0.25 for a rapid
    transaction, capped at 0.95. *)
Definition predicate_score (p : risk_predicates) : float :=
  let tier := if over_5000 p then 0 + 0.3
              else if over_2000 p then 0 + 0.15
              else if over_1000 p then 0 + 0.05
              else 0 in
  let s := if extreme_amount p then tier + 0.2 else tier in
  let s := if odd_hour p then s + 0.1 else s in
  let s := if foreign p then s + 0.15 else s in
  let s := if rapid p then s + 0.25 else s in
  PyFloat.py_min s 0.95.

(** [implies p q]: every predicate that holds in [p] holds in [q]. *)
Definition implies (p q : risk_predicates) : bool :=
  implb (over_5000 p) (over_5000 q) && implb (over_2000 p) (over_2000 q) &&
  implb (over_1000 p) (over_1000 q) && implb (extreme_amount p) (extreme_amount q) &&
  implb (odd_hour p) (odd_hour q) && implb (foreign p) (foreign q) &&
  implb (rapid p) (rapid q).

Definition all_predicates : list risk_predicates :=
  a ← [false; true]; b ← [false; true]; c ← [false; true]; d ← [false; true];
  e ← [false; true]; f ← [false; true]; g ← [false; true];
  [{| over_5000 := a; over_2000 := b; over_1000 := c; extreme_amount := d;
      odd_hour := e; foreign := f; rapid := g |}].

(** Every predicate vector with its score and the probability returned for it. *)
Definition score_table : list (risk_predicates * (float * float)) :=
  (fun p => (p, (predicate_score p, PyFloat.round (predicate_score p) 4))) <$> all_predicates.

(** In a table of scores: every returned probability is at most 0.95, and
    an entry that satisfies all that another does has neither a smaller
    score nor a smaller returned probability. *)
Definition table_ordered (t : list (risk_predicates * (float * float))) : bool :=
  forallb (fun e =>
    PyFloat.le e.2.2 0.95 &&
    forallb (fun e' =>
      implb (implies e.1 e'.1)
        (PyFloat.le e.2.1 e'.2.1 && PyFloat.le e.2.2 e'.2.2)) t) t.

End FraudRules.

(** ** The written loan rules *)

Section LoanRules.
Local Open Scope float_scope.

Definition credit_rule (credit_history : float) : float :=
  if PyFloat.eq credit_history 1 then 0.25 else -0.35.

Definition income_rule (income_to_loan : float) : float :=
  if PyFloat.gt income_to_loan 10 then 0.15
  else if PyFloat.gt income_to_loan 5 then 0.10
  else if PyFloat.gt income_to_loan 2 then 0.05
  else if PyFloat.lt income_to_loan 1 then -0.15
  else 0.

Definition emi_rule (emi_ratio : float) : float :=
  if PyFloat.lt emi_ratio 0.2 then 0.10
  else if PyFloat.lt emi_ratio 0.4 then 0.05
  else if PyFloat.gt emi_ratio 0.5 then -0.10
  else 0.

Definition education_rule (education : json) : float :=
  if eq_str education "Graduate" then 0.05 else 0.

Definition married_rule (married : json) (coapplicant_income : float) : float :=
  if eq_str married "Yes" && PyFloat.gt coapplicant_income 0 then 0.05 else 0.

Definition area_rule (property_area : json) : float :=
  if eq_str property_area "Semiurban" then 0.05
  else if eq_str property_area "Rural" then -0.05
  else 0.

Definition clamp (score : float) : float :=
  if PyFloat.lt score 0.05 then 0.05
  else if PyFloat.gt score 0.95 then 0.95
  else score.

(** The score the rules give, starting from 0.5; [emi_applies] says whether
    the EMI-ratio rule is applied to the input. *)
Definition rules_score (emi_applies : bool) (i : loan_inputs)
  (education married property_area : json) : float :=
  clamp (0.5 + credit_rule (credit_history i)
             + income_rule (income_to_loan i)
             + (if emi_applies then emi_rule (emi i / (total_income i / 12)) else 0)
             + education_rule education
             + married_rule married (coapplicant_income i)
             + area_rule property_area).

(** The rules as written: the EMI-ratio rule applies to every input. *)
Definition stated_score := rules_score true.

(** The rules with the EMI-ratio rule restricted to a positive monthly income. *)
Definition guarded_score (i : loan_inputs) := rules_score (PyFloat.gt (total_income i / 12) 0) i.

End LoanRules.

(** [data.get(k, dflt)] on a request that is a dict. *)
Definition get_default (data : json) (k : string) (dflt : json) : json :=
  match data with
  | JDict d => default dflt (d !! k)
  | _ => dflt
  end.

(** The [factor] names of a risk assessment. *)
Definition factor_names (risk : list json) : list json :=
  (fun f => match f with JDict d => default JNull (d !! "factor") | _ => JNull end) <$> risk.

(** A well-formed entry: a factor name, one of the three tags, and a message. *)
Definition tagged (f : json) : Prop :=
  exists name status message,
    f = factor name status message /\ status ∈ ["positive"; "neutral"; "negative"].

(** The score of a request under the guarded rules, with the defaults the
    handler gives the three categorical fields. *)
Definition request_score (data : json) (i : loan_inputs) : float :=
  guarded_score i (get_default data "Education" (JStr "Graduate"))
                  (get_default data "Married" (JStr "No"))
                  (get_default data "Property_Area" (JStr "Urban")).

(** ** The risk assessment as a function of the derived quantities *)

Section RiskBreakdown.
Local Open Scope float_scope.

Definition credit_factor (credit_history : float) : json :=
  if PyFloat.eq credit_history 1
  then factor "Credit History" "positive" "Good credit history"
  else factor "Credit History" "negative" "No credit history or defaults".

Definition income_factor (income_to_loan : float) : json :=
  if PyFloat.gt income_to_loan 5
  then factor "Income-to-Loan Ratio" "positive"
         ("Strong ratio: " +:+ PyFloat.format_f1 income_to_loan +:+ "x")
  else if PyFloat.gt income_to_loan 2
  then factor "Income-to-Loan Ratio" "neutral"
         ("Adequate ratio: " +:+ PyFloat.format_f1 income_to_loan +:+ "x")
  else factor "Income-to-Loan Ratio" "negative"
         ("Low ratio: " +:+ PyFloat.format_f1 income_to_loan +:+ "x").

Definition emi_factor (emi_percent : float) : json :=
  if PyFloat.lt emi_percent 30
  then factor "EMI Affordability" "positive"
         ("EMI is " +:+ PyFloat.format_f1 emi_percent +:+ "% of monthly income")
  else if PyFloat.lt emi_percent 50
  then factor "EMI Affordability" "neutral"
         ("EMI is " +:+ PyFloat.format_f1 emi_percent +:+ "% of monthly income")
  else factor "EMI Affordability" "negative"
         ("EMI is " +:+ PyFloat.format_f1 emi_percent +:+ "% of monthly income (high)").

(** Two factors always, and the EMI factor when the monthly income is positive. *)
Definition risk_breakdown (i : loan_inputs) : list json :=
  [credit_factor (credit_history i); income_factor (income_to_loan i)] ++
  (if PyFloat.gt (total_income i / 12) 0
   then [emi_factor (emi i / (total_income i / 12) * 100)]
   else []).

End RiskBreakdown.

(** ** The amortization formula *)

Definition amortization (principal monthly_rate growth : float) : float :=
  (principal * monthly_rate * growth / (growth - 1))%float.

(** The response for an unrounded instalment [emi] over [months_f] months. *)
Definition stated_summary (principal annual_rate : float) (months : Z) (months_f emi : float)
  : response :=
  jsonify [
    ("emi", JFloat (PyFloat.round emi 2));
    ("total_payment", JFloat (PyFloat.round (emi * months_f)%float 2));
    ("total_interest", JFloat (PyFloat.round (emi * months_f - principal)%float 2));
    ("principal", JFloat principal);
    ("rate", JFloat (annual_rate * 100)%float);
    ("months", JInt months)
  ].

(** ** The keyword table, in priority order

    The eight lists of the fallback, written out once more in the order of
    their tests; [match_keywords_first_match] compares them with the lists
    the embedding of [get_category_fallback] tests. *)

Definition keyword_table : list (string * list string) := [
  ("Food & Dining",
     ["swiggy"; "zomato"; "restaurant"; "cafe"; "food"; "pizza"; "burger";
      "coffee"; "dinner"; "lunch"; "breakfast"; "mcdonald"; "starbucks";
      "domino"; "kfc"; "subway"]);
  ("Transportation",
     ["uber"; "ola"; "rapido"; "metro"; "petrol"; "fuel"; "gas station";
      "parking"; "toll"; "cab"; "taxi"; "bus"; "train"; "flight"; "airline"]);
  ("Shopping",
     ["amazon"; "flipkart"; "myntra"; "shopping"; "store"; "mart";
      "purchase"; "order"; "delivery"; "grocery"]);
  ("Bills & Utilities",
     ["electricity"; "water bill"; "internet"; "broadband";
      "mobile recharge"; "rent"; "maintenance"; "utility"; "gas bill";
      "phone bill"; "dth"]);
  ("Entertainment",
     ["netflix"; "spotify"; "movie"; "cinema"; "game"; "hotstar"; "prime";
      "youtube"; "concert"; "show"]);
  ("Healthcare",
     ["hospital"; "doctor"; "pharmacy"; "medicine"; "medical"; "clinic";
      "health"; "dental"; "lab test"]);
  ("Education",
     ["course"; "tuition"; "school"; "college"; "book"; "udemy"; "coursera";
      "education"; "training"]);
  ("Travel",
     ["hotel"; "booking"; "airbnb"; "makemytrip"; "goibibo"; "travel";
      "vacation"; "trip"])
].

(** [kw] occurs in [s] as a substring. *)
Definition occurs (kw s : string) : Prop :=
  exists pre post, s = pre +:+ kw +:+ post.

(** The rule as written, on the lower-cased text: the lists are tested in
    the order of the table and the first list one of whose keywords occurs
    in the text gives its category, with confidence 0.85; when no keyword
    of any list occurs, the answer is Others with confidence 0.50. *)
Definition stated_fallback (text category : string) (confidence : float) : Prop :=
  (exists pre kws post,
     keyword_table = pre ++ (category, kws) :: post /\
     (exists kw, kw ∈ kws /\ occurs kw text) /\
     (forall entry kw, entry ∈ pre -> kw ∈ entry.2 -> ~ occurs kw text) /\
     confidence = 0.85%float) \/
  ((forall entry kw, entry ∈ keyword_table -> kw ∈ entry.2 -> ~ occurs kw text) /\
   category = "Others" /\ confidence = 0.5%float).

(** First match wins; no match gives the default. *)
Fixpoint first_match (table : list (string * list string)) (text : string) : string * float :=
  match table with
  | (category, keywords) :: rest =>
      if any_in keywords text then (category, 0.85%float) else first_match rest text
  | [] => ("Others", 0.50%float)
  end.

(** ** Sample states and requests *)

Definition no_models : models :=
  {| fraud_model := None; loan_model := None;
     expense_classifier := None; expense_vectorizer := None |}.

Definition without_loan_model (st : models) : models :=
  {| fraud_model := fraud_model st; loan_model := None;
     expense_classifier := expense_classifier st;
     expense_vectorizer := expense_vectorizer st |}.

Definition batch_one_6000 : json :=
  dict [("transactions", JList [dict [("Amount", JInt 6000)]])].

Definition morning_request : json :=
  dict [("simplified", JBool true); ("Amount", JInt 1500)].

Definition night_foreign_request : json :=
  dict [("simplified", JBool true); ("Amount", JInt 7000); ("hour", JInt 3);
        ("is_foreign", JBool true)].

Definition full_model_request : json :=
  dict [("Time", JInt 0); ("Amount", JInt 6000)].

Definition no_income_request : json := dict [("LoanAmount", JInt 100)].

Definition negative_income_request : json :=
  dict [("LoanAmount", JInt 100); ("ApplicantIncome", JInt (-1200))].

Definition salaried_request : json :=
  dict [("LoanAmount", JInt 150); ("ApplicantIncome", JInt 5000);
        ("CoapplicantIncome", JFloat 1500.5); ("Married", JStr "Yes");
        ("Dependents", JStr "3+"); ("Property_Area", JStr "Semiurban")].

(** A classifier without probability estimates. *)
Definition no_proba_model : classifier :=
  {| clf_predict := fun _ => Ok 1%Z;
     clf_predict_proba := fun _ => Raise (AttributeError "predict_proba is not available") |}.

(** A classifier whose prediction fails. *)
Definition failing_model : classifier :=
  {| clf_predict := fun _ => Raise (ValueError "Feature names unseen at fit time");
     clf_predict_proba := fun _ => Raise (ValueError "Feature names unseen at fit time") |}.

Definition with_loan_model (m : classifier) : models :=
  {| fraud_model := None; loan_model := Some m;
     expense_classifier := None; expense_vectorizer := None |}.

Definition thirty_year_loan : json :=
  dict [("principal", JInt 100000); ("rate", JInt 12); ("months", JInt 360)].

Definition one_year_loan : json :=
  dict [("principal", JInt 1200); ("rate", JInt 12); ("months", JInt 12)].

Definition zero_rate_loan : json :=
  dict [("principal", JInt 100); ("rate", JInt 0); ("months", JInt 3)].

Definition swiggy_request : json :=
  dict [("description", JStr "Swiggy order delivered Rs 450")].

(** A model directory whose expense classifier loads while loading the
    vectorizer raises [e]. *)
Definition vectorizer_unreadable (c : text_classifier) (e : exn) : model_dir :=
  {| credit_card_model_pkl := Missing;
     load_prediction_model_joblib := Missing;
     expense_classifier_clean_pkl := Loads c;
     tfidf_vectorizer_clean_pkl := Corrupt e |}.

(** The eight categories the keyword lists name. *)
Definition keyword_categories : list string :=
  ["Food & Dining"; "Transportation"; "Shopping"; "Bills & Utilities";
   "Entertainment"; "Healthcare"; "Education"; "Travel"].

(** * Further embedded code *)

(** ** The feature vector of the fraud model *)

(** The frame [predict_fraud] builds for the model (lines 175-183): the
    thirty columns in order, an absent or null field entering as [0.0]. *)
Definition fraud_frame `{PyBuiltins} (data : json) : result frame :=
  features ← mapM (fun feat =>
    value ← py_get data feat (JInt 0);
    match value with
    | JNull => Ok 0%float
    | _ => py_float value
    end) feature_names;
  Ok (zip feature_names (JFloat <$> features)).

(** ** Column identification of [retrain_expense_model.py] *)

Section Retraining.
Context `{PyBuiltins}.





End Retraining.

(** ** Auxiliary notions for the statements *)

(** [joblib.load] / [pickle.load] succeeded on the artifact. *)
Definition is_loaded {A} (f : artifact A) : bool :=
  match f with
  | Loads _ => true
  | _ => false
  end.

(** [s.isascii()] *)
Definition isascii (s : string) : bool :=
  forallb (fun c => (nat_of_ascii c <? 128)%nat) (String.list_ascii_of_string s).

(** What [str.lower] does to an ASCII word inside a text: the word is
    lowered in place, letter by letter, whatever surrounds it (the mapping
    of a letter A-Z does not depend on its neighbours). *)
Definition lowers_ascii_words `{PyBuiltins} : Prop :=
  forall pre word post, isascii word = true ->
    exists pre' post',
      str_lower (pre +:+ word +:+ post) = pre' +:+ CPython.ascii_lower word +:+ post'.

(** ** More sample states and requests *)

(** A classifier that always answers class 1 with probability 0.9. *)
Definition sure_model : classifier :=
  {| clf_predict := fun _ => Ok 1%Z;
     clf_predict_proba := fun _ => Ok 0.9%float |}.

Definition with_fraud_model (m : classifier) : models :=
  {| fraud_model := Some m; loan_model := None;
     expense_classifier := None; expense_vectorizer := None |}.

(** A vectorizer and a classifier that label every text "Crypto". *)
Definition crypto_vectorizer : vectorizer :=
  {| vec_transform := fun _ => Ok [] |}.

Definition crypto_classifier : text_classifier :=
  {| txt_predict := fun _ => Ok "Crypto";
     txt_predict_proba_max := fun _ => Ok 0.6%float |}.

Definition with_expense_model (c : text_classifier) (v : vectorizer) : models :=
  {| fraud_model := None; loan_model := None;
     expense_classifier := Some c; expense_vectorizer := Some v |}.

Definition two_transactions : list json :=
  [dict [("id", JStr "a"); ("Amount", JInt 12000); ("is_foreign", JBool true)];
   dict [("transaction_id", JInt 7); ("amount", JFloat 250.5)]].

Definition two_descriptions : list json :=
  [dict [("id", JStr "txn1"); ("description", JStr "Uber ride to airport")];
   dict [("id", JStr "txn2"); ("description", JStr "")]].


Definition unscorable_request : json := dict [("Amount", JStr "a lot")].

(** The frame of [full_model_request]. *)
Definition full_model_frame : frame :=
  zip feature_names (JFloat <$> (0%float :: replicate 28 0%float ++ [6000%float])).

(** The reading of [Dependents] (lines 240-246). *)
Definition read_dependents `{PyBuiltins} (dependents : json) : result Z :=
  match dependents with
  | JStr s => if String.eqb s "3+" then Ok 3%Z else py_int dependents
  | _ => py_int dependents
  end.

(** The feature engineering of [predict_loan] (lines 249-259), from the six
    inputs read. *)
Definition derive_inputs (applicant_income coapplicant_income loan_amount loan_term
    credit_history : float) (dependents : Z) : result loan_inputs :=
  let total_income := (applicant_income + coapplicant_income)%float in
  let loan_term := if PyFloat.eq loan_term 0 then Int 360 else Float loan_term in
  let loan_amount := if PyFloat.eq loan_amount 0 then Int 1 else Float loan_amount in
  emi ← truediv loan_amount loan_term;
  income_to_loan ← truediv (Float total_income) (add_int loan_amount 1);
  loan_per_person ← truediv loan_amount (Int (dependents + 1));
  Ok {| applicant_income := applicant_income;
        coapplicant_income := coapplicant_income;
        loan_amount := loan_amount;
        loan_term := loan_term;
        credit_history := credit_history;
        dependents := dependents;
        total_income := total_income;
        emi := emi;
        income_to_loan := income_to_loan;
        loan_per_person := loan_per_person |}.

(** The fields the heuristic path of [predict_loan] reads. *)
Definition heuristic_fields : list string :=
  ["ApplicantIncome"; "CoapplicantIncome"; "LoanAmount"; "Loan_Amount_Term";
   "Credit_History"; "Dependents"; "Education"; "Married"; "Property_Area"].

(** The answer of [categorize_expense] for a category, a confidence in
    percent and an entry of the metadata table (lines 624-630). *)
Definition expense_answer (st : models) (category : string) (confidence : float)
    (meta : metadata) : response :=
  jsonify [("category", JStr category);
           ("confidence", JFloat confidence);
           ("icon", JStr (icon meta));
           ("color", JStr (color meta));
           ("model_used", JStr (model_used st))].

(** The nine answers of the keyword fallback, with the confidence in percent
    as returned. *)
Definition fallback_answers : list (string * float) :=
  [("Food & Dining", 85%float); ("Transportation", 85%float); ("Shopping", 85%float);
   ("Bills & Utilities", 85%float); ("Entertainment", 85%float); ("Healthcare", 85%float);
   ("Education", 85%float); ("Travel", 85%float); ("Others", 50%float)].

(** A key of a decoded JSON object. *)
Definition member (k : string) (v : json) : option json :=
  match v with
  | JDict d => d !! k
  | _ => None
  end.


(** ** Further sample requests *)

Definition foreign_big_tx : gmap string json :=
  list_to_map [("id", JStr "a"); ("Amount", JInt 12000); ("is_foreign", JBool true)].

Definition two_transaction_batch : json :=
  dict [("transactions", JList two_transactions)].

Definition unscorable_batch : json :=
  dict [("transactions", JList [JDict foreign_big_tx; unscorable_request])].

Definition night_foreign_predicates : risk_predicates :=
  {| over_5000 := true; over_2000 := true; over_1000 := true; extreme_amount := false;
     odd_hour := true; foreign := true; rapid := false |}.

(** A small amount with every other mark set. *)
Definition small_marked_fields : gmap string json :=
  list_to_map [("simplified", JBool true); ("Amount", JInt 500); ("hour", JInt 2);
               ("is_foreign", JBool true); ("rapid_transactions", JBool true)].

Definition small_marked_predicates : risk_predicates :=
  {| over_5000 := false; over_2000 := false; over_1000 := false; extreme_amount := false;
     odd_hour := true; foreign := true; rapid := true |}.

Definition salaried_fields : gmap string json :=
  list_to_map [("LoanAmount", JInt 150); ("ApplicantIncome", JInt 5000);
               ("CoapplicantIncome", JFloat 1500.5); ("Married", JStr "Yes");
               ("Dependents", JStr "3+"); ("Property_Area", JStr "Semiurban")].

Definition one_year_fields : gmap string json :=
  list_to_map [("principal", JInt 1200); ("rate", JInt 12); ("months", JInt 12)].

Definition description_batch_fields : gmap string json :=
  list_to_map [("transactions", JList two_descriptions)].

Definition uber_transaction : json :=
  dict [("id", JStr "txn1"); ("description", JStr "Uber ride to airport")].

(** A request whose heuristic score is just below one half. *)
Definition borderline_request : json :=
  dict [("Credit_History", JInt 0); ("ApplicantIncome", JInt 500);
        ("CoapplicantIncome", JInt 106); ("LoanAmount", JInt 100);
        ("Married", JStr "Yes"); ("Property_Area", JStr "Semiurban")].

(** The columns of the frame handed to the loan model, in the order of the
    [features] dict (lines 266-284), and the six among them that encode a
    category. *)
Definition loan_feature_names : list string :=
  ["ApplicantIncome"; "CoapplicantIncome"; "LoanAmount"; "Loan_Amount_Term";
   "Credit_History"; "Dependents"; "Total_Income"; "EMI"; "Income_to_Loan";
   "Loan_per_person"; "Gender_Male"; "Married_Yes"; "Education_Not Graduate";
   "Self_Employed_Yes"; "Property_Area_Semiurban"; "Property_Area_Urban"].

Definition one_hot_names : list string :=
  ["Gender_Male"; "Married_Yes"; "Education_Not Graduate"; "Self_Employed_Yes";
   "Property_Area_Semiurban"; "Property_Area_Urban"].

(** A request with every categorical field of the loan model. *)
Definition rural_fields : gmap string json :=
  list_to_map [("LoanAmount", JInt 150); ("ApplicantIncome", JInt 5000);
               ("Gender", JStr "Female"); ("Married", JStr "Yes");
               ("Education", JStr "Not Graduate"); ("Self_Employed", JStr "Yes");
               ("Property_Area", JStr "Rural")].

(** * Theorems *)

(** ** The result monad *)

Lemma bind_Ok {A B} (c : result A) (k : A -> result B) (b : B) :
  c ≫= k = Ok b -> exists a, c = Ok a /\ k a = Ok b.
Proof. destruct c as [a|e]; simpl; [eauto | discriminate]. Qed.

Lemma py_get_Ok (data : json) (k : string) (dflt v : json) :
  py_get data k dflt = Ok v -> exists d, data = JDict d /\ v = default dflt (d !! k).
Proof. destruct data; simpl; try discriminate. intros [= <-]. eauto. Qed.

(** Splits a hypothesis [c ≫= k = Ok b] into its successful steps. *)
Ltac bind_inv H :=
  let a := fresh "a" in
  let Ha := fresh "Ha" in
  apply bind_Ok in H as (a & Ha & H).

(** Case analysis on the first step of a computation in the result monad. *)
Ltac case_result :=
  match goal with
  | |- context [?c ≫= _] => destruct c; simpl
  | |- context [try_except ?c _] => destruct c; simpl
  end.

(** ** Fraud detection *)

Section FraudTheorems.
Context `{PyBuiltins}.

(** Every answer of [predict_fraud] with status 200 is a computed result:
    it carries no [fallback] field. *)
Lemma computed_result_has_no_fallback (st : models) (data : json) :
  status (predict_fraud st (Ok data)) = 200%Z ->
  field "fallback" (predict_fraud st (Ok data)) = None.
Proof.
  unfold predict_fraud. cbn [mbind result_bind].
  unfold predict_fraud_simplified, predict_fraud_model.
  destruct (truthy data); simpl; [|discriminate].
  destruct (py_get data "simplified" (JBool false)) as [flag|]; simpl; [|discriminate].
  destruct (truthy flag).
  - repeat case_result; try discriminate; intros _; reflexivity.
  - destruct (fraud_model st) as [model|]; simpl; [|discriminate].
    repeat case_result; try discriminate; intros _; reflexivity.
Qed.

(** C8: when [predict_fraud] takes the model path (a non-empty request whose
    [simplified] flag is absent or false) and no fraud model is loaded, the
    response is HTTP 503 with the body [{error, fallback: true,
    is_fraud: false, fraud_probability: 0.0}]; the [fallback] field tells
    it from a computed result, which has status 200 and no such field. *)
Theorem predict_fraud_model_unavailable (st : models) (data flag : json) :
  truthy data = true ->
  py_get data "simplified" (JBool false) = Ok flag ->
  truthy flag = false ->
  fraud_model st = None ->
  predict_fraud st (Ok data) =
    Resp 503 (dict [("error", JStr "Fraud detection model not loaded");
                    ("fallback", JBool true);
                    ("is_fraud", JBool false);
                    ("fraud_probability", JFloat 0)]) /\
  (forall st' data',
     status (predict_fraud st' (Ok data')) = 200%Z ->
     field "fallback" (predict_fraud st' (Ok data')) = None).
Proof.
  intros Hdata Hflag Hfalse Hmodel. split.
  - unfold predict_fraud. cbn [mbind result_bind]. rewrite Hdata. simpl. rewrite Hflag. simpl.
    rewrite Hfalse. unfold predict_fraud_model. rewrite Hmodel. reflexivity.
  - apply computed_result_has_no_fallback.
Qed.

(** C1, as amended: a batch of exactly one transaction whose amount is 6000
    and whose [is_foreign] is absent or false gets [is_fraud = false],
    [fraud_probability = 0.3] and [risk_level = LOW]; nothing is flagged. *)
Theorem predict_fraud_batch_6000 (data : json) (tx : gmap string json) (amount_v : json) :
  py_get data "transactions" (JList []) = Ok (JList [JDict tx]) ->
  tx !! "Amount" = Some amount_v ->
  py_float amount_v = Ok 6000%float ->
  truthy (default (JBool false) (tx !! "is_foreign")) = false ->
  predict_fraud_batch data =
    Resp 200 (dict [
      ("success", JBool true);
      ("results", JList [dict [
         ("transaction_id", default (default JNull (tx !! "transaction_id")) (tx !! "id"));
         ("is_fraud", JBool false);
         ("fraud_probability", JFloat 0.3);
         ("risk_level", JStr "LOW")]]);
      ("total", JInt 1);
      ("flagged", JInt 0)]).
Proof.
  intros Htxs Hamount Hfloat Hforeign.
  unfold predict_fraud_batch. rewrite Htxs. simpl.
  unfold score_transaction. simpl. rewrite Hamount. simpl. rewrite Hfloat. simpl.
  rewrite Hforeign. reflexivity.
Qed.

End FraudTheorems.

Lemma predict_fraud_model_unavailable_witness :
  predict_fraud no_models (Ok full_model_request) =
    Resp 503 (dict [("error", JStr "Fraud detection model not loaded");
                    ("fallback", JBool true);
                    ("is_fraud", JBool false);
                    ("fraud_probability", JFloat 0)]).
Proof.
  apply (predict_fraud_model_unavailable no_models full_model_request (JBool false));
    reflexivity.
Defined.

(** The written example for C1 evaluates otherwise: a single transaction of
    6000 scores 0.3, which is not above the 0.5 threshold. *)
Lemma batch_6000_is_not_fraud :
  field "results" (predict_fraud_batch batch_one_6000) =
    Some (JList [dict [("transaction_id", JNull);
                       ("is_fraud", JBool false);
                       ("fraud_probability", JFloat 0.3);
                       ("risk_level", JStr "LOW")]]).
Proof. reflexivity. Qed.

Lemma predict_fraud_batch_6000_witness :
  predict_fraud_batch batch_one_6000 =
    Resp 200 (dict [
      ("success", JBool true);
      ("results", JList [dict [
         ("transaction_id", JNull);
         ("is_fraud", JBool false);
         ("fraud_probability", JFloat 0.3);
         ("risk_level", JStr "LOW")]]);
      ("total", JInt 1);
      ("flagged", JInt 0)]).
Proof.
  rewrite (predict_fraud_batch_6000 batch_one_6000
             (list_to_map [("Amount", JInt 6000)]) (JInt 6000));
    vm_compute; reflexivity.
Defined.

(** ** Monotonicity of the simplified fraud score *)

Lemma all_predicates_complete (p : risk_predicates) : p ∈ all_predicates.
Proof.
  destruct p as [[] [] [] [] [] [] []];
    apply (bool_decide_unpack _); vm_compute; exact I.
Qed.

Lemma table_ordered_capped (t : list (risk_predicates * (float * float))) :
  table_ordered t = true ->
  forall e, In e t -> PyFloat.le e.2.2 0.95 = true.
Proof.
  unfold table_ordered. rewrite forallb_forall. intros Ht e He.
  apply Ht in He. apply andb_prop in He as [He _]. exact He.
Qed.

Lemma table_ordered_monotone (t : list (risk_predicates * (float * float))) :
  table_ordered t = true ->
  forall e e', In e t -> In e' t -> implies e.1 e'.1 = true ->
  PyFloat.le e.2.1 e'.2.1 = true /\ PyFloat.le e.2.2 e'.2.2 = true.
Proof.
  unfold table_ordered. rewrite forallb_forall. intros Ht e e' He He' Himp.
  apply Ht in He. apply andb_prop in He as [_ He].
  rewrite forallb_forall in He. apply He in He'.
  rewrite Himp in He'. apply andb_prop in He'. exact He'.
Qed.

(** The table of all 128 predicate vectors is ordered. *)
Lemma score_table_ordered : table_ordered score_table = true.
Proof. vm_compute. reflexivity. Qed.

Lemma score_table_complete (p : risk_predicates) :
  In (p, (predicate_score p, PyFloat.round (predicate_score p) 4)) score_table.
Proof.
  apply list_elem_of_In. unfold score_table.
  apply (list_elem_of_fmap_2
           (fun p => (p, (predicate_score p, PyFloat.round (predicate_score p) 4)))).
  apply all_predicates_complete.
Qed.

Lemma predicate_score_monotone (p q : risk_predicates) :
  implies p q = true ->
  PyFloat.le (predicate_score p) (predicate_score q) = true /\
  PyFloat.le (PyFloat.round (predicate_score p) 4) (PyFloat.round (predicate_score q) 4) = true.
Proof.
  intros Hpq.
  exact (table_ordered_monotone score_table score_table_ordered _ _
           (score_table_complete p) (score_table_complete q) Hpq).
Qed.

Lemma predicate_score_capped (p : risk_predicates) :
  PyFloat.le (PyFloat.round (predicate_score p) 4) 0.95 = true.
Proof.
  exact (table_ordered_capped score_table score_table_ordered _ (score_table_complete p)).
Qed.

Section SimplifiedFraud.
Context `{PyBuiltins}.

(** The simplified branch computes [predicate_score] of the predicates the
    request satisfies. *)
Lemma predict_fraud_simplified_score (data : json) (p : risk_predicates) :
  request_predicates data = Ok p ->
  predict_fraud_simplified data =
    Ok (jsonify [
      ("is_fraud", JBool (PyFloat.gt (predicate_score p) 0.5));
      ("fraud_probability", JFloat (PyFloat.round (predicate_score p) 4));
      ("risk_level", JStr (risk_level (predicate_score p)));
      ("model_type", JStr "heuristic")]).
Proof.
  unfold request_predicates, predict_fraud_simplified. intros Hp.
  destruct (py_get data "Amount" (JInt 0)) as [amount_v|]; [simpl in *|discriminate].
  destruct (py_float amount_v) as [amount|]; [simpl in *|discriminate].
  destruct (py_get data "hour" (JInt 12)) as [hour|]; [simpl in *|discriminate].
  destruct (py_lt_int hour 6) as [early|]; [simpl in *|discriminate].
  destruct (if early then Ok true else py_gt_int hour 23) as [late|];
    [simpl in *|discriminate].
  destruct (py_get data "is_foreign" (JBool false)) as [is_foreign|];
    [simpl in *|discriminate].
  destruct (py_get data "rapid_transactions" (JBool false)) as [rapid_tx|];
    [simpl in *|discriminate].
  injection Hp as <-. reflexivity.
Qed.

Lemma simplified_request_truthy (data : json) (p : risk_predicates) :
  request_predicates data = Ok p ->
  truthy (get_default data "simplified" (JBool false)) = true ->
  truthy data = true /\
  py_get data "simplified" (JBool false) = Ok (get_default data "simplified" (JBool false)).
Proof.
  intros Hp Hflag. unfold request_predicates in Hp. bind_inv Hp.
  apply py_get_Ok in Ha as (d & -> & _). simpl in *. split; [|reflexivity].
  destruct (decide (d = ∅)) as [->|Hne].
  - rewrite lookup_empty in Hflag. discriminate.
  - rewrite bool_decide_eq_false_2; auto.
Qed.

Lemma predict_fraud_simplified_probability (st : models) (data : json) (p : risk_predicates) :
  truthy (get_default data "simplified" (JBool false)) = true ->
  request_predicates data = Ok p ->
  field "fraud_probability" (predict_fraud st (Ok data)) =
    Some (JFloat (PyFloat.round (predicate_score p) 4)).
Proof.
  intros Hflag Hp.
  destruct (simplified_request_truthy data p Hp Hflag) as [Hdata Hget].
  unfold predict_fraud. cbn [mbind result_bind]. rewrite Hdata. simpl. rewrite Hget.
  simpl. rewrite Hflag.
  rewrite (predict_fraud_simplified_score data p Hp). reflexivity.
Qed.

(** A single flip on a request: marking it foreign never lowers the
    returned probability. *)
Lemma marking_foreign_never_lowers (st : models) (d : gmap string json)
    (p : risk_predicates) :
  truthy (get_default (JDict d) "simplified" (JBool false)) = true ->
  request_predicates (JDict d) = Ok p ->
  exists r r',
    field "fraud_probability" (predict_fraud st (Ok (JDict d))) = Some (JFloat r) /\
    field "fraud_probability"
      (predict_fraud st (Ok (JDict (<["is_foreign" := JBool true]> d)))) = Some (JFloat r') /\
    PyFloat.le r r' = true.
Proof.
  intros Hflag Hp.
  assert (request_predicates (JDict (<["is_foreign" := JBool true]> d)) =
            Ok {| over_5000 := over_5000 p; over_2000 := over_2000 p;
                  over_1000 := over_1000 p; extreme_amount := extreme_amount p;
                  odd_hour := odd_hour p; foreign := true; rapid := rapid p |}) as Hp'.
  { unfold request_predicates in *. simpl in *.
    rewrite lookup_insert_eq.
    rewrite !lookup_insert_ne by discriminate.
    repeat bind_inv Hp. injection Hp as <-. simpl.
    rewrite Ha. simpl. rewrite Ha0. simpl. rewrite Ha1. reflexivity. }
  do 2 eexists. split; [|split].
  - apply predict_fraud_simplified_probability; eassumption.
  - apply predict_fraud_simplified_probability; [|exact Hp'].
    simpl in *. rewrite lookup_insert_ne by discriminate. exact Hflag.
  - apply predicate_score_monotone. unfold implies. simpl.
    rewrite !implb_same. destruct (foreign p); reflexivity.
Qed.

(** C3: in simplified mode, a request that satisfies every risk-boosting
    predicate another request satisfies (amount over 5000, over 2000, over
    1000, amount below 1 or over 10000, hour below 6 or over 23, is_foreign,
    rapid_transactions), and possibly more, is returned a fraud
    probability at least as large; and no returned probability exceeds 0.95. *)
Theorem simplified_fraud_monotone_capped (st : models) (d1 d2 : json)
    (p1 p2 : risk_predicates) :
  truthy (get_default d1 "simplified" (JBool false)) = true ->
  truthy (get_default d2 "simplified" (JBool false)) = true ->
  request_predicates d1 = Ok p1 ->
  request_predicates d2 = Ok p2 ->
  implies p1 p2 = true ->
  exists r1 r2,
    field "fraud_probability" (predict_fraud st (Ok d1)) = Some (JFloat r1) /\
    field "fraud_probability" (predict_fraud st (Ok d2)) = Some (JFloat r2) /\
    PyFloat.le r1 r2 = true /\
    PyFloat.le r1 0.95 = true /\ PyFloat.le r2 0.95 = true.
Proof.
  intros Hs1 Hs2 Hp1 Hp2 Himp.
  exists (PyFloat.round (predicate_score p1) 4), (PyFloat.round (predicate_score p2) 4).
  repeat split.
  - apply predict_fraud_simplified_probability; assumption.
  - apply predict_fraud_simplified_probability; assumption.
  - apply predicate_score_monotone, Himp.
  - apply predicate_score_capped.
  - apply predicate_score_capped.
Qed.

End SimplifiedFraud.

Lemma simplified_fraud_monotone_capped_witness :
  exists r1 r2,
    field "fraud_probability" (predict_fraud no_models (Ok morning_request)) = Some (JFloat r1) /\
    field "fraud_probability" (predict_fraud no_models (Ok night_foreign_request)) = Some (JFloat r2) /\
    PyFloat.le r1 r2 = true /\
    PyFloat.le r1 0.95 = true /\ PyFloat.le r2 0.95 = true.
Proof.
  apply (simplified_fraud_monotone_capped no_models morning_request night_foreign_request
           {| over_5000 := false; over_2000 := false; over_1000 := true;
              extreme_amount := false; odd_hour := false; foreign := false;
              rapid := false |}
           {| over_5000 := true; over_2000 := true; over_1000 := true;
              extreme_amount := false; odd_hour := true; foreign := true;
              rapid := false |});
    reflexivity.
Defined.

(** ** Loan eligibility *)

Lemma clamp_rules_bounds (emi_applies : bool) (i : loan_inputs)
    (education married property_area : json) :
  PyFloat.le 0.05 (rules_score emi_applies i education married property_area) = true /\
  PyFloat.le (rules_score emi_applies i education married property_area) 0.95 = true.
Proof.
  unfold rules_score, credit_rule, income_rule, emi_rule, education_rule,
    married_rule, area_rule.
  destruct emi_applies;
  repeat match goal with
         | |- context [if ?c then _ else _] => destruct c
         end; split; reflexivity.
Qed.

(** The score the handler computes is the score of the guarded rules. *)
Lemma heuristic_score_guarded (i : loan_inputs) (education married property_area : json) :
  heuristic_score i education married property_area =
  guarded_score i education married property_area.
Proof.
  unfold heuristic_score, guarded_score, rules_score, credit_rule, income_rule,
    emi_rule, education_rule, married_rule, area_rule.
  repeat match goal with
         | |- context [if ?c then _ else _] => destruct c
         end; reflexivity.
Qed.

Section LoanTheorems.
Context `{PyBuiltins}.

(** What a successful prelude says about the request. *)
Lemma loan_prelude_inv (data : json) (i : loan_inputs) :
  loan_prelude data = Ok i ->
  exists d, data = JDict d /\
    py_float (default (JInt 0) (d !! "ApplicantIncome")) = Ok (applicant_income i) /\
    py_float (default (JInt 0) (d !! "CoapplicantIncome")) = Ok (coapplicant_income i) /\
    total_income i = (applicant_income i + coapplicant_income i)%float.
Proof.
  unfold loan_prelude. intros Hi.
  bind_inv Hi. apply py_get_Ok in Ha as (d & -> & ->). exists d.
  simpl in Hi. repeat bind_inv Hi. injection Hi as <-. simpl. auto.
Qed.

(** [get_risk_factors] returns the breakdown of the derived quantities. *)
Lemma get_risk_factors_breakdown (data : json) (i : loan_inputs) :
  loan_prelude data = Ok i ->
  get_risk_factors data (emi i) (income_to_loan i) (credit_history i) =
    Ok (risk_breakdown i).
Proof.
  intros Hi. destruct (loan_prelude_inv data i Hi) as (d & -> & Ha & Hc & Ht).
  unfold get_risk_factors, risk_breakdown, credit_factor, income_factor, emi_factor.
  simpl. rewrite Ha. simpl. rewrite Hc. simpl. rewrite Ht.
  repeat match goal with
         | |- context [if ?c then _ else _] => destruct c
         end; reflexivity.
Qed.

(** The heuristic path, once the prelude has succeeded. *)
Lemma loan_heuristic_response (data : json) (i : loan_inputs) :
  loan_prelude data = Ok i ->
  loan_heuristic data i =
    Ok (jsonify [
      ("is_approved", JBool (PyFloat.ge (request_score data i) 0.5));
      ("approval_probability", JFloat (PyFloat.round (request_score data i) 4));
      ("risk_assessment", JList (risk_breakdown i));
      ("model_type", JStr "heuristic")]).
Proof.
  intros Hi. unfold loan_heuristic.
  rewrite (get_risk_factors_breakdown data i Hi).
  destruct (loan_prelude_inv data i Hi) as (d & -> & _).
  simpl. unfold request_score. rewrite heuristic_score_guarded. reflexivity.
Qed.

(** [predict_loan] when the heuristic path runs. *)
Lemma predict_loan_heuristic (st : models) (data : json) (i : loan_inputs) :
  truthy data = true ->
  loan_prelude data = Ok i ->
  loan_model st = None \/
    (exists m e, loan_model st = Some m /\ loan_model_path m data i = Raise e) ->
  predict_loan st (Ok data) =
    jsonify [
      ("is_approved", JBool (PyFloat.ge (request_score data i) 0.5));
      ("approval_probability", JFloat (PyFloat.round (request_score data i) 4));
      ("risk_assessment", JList (risk_breakdown i));
      ("model_type", JStr "heuristic")].
Proof.
  intros Hdata Hi Hpath. unfold predict_loan. cbn [mbind result_bind]. rewrite Hdata, Hi. simpl.
  destruct Hpath as [-> | (m & e & -> & Hfail)].
  - rewrite (loan_heuristic_response data i Hi). reflexivity.
  - rewrite Hfail. simpl. rewrite (loan_heuristic_response data i Hi). reflexivity.
Qed.

(** C2, as amended: whenever the heuristic path of [predict_loan] runs (no
    loan model, or the model path raised), the score starts at 0.5, is
    adjusted by the credit-history, income-to-loan, education,
    married-with-coapplicant and property-area rules and, only when the
    monthly income [total_income / 12] is positive, by the EMI-ratio rule;
    it is clamped into [0.05, 0.95]; [is_approved] is [score >= 0.5] and
    [approval_probability] is the score rounded to four decimals. *)
Theorem loan_heuristic_rules (st : models) (data : json) (i : loan_inputs) :
  truthy data = true ->
  loan_prelude data = Ok i ->
  loan_model st = None \/
    (exists m e, loan_model st = Some m /\ loan_model_path m data i = Raise e) ->
  predict_loan st (Ok data) =
    jsonify [
      ("is_approved", JBool (PyFloat.ge (request_score data i) 0.5));
      ("approval_probability", JFloat (PyFloat.round (request_score data i) 4));
      ("risk_assessment", JList (risk_breakdown i));
      ("model_type", JStr "heuristic")] /\
  PyFloat.le 0.05 (request_score data i) = true /\
  PyFloat.le (request_score data i) 0.95 = true.
Proof.
  intros Hdata Hi Hpath. split.
  - apply predict_loan_heuristic; assumption.
  - apply clamp_rules_bounds.
Qed.

(** The [risk_assessment] of any response of [predict_loan] to a request
    the prelude accepts. *)
Lemma predict_loan_risk_assessment (st : models) (data : json) (i : loan_inputs) :
  truthy data = true ->
  loan_prelude data = Ok i ->
  field "risk_assessment" (predict_loan st (Ok data)) = Some (JList (risk_breakdown i)).
Proof.
  intros Hdata Hi.
  destruct (loan_model st) as [m|] eqn:Hm.
  - destruct (loan_model_path m data i) as [r|e] eqn:Hpath.
    + unfold predict_loan. cbn [mbind result_bind]. rewrite Hdata, Hi. simpl.
      rewrite Hm, Hpath. simpl.
      unfold loan_model_path in Hpath.
      rewrite (get_risk_factors_breakdown data i Hi) in Hpath.
      repeat bind_inv Hpath. simplify_eq. reflexivity.
    + rewrite (predict_loan_heuristic st data i Hdata Hi); [reflexivity|].
      right. eauto.
  - rewrite (predict_loan_heuristic st data i Hdata Hi); [reflexivity|]. auto.
Qed.

Lemma risk_breakdown_names (i : loan_inputs) :
  factor_names (risk_breakdown i) =
    [JStr "Credit History"; JStr "Income-to-Loan Ratio"] ++
    (if PyFloat.gt (total_income i / 12) 0 then [JStr "EMI Affordability"] else []).
Proof.
  unfold risk_breakdown, credit_factor, income_factor, emi_factor.
  repeat match goal with
         | |- context [if ?c then _ else _] => destruct c
         end; reflexivity.
Qed.

Lemma risk_breakdown_tagged (i : loan_inputs) : Forall tagged (risk_breakdown i).
Proof.
  unfold risk_breakdown, credit_factor, income_factor, emi_factor.
  repeat match goal with
         | |- context [if ?c then _ else _] => destruct c
         end;
    repeat constructor; unfold tagged;
    do 3 eexists; (split; [reflexivity | set_solver]).
Qed.

(** C5, as amended: on both paths the response of [predict_loan] carries a
    [risk_assessment] whose factors are Credit History and Income-to-Loan
    Ratio, followed by EMI Affordability exactly when the monthly income
    [total_income / 12] is positive; each entry is tagged positive, neutral
    or negative and has a message. *)
Theorem risk_assessment_factors (st : models) (data : json) (i : loan_inputs) :
  truthy data = true ->
  loan_prelude data = Ok i ->
  exists risk,
    field "risk_assessment" (predict_loan st (Ok data)) = Some (JList risk) /\
    factor_names risk =
      [JStr "Credit History"; JStr "Income-to-Loan Ratio"] ++
      (if PyFloat.gt (total_income i / 12) 0 then [JStr "EMI Affordability"] else []) /\
    Forall tagged risk.
Proof.
  intros Hdata Hi. exists (risk_breakdown i). split; [|split].
  - apply predict_loan_risk_assessment; assumption.
  - apply risk_breakdown_names.
  - apply risk_breakdown_tagged.
Qed.

(** C9, as amended: with a loan model loaded, a failure while the features
    are built or in the class prediction falls through to the heuristic
    path, and the response is the one given without a model (status 200,
    [model_type = heuristic]); a failure of the probability estimate alone
    does not fall through: the model response is returned, with the class
    prediction as the probability. *)
Theorem loan_model_failure_falls_through (st : models) (data : json) (i : loan_inputs)
    (m : classifier) :
  truthy data = true ->
  loan_prelude data = Ok i ->
  loan_model st = Some m ->
  ((forall X, loan_features data i = Ok X -> exists e, clf_predict m X = Raise e) ->
     predict_loan st (Ok data) = predict_loan (without_loan_model st) (Ok data) /\
     status (predict_loan st (Ok data)) = 200%Z /\
     field "model_type" (predict_loan st (Ok data)) = Some (JStr "heuristic")) /\
  (forall X p e x,
     loan_features data i = Ok X ->
     clf_predict m X = Ok p ->
     clf_predict_proba m X = Raise e ->
     PyFloat.of_int p = Ok x ->
     status (predict_loan st (Ok data)) = 200%Z /\
     field "model_type" (predict_loan st (Ok data)) = Some (JStr "ml_model") /\
     field "approval_probability" (predict_loan st (Ok data)) =
       Some (JFloat (PyFloat.round x 4))).
Proof.
  intros Hdata Hi Hm. split.
  - intros Hfail.
    assert (exists e, loan_model_path m data i = Raise e) as [e He].
    { unfold loan_model_path.
      destruct (loan_features data i) as [X|e]; [|simpl; eauto].
      simpl. destruct (Hfail X eq_refl) as [e He]. rewrite He. simpl. eauto. }
    rewrite (predict_loan_heuristic st data i Hdata Hi) by (right; eauto).
    rewrite (predict_loan_heuristic (without_loan_model st) data i Hdata Hi)
      by (left; reflexivity).
    repeat split; reflexivity.
  - intros X p e x HX Hp He Hx.
    unfold predict_loan. cbn [mbind result_bind]. rewrite Hdata, Hi. simpl. rewrite Hm.
    unfold loan_model_path. rewrite HX. simpl. rewrite Hp. simpl.
    rewrite He. simpl. rewrite Hx. simpl.
    rewrite (get_risk_factors_breakdown data i Hi). simpl.
    repeat split; reflexivity.
Qed.

End LoanTheorems.

(** The rules as written differ from the handler when the income is
    negative: the EMI ratio is below 0.2, yet the handler adds nothing. *)
Lemma emi_rule_skipped_on_negative_income :
  field "approval_probability" (predict_loan no_models (Ok negative_income_request)) =
    Some (JFloat 0.65) /\
  (i ← loan_prelude negative_income_request;
   Ok (PyFloat.round (stated_score i (JStr "Graduate") (JStr "No") (JStr "Urban")) 4)) =
    Ok 0.75%float.
Proof. split; reflexivity. Qed.

Lemma loan_heuristic_rules_witness :
  field "approval_probability" (predict_loan no_models (Ok salaried_request)) =
    Some (JFloat 0.95) /\
  field "is_approved" (predict_loan no_models (Ok salaried_request)) = Some (JBool true).
Proof.
  edestruct (loan_heuristic_rules no_models salaried_request) as [Hresp _];
    [reflexivity | vm_compute; reflexivity | left; reflexivity |].
  rewrite Hresp. split; reflexivity.
Defined.

(** A request without income is returned two factors, not three. *)
Lemma no_income_two_factors :
  field "risk_assessment" (predict_loan no_models (Ok no_income_request)) =
    Some (JList [factor "Credit History" "positive" "Good credit history";
                 factor "Income-to-Loan Ratio" "negative" "Low ratio: 0.0x"]).
Proof. reflexivity. Qed.

Lemma risk_assessment_factors_witness :
  exists risk,
    field "risk_assessment" (predict_loan no_models (Ok salaried_request)) = Some (JList risk) /\
    factor_names risk =
      [JStr "Credit History"; JStr "Income-to-Loan Ratio"; JStr "EMI Affordability"].
Proof.
  edestruct (risk_assessment_factors no_models salaried_request)
    as (risk & Hfield & Hnames & _); [reflexivity | vm_compute; reflexivity |].
  exists risk. split; [exact Hfield | exact Hnames].
Defined.

(** A model without probability estimates still answers on the model path. *)
Lemma no_proba_model_answers :
  field "model_type" (predict_loan (with_loan_model no_proba_model) (Ok salaried_request)) =
    Some (JStr "ml_model") /\
  field "approval_probability"
    (predict_loan (with_loan_model no_proba_model) (Ok salaried_request)) = Some (JFloat 1).
Proof. split; reflexivity. Qed.

Lemma loan_model_failure_falls_through_witness :
  predict_loan (with_loan_model failing_model) (Ok salaried_request) =
    predict_loan (without_loan_model (with_loan_model failing_model)) (Ok salaried_request) /\
  field "model_type" (predict_loan (with_loan_model failing_model) (Ok salaried_request)) =
    Some (JStr "heuristic").
Proof.
  edestruct (loan_model_failure_falls_through (with_loan_model failing_model)
               salaried_request) as [Hfall _];
    [reflexivity | vm_compute; reflexivity | reflexivity |].
  destruct Hfall as (Hsame & _ & Htype).
  - intros X _. eexists. reflexivity.
  - split; assumption.
Defined.


(** ** Loan calculator *)

(** A float above zero is not at most zero (it is neither NaN nor negative). *)
Lemma gt_zero_not_le (x : float) :
  PyFloat.gt x 0 = true -> PyFloat.le x 0 = false.
Proof.
  unfold PyFloat.gt, PyFloat.le. rewrite ltb_spec, leb_spec.
  change (Prim2SF 0) with (S754_zero false).
  destruct (Prim2SF x) as [s|s| |s m e]; try destruct s; cbn; congruence.
Qed.

Section CalculatorTheorems.
Context `{PyBuiltins}.
Local Open Scope float_scope.

Lemma calculate_loan_guard (principal : float) (months : Z) :
  PyFloat.gt principal 0 = true -> (0 < months)%Z ->
  PyFloat.le principal 0 || (months <=? 0)%Z = false.
Proof.
  intros Hprincipal Hmonths. rewrite (gt_zero_not_le principal Hprincipal).
  simpl. lia.
Qed.

(** The branch for a monthly rate that is not positive. *)
Lemma calculate_loan_flat (data : json) (principal annual_rate : float)
    (months : Z) (months_f : float) :
  loan_terms data = Ok (principal, annual_rate, months) ->
  PyFloat.gt principal 0 = true ->
  (0 < months)%Z ->
  PyFloat.of_int months = Ok months_f ->
  PyFloat.gt (annual_rate / 12) 0 = false ->
  calculate_loan data =
    stated_summary principal annual_rate months months_f (principal / months_f).
Proof.
  intros Hterms Hprincipal Hmonths Hconv Hrate.
  unfold calculate_loan. rewrite Hterms. simpl.
  rewrite (calculate_loan_guard principal months Hprincipal Hmonths).
  unfold instalment. rewrite Hrate. unfold PyFloat.div_int.
  replace (months =? 0)%Z with false by lia. rewrite Hconv. simpl.
  unfold loan_summary. rewrite Hconv. reflexivity.
Qed.

(** The branch for a positive monthly rate. *)
Lemma calculate_loan_amortized (data : json) (principal annual_rate : float)
    (months : Z) (months_f growth : float) :
  loan_terms data = Ok (principal, annual_rate, months) ->
  PyFloat.gt principal 0 = true ->
  (0 < months)%Z ->
  PyFloat.of_int months = Ok months_f ->
  PyFloat.gt (annual_rate / 12) 0 = true ->
  float_pow (1 + annual_rate / 12) months_f = Ok growth ->
  PyFloat.eq (growth - 1) 0 = false ->
  calculate_loan data =
    stated_summary principal annual_rate months months_f
      (amortization principal (annual_rate / 12) growth).
Proof.
  intros Hterms Hprincipal Hmonths Hconv Hrate Hpow Hnonzero.
  unfold calculate_loan. rewrite Hterms. simpl.
  rewrite (calculate_loan_guard principal months Hprincipal Hmonths).
  unfold instalment, py_pow. rewrite Hrate, Hconv. simpl. rewrite Hpow. simpl.
  unfold PyFloat.div. unfold PyFloat.eq in Hnonzero. rewrite Hnonzero. simpl.
  unfold loan_summary. rewrite Hconv. reflexivity.
Qed.

(** C4, as amended: for a principal above zero and a positive number of
    months (whose float is [months_f]), [calculate_loan] answers with the
    two-decimal roundings of [emi], [emi * months] and
    [emi * months - principal], where the unrounded [emi] is
    [principal / months] when the monthly rate is not positive (so when the
    rate is 0) and [P * r * g / (g - 1)] with [g = pow(1 + r, months)] when
    it is positive, [pow] returns [g] and [g - 1] is not zero. *)
Theorem calculate_loan_amortization (data : json) (principal annual_rate : float)
    (months : Z) (months_f : float) :
  loan_terms data = Ok (principal, annual_rate, months) ->
  PyFloat.gt principal 0 = true ->
  (0 < months)%Z ->
  PyFloat.of_int months = Ok months_f ->
  (PyFloat.gt (annual_rate / 12) 0 = false ->
   calculate_loan data =
     stated_summary principal annual_rate months months_f (principal / months_f)) /\
  (forall growth,
     PyFloat.gt (annual_rate / 12) 0 = true ->
     float_pow (1 + annual_rate / 12) months_f = Ok growth ->
     PyFloat.eq (growth - 1) 0 = false ->
     calculate_loan data =
       stated_summary principal annual_rate months months_f
         (amortization principal (annual_rate / 12) growth)).
Proof.
  intros Hterms Hprincipal Hmonths Hconv. split.
  - intros. eapply calculate_loan_flat; eassumption.
  - intros. eapply calculate_loan_amortized; eassumption.
Qed.

End CalculatorTheorems.

(** At a zero rate the returned [emi] is the rounding of [principal / months],
    not the quotient itself: 100 over 3 months returns 33.33. *)
Lemma zero_rate_emi_is_rounded :
  field "emi" (calculate_loan zero_rate_loan) = Some (JFloat 33.33) /\
  PyFloat.div 100 3 = Ok 33.333333333333336%float /\
  PyFloat.eq 33.33 33.333333333333336 = false.
Proof. repeat split; reflexivity. Qed.

Lemma calculate_loan_amortization_witness :
  field "emi" (calculate_loan one_year_loan) = Some (JFloat 106.62) /\
  field "total_payment" (calculate_loan one_year_loan) = Some (JFloat 1279.42) /\
  field "total_interest" (calculate_loan one_year_loan) = Some (JFloat 79.42).
Proof.
  destruct (calculate_loan_amortization one_year_loan 1200 0.12 12 12)
    as [_ Hpositive];
    [vm_compute; reflexivity | reflexivity | reflexivity | vm_compute; reflexivity |].
  rewrite (Hpositive 1.1268250301319698%float);
    [repeat split; vm_compute; reflexivity
    | reflexivity | vm_compute; reflexivity | reflexivity].
Defined.

(** The written example: 100000 at 12% over 360 months.  With the value the
    C library gives [pow(1.01, 360)], the instalment rounds to 1028.61 and
    the returned interest is the returned payment less the principal. *)
Lemma thirty_year_example `{PyBuiltins} :
  float_pow 1.01 360 = Ok 35.949641327685036%float ->
  field "emi" (calculate_loan thirty_year_loan) = Some (JFloat 1028.61) /\
  field "total_payment" (calculate_loan thirty_year_loan) = Some (JFloat 370300.53) /\
  field "total_interest" (calculate_loan thirty_year_loan) = Some (JFloat 270300.53) /\
  (370300.53 - 100000 =? 270300.53)%float = true.
Proof.
  intros Hpow.
  rewrite (calculate_loan_amortized thirty_year_loan 100000 0.12 360 360
             35.949641327685036%float);
    [repeat split; vm_compute; reflexivity
    | vm_compute; reflexivity | reflexivity | reflexivity | vm_compute; reflexivity
    | reflexivity | exact Hpow | reflexivity].
Qed.


(** ** Expense categorization *)

(** *** The substring test *)

Lemma prefix_occurs (kw s : string) :
  String.prefix kw s = true <-> exists post, s = kw +:+ post.
Proof.
  revert s. induction kw as [|c kw IH]; intros s; destruct s as [|c' s]; simpl.
  - split; [intros _; exists ""; reflexivity | reflexivity].
  - split; [intros _; exists (String c' s); reflexivity | reflexivity].
  - split; [discriminate | intros [post [=]]].
  - destruct (Ascii.ascii_dec c c') as [-> | Hc].
    + rewrite IH. split; intros [post Hpost]; exists post; [rewrite Hpost; reflexivity|].
      injection Hpost as ->. reflexivity.
    + split; [discriminate | intros [post [= -> _]]; contradiction].
Qed.

(** [contains] is the substring test. *)
Lemma contains_occurs (kw s : string) : contains kw s = true <-> occurs kw s.
Proof.
  unfold occurs. induction s as [|c s IH].
  all: match goal with
       | |- contains ?kw ?s = true <-> _ =>
           change (contains kw s) with
             (String.prefix kw s ||
              match s with EmptyString => false | String _ s' => contains kw s' end)
       end; cbv iota; rewrite orb_true_iff, prefix_occurs.
  - split.
    + intros [[post Hpost] | [=]]. exists "", post. exact Hpost.
    + intros (pre & post & Hs). left. destruct pre; [exists post; exact Hs | discriminate].
  - rewrite IH. split.
    + intros [[post Hpost] | (pre & post & ->)].
      * exists "", post. exact Hpost.
      * exists (String c pre), post. reflexivity.
    + intros (pre & post & Hs). destruct pre as [|c' pre].
      * left. exists post. exact Hs.
      * right. injection Hs as -> ->. eauto.
Qed.

Lemma any_in_occurs (kws : list string) (s : string) :
  any_in kws s = true <-> exists kw, kw ∈ kws /\ occurs kw s.
Proof.
  unfold any_in. rewrite existsb_exists. split; intros (kw & Hin & Hkw); exists kw.
  - split; [apply list_elem_of_In; exact Hin | apply contains_occurs; exact Hkw].
  - split; [apply list_elem_of_In; exact Hin | apply contains_occurs; exact Hkw].
Qed.

Lemma any_in_none (kws : list string) (s : string) :
  any_in kws s = false <-> forall kw, kw ∈ kws -> ~ occurs kw s.
Proof.
  rewrite <- not_true_iff_false, any_in_occurs. split.
  - intros Hnone kw Hin Hkw. apply Hnone. eauto.
  - intros Hnone (kw & Hin & Hkw). exact (Hnone kw Hin Hkw).
Qed.

(** *** The chain of tests *)

(** The chain of tests is the first match in the keyword table. *)
Lemma match_keywords_first_match (text : string) :
  match_keywords text = first_match keyword_table text.
Proof. reflexivity. Qed.

(** What a first match is: the entry that is hit and the entries before it
    that are not, or no entry hit at all. *)
Lemma first_match_spec (table : list (string * list string)) (text category : string)
    (confidence : float) :
  first_match table text = (category, confidence) <->
  (exists pre kws post,
     table = pre ++ (category, kws) :: post /\
     any_in kws text = true /\
     Forall (fun entry => any_in entry.2 text = false) pre /\
     confidence = 0.85%float) \/
  (Forall (fun entry => any_in entry.2 text = false) table /\
   category = "Others" /\ confidence = 0.5%float).
Proof.
  induction table as [|[c k] rest IH]; simpl.
  - split.
    + intros [= <- <-]. right. auto.
    + intros [(pre & kws & post & Htable & _) | (_ & -> & ->)]; [|reflexivity].
      destruct pre; discriminate.
  - destruct (any_in k text) eqn:Hk.
    + split.
      * intros [= <- <-]. left. exists [], k, rest. auto.
      * intros [(pre & kws & post & Htable & Hkws & Hpre & ->) | (Hnone & _)].
        -- destruct pre as [|entry pre]; simpl in Htable.
           ++ injection Htable as -> _ _. reflexivity.
           ++ injection Htable as <- _. apply Forall_cons in Hpre as [Hentry _].
              simpl in Hentry. congruence.
        -- apply Forall_cons in Hnone as [Hentry _]. simpl in Hentry. congruence.
    + rewrite IH. split.
      * intros [(pre & kws & post & -> & Hkws & Hpre & ->) | (Hnone & -> & ->)].
        -- left. exists ((c, k) :: pre), kws, post. repeat split; auto.
        -- right. repeat split; auto.
      * intros [(pre & kws & post & Htable & Hkws & Hpre & ->) | (Hnone & -> & ->)].
        -- destruct pre as [|entry pre]; simpl in Htable.
           ++ injection Htable as -> -> _. congruence.
           ++ injection Htable as <- ->. apply Forall_cons in Hpre as [_ Hpre].
              left. exists pre, kws, post. auto.
        -- apply Forall_cons in Hnone as [_ Hnone]. right. auto.
Qed.

(** No keyword of a list of entries occurs in the text. *)
Lemma none_occurs (entries : list (string * list string)) (text : string) :
  Forall (fun entry => any_in entry.2 text = false) entries <->
  forall entry kw, entry ∈ entries -> kw ∈ entry.2 -> ~ occurs kw text.
Proof.
  rewrite Forall_forall. split.
  - intros Hnone entry kw Hentry. apply any_in_none. exact (Hnone entry Hentry).
  - intros Hnone entry Hentry. apply any_in_none. intros kw. exact (Hnone entry kw Hentry).
Qed.

(** The chain of tests computes the rule as written. *)
Lemma match_keywords_stated (text category : string) (confidence : float) :
  match_keywords text = (category, confidence) <-> stated_fallback text category confidence.
Proof.
  rewrite match_keywords_first_match, first_match_spec. unfold stated_fallback.
  rewrite none_occurs. split.
  - intros [(pre & kws & post & Htable & Hkws & Hpre & Hconf) | Hnone]; [left | right; exact Hnone].
    exists pre, kws, post. rewrite <- any_in_occurs, <- none_occurs. auto.
  - intros [(pre & kws & post & Htable & Hkws & Hpre & Hconf) | Hnone]; [left | right; exact Hnone].
    exists pre, kws, post. rewrite any_in_occurs, none_occurs. auto.
Qed.

#[local] Arguments categorize : simpl never.

Section ExpenseTheorems.
Context `{PyBuiltins}.

(** C10: on every description [get_category_fallback] returns a category
    that is a key of [CATEGORY_METADATA], with confidence 0.85 when it is
    one of the eight keyword categories and 0.50 when it is Others; it
    never returns Personal Care, which is one of the ten keys of the table. *)
Theorem get_category_fallback_range (description : string) :
  (exists category confidence,
     get_category_fallback description = (category, confidence) /\
     is_Some (CATEGORY_METADATA !! category) /\
     (category ∈ keyword_categories /\ confidence = 0.85%float \/
      category = "Others" /\ confidence = 0.5%float) /\
     category <> "Personal Care") /\
  size CATEGORY_METADATA = 10%nat /\
  is_Some (CATEGORY_METADATA !! "Personal Care").
Proof.
  split; [|split; [reflexivity | vm_compute; eauto]].
  unfold get_category_fallback, match_keywords.
  repeat match goal with
         | |- context [if ?c then _ else _] => destruct c
         end;
    do 2 eexists; (split; [reflexivity|]);
    (split; [vm_compute; eauto|]);
    (split; [|discriminate]);
    first [ left; split; [unfold keyword_categories; set_solver | reflexivity]
          | right; split; reflexivity ].
Qed.

(** The fallback branch of [categorize]. *)
Lemma categorize_fallback (st : models) (description : string) :
  expense_classifier st = None \/ expense_vectorizer st = None ->
  categorize st (JStr description) =
    Ok ((get_category_fallback description).1,
        ((get_category_fallback description).2 * 100)%float).
Proof.
  intros Hst. unfold categorize.
  destruct (get_category_fallback description) as [category confidence] eqn:Hcat.
  destruct Hst as [-> | ->]; [|destruct (expense_classifier st)];
    simpl; rewrite Hcat; reflexivity.
Qed.

(** C7: without an expense model (no classifier, or no vectorizer), the
    description "Swiggy order delivered Rs 450", which the interpreter
    lower-cases to "swiggy order delivered rs 450", is answered with
    category Food & Dining, confidence 85.0 and icon restaurant; and on
    every description the keyword fallback answers by the written rule on
    the lower-cased description: the first list of the table, in its order,
    one of whose keywords occurs in it as a substring gives the category,
    with confidence 0.85, and Others with 0.50 is the answer exactly when
    no keyword of any list occurs. *)
Theorem keyword_fallback (st : models) (description category : string)
    (confidence : float) :
  expense_classifier st = None \/ expense_vectorizer st = None ->
  str_lower "Swiggy order delivered Rs 450" = "swiggy order delivered rs 450" ->
  (field "category" (categorize_expense st swiggy_request) = Some (JStr "Food & Dining") /\
   field "confidence" (categorize_expense st swiggy_request) = Some (JFloat 85) /\
   field "icon" (categorize_expense st swiggy_request) = Some (JStr "restaurant")) /\
  (get_category_fallback description = (category, confidence) <->
   stated_fallback (str_lower description) category confidence).
Proof.
  intros Hst Hlower. split; [|apply match_keywords_stated].
  assert (py_get swiggy_request "description" (JStr "") =
            Ok (JStr "Swiggy order delivered Rs 450")) as Hget by reflexivity.
  unfold categorize_expense. rewrite Hget. simpl.
  rewrite (categorize_fallback st _ Hst).
  unfold get_category_fallback. rewrite Hlower. repeat split; reflexivity.
Qed.

(** [categorize] uses the model exactly when both handles are present. *)
Lemma categorize_uses_model_iff (st : models) (description : string) :
  (exists c v, expense_classifier st = Some c /\ expense_vectorizer st = Some v /\
     categorize st (JStr description) =
       (input_tfidf ← vec_transform v (JStr description);
        prediction ← txt_predict c input_tfidf;
        p ← txt_predict_proba_max c input_tfidf;
        Ok (prediction, (p * 100)%float))) \/
  ((expense_classifier st = None \/ expense_vectorizer st = None) /\
   categorize st (JStr description) =
     Ok ((get_category_fallback description).1,
         ((get_category_fallback description).2 * 100)%float)).
Proof.
  destruct (expense_classifier st) as [c|] eqn:Hc;
    destruct (expense_vectorizer st) as [v|] eqn:Hv.
  - left. exists c, v. unfold categorize. rewrite Hc, Hv. auto.
  - right. split; [auto|]. apply categorize_fallback. auto.
  - right. split; [auto|]. apply categorize_fallback. auto.
  - right. split; [auto|]. apply categorize_fallback. auto.
Qed.

End ExpenseTheorems.

Lemma keyword_fallback_witness :
  (field "category" (categorize_expense no_models swiggy_request) =
     Some (JStr "Food & Dining") /\
   field "confidence" (categorize_expense no_models swiggy_request) = Some (JFloat 85) /\
   field "icon" (categorize_expense no_models swiggy_request) = Some (JStr "restaurant")) /\
  get_category_fallback "Uber ride to airport" = ("Transportation", 0.85%float) /\
  stated_fallback "uber ride to airport" "Transportation" 0.85.
Proof.
  assert (str_lower "Swiggy order delivered Rs 450" = "swiggy order delivered rs 450")
    as Hlower by (vm_compute; reflexivity).
  destruct (keyword_fallback no_models "Uber ride to airport" "Transportation" 0.85
              (or_introl eq_refl) Hlower) as [Hswiggy Hrule].
  assert (get_category_fallback "Uber ride to airport" = ("Transportation", 0.85%float))
    as Huber by (vm_compute; reflexivity).
  split; [exact Hswiggy|]. split; [exact Huber|]. exact (proj1 Hrule Huber).
Defined.

(** The state [load_models] leaves when the vectorizer cannot be read. *)
Lemma load_models_vectorizer_unreadable (c : text_classifier) (e : exn) :
  expense_classifier (load_models (vectorizer_unreadable c e)) = Some c /\
  expense_vectorizer (load_models (vectorizer_unreadable c e)) = None.
Proof. split; reflexivity. Qed.

(** C6, on the failing state: when the classifier file loads and loading
    the vectorizer raises, [categorize_expense] and [categorize_batch]
    answer from the keyword fallback and yet report [model_used = ml],
    while [health_check] reports the expense model as not loaded. *)
Theorem model_used_ignores_vectorizer (c : text_classifier) (e : exn) :
  categorize_expense (load_models (vectorizer_unreadable c e)) swiggy_request =
    jsonify [("category", JStr "Food & Dining");
             ("confidence", JFloat 85);
             ("icon", JStr "restaurant");
             ("color", JStr "#ef4444");
             ("model_used", JStr "ml")] /\
  categorize_batch (load_models (vectorizer_unreadable c e))
      (dict [("transactions", JList [swiggy_request])]) =
    jsonify [("results", JList [dict [
                ("id", JStr "");
                ("description", JStr "Swiggy order delivered Rs 450");
                ("category", JStr "Food & Dining");
                ("confidence", JFloat 85);
                ("icon", JStr "restaurant");
                ("color", JStr "#ef4444")]]);
             ("count", JInt 1);
             ("model_used", JStr "ml")] /\
  field "expense_model_loaded" (health_check (load_models (vectorizer_unreadable c e))) =
    Some (JBool false).
Proof. repeat split; reflexivity. Qed.

(** * Further properties *)

(** ** Loading the models and reporting on them *)

(** X1: after [load_models], [health_check] answers 200 with status OK and
    each flag tells whether the artifact loaded: the fraud and loan flags
    follow their own file only, the expense flag needs both of its files. *)
Theorem health_check_reflects_load (dir : model_dir) :
  health_check (load_models dir) =
    jsonify [
      ("status", JStr "OK");
      ("fraud_model_loaded", JBool (is_loaded (credit_card_model_pkl dir)));
      ("loan_model_loaded", JBool (is_loaded (load_prediction_model_joblib dir)));
      ("expense_model_loaded",
        JBool (is_loaded (expense_classifier_clean_pkl dir) &&
               is_loaded (tfidf_vectorizer_clean_pkl dir)))
    ].
Proof.
  destruct dir as [fraud loan classifier vectorizer].
  destruct fraud, loan, classifier, vectorizer; reflexivity.
Qed.

(** X2: [load_models] never leaves a vectorizer without its classifier;
    both expense handles are set exactly when both files load, and when
    either file is missing neither handle is set. *)
Theorem load_models_expense_pair (dir : model_dir) :
  (is_Some (expense_vectorizer (load_models dir)) ->
   is_Some (expense_classifier (load_models dir))) /\
  (is_Some (expense_vectorizer (load_models dir)) <->
   is_loaded (expense_classifier_clean_pkl dir) &&
   is_loaded (tfidf_vectorizer_clean_pkl dir) = true) /\
  (exists_ (expense_classifier_clean_pkl dir) &&
   exists_ (tfidf_vectorizer_clean_pkl dir) = false ->
   expense_classifier (load_models dir) = None /\
   expense_vectorizer (load_models dir) = None).
Proof.
  destruct dir as [fraud loan classifier vectorizer].
  destruct classifier, vectorizer; cbn;
    repeat split; intros; try discriminate; eauto;
    try (match goal with H : is_Some None |- _ => destruct H; discriminate end).
Qed.

(** ** Lists of results *)

(** Membership in a list of literals. *)
Ltac in_list := rewrite !elem_of_cons; auto 10.

Lemma mapM_length {A B} (f : A -> result B) (l : list A) (r : list B) :
  mapM f l = Ok r -> length r = length l.
Proof.
  revert r. induction l as [|a l IH]; simpl; intros r Hr.
  - injection Hr as <-. reflexivity.
  - destruct (f a) as [b|]; simpl in Hr; [|discriminate].
    destruct (mapM f l) as [bs|]; simpl in Hr; [|discriminate].
    injection Hr as <-. simpl. f_equal. apply IH. reflexivity.
Qed.

Lemma mapM_Forall2 {A B} (f : A -> result B) (l : list A) (r : list B) :
  mapM f l = Ok r -> Forall2 (fun a b => f a = Ok b) l r.
Proof.
  revert r. induction l as [|a l IH]; simpl; intros r Hr.
  - injection Hr as <-. constructor.
  - destruct (f a) as [b|] eqn:Hb; simpl in Hr; [|discriminate].
    destruct (mapM f l) as [bs|]; simpl in Hr; [|discriminate].
    injection Hr as <-. constructor; [exact Hb | apply IH; reflexivity].
Qed.

Lemma mapM_Raise {A B} (f : A -> result B) (l : list A) (a : A) (e : exn) :
  a ∈ l -> f a = Raise e -> exists e', mapM f l = Raise e'.
Proof.
  intros Hin Ha. induction l as [|b l IH]; [inversion Hin|].
  simpl. apply elem_of_cons in Hin as [<- | Hin].
  - rewrite Ha. simpl. eauto.
  - destruct (f b); simpl; [|eauto].
    destruct (IH Hin) as [e' ->]. simpl. eauto.
Qed.

(** ** Fraud detection: status codes and the model path *)

Section FraudFurther.
Context `{PyBuiltins}.

Lemma simplified_status (data : json) :
  status (handler (predict_fraud_simplified data)) = 200%Z \/
  status (handler (predict_fraud_simplified data)) = 500%Z.
Proof.
  unfold predict_fraud_simplified. repeat case_result; auto.
Qed.

Lemma model_status (m : classifier) (st : models) (data : json) :
  fraud_model st = Some m ->
  status (handler (predict_fraud_model st data)) = 200%Z \/
  status (handler (predict_fraud_model st data)) = 500%Z.
Proof.
  intros Hm. unfold predict_fraud_model. rewrite Hm. repeat case_result; auto.
Qed.

(** The status of [predict_fraud] on a decoded body. *)
Lemma decoded_fraud_status (st : models) (data : json) :
  status (predict_fraud st (Ok data)) ∈ [200; 400; 500; 503]%Z /\
  (status (predict_fraud st (Ok data)) = 400%Z <-> truthy data = false) /\
  (status (predict_fraud st (Ok data)) = 503%Z <->
   truthy data = true /\ fraud_model st = None /\
   exists flag, py_get data "simplified" (JBool false) = Ok flag /\ truthy flag = false).
Proof.
  unfold predict_fraud. cbn [mbind result_bind].
  destruct (truthy data) eqn:Hdata; simpl.
  2: { repeat split; intros; try in_list; try reflexivity; try discriminate;
       destruct_and?; discriminate. }
  destruct (py_get data "simplified" (JBool false)) as [flag|e] eqn:Hflag; simpl.
  2: { repeat split; try in_list; try discriminate.
       intros (_ & _ & flag & Hget & _). discriminate. }
  destruct (truthy flag) eqn:Htruthy.
  - destruct (simplified_status data) as [-> | ->];
      repeat split; try in_list; try discriminate;
      intros (_ & _ & flag' & Hget & Hfalse); congruence.
  - destruct (fraud_model st) as [m|] eqn:Hm.
    + destruct (model_status m st data Hm) as [-> | ->];
        repeat split; try in_list; try discriminate;
        intros (_ & Hnone & _); discriminate.
    + unfold predict_fraud_model. rewrite Hm. simpl.
      repeat split; try in_list; try discriminate; eauto.
Qed.

(** X3: [predict_fraud] answers with status 200, 400, 500 or 503 only.
    When [request.json] raises (Flask cannot decode the body: a missing
    body, for one) the answer is 500 with the exception text; the answer
    is 400 exactly when [request.json] returns a falsy value (null, an
    empty object), and 503 exactly when it returns a non-empty body whose
    [simplified] flag is absent or falsy while no fraud model is loaded. *)
Theorem predict_fraud_status (st : models) (request_json : result json) :
  status (predict_fraud st request_json) ∈ [200; 400; 500; 503]%Z /\
  (forall e, request_json = Raise e ->
     predict_fraud st request_json = Resp 500 (dict [("error", JStr (str_exn e))])) /\
  (status (predict_fraud st request_json) = 400%Z <->
   exists data, request_json = Ok data /\ truthy data = false) /\
  (status (predict_fraud st request_json) = 503%Z <->
   exists data, request_json = Ok data /\
     truthy data = true /\ fraud_model st = None /\
     exists flag, py_get data "simplified" (JBool false) = Ok flag /\ truthy flag = false).
Proof.
  destruct request_json as [data|e].
  - destruct (decoded_fraud_status st data) as (Hrange & H400 & H503).
    split; [exact Hrange|]. split; [discriminate|]. split.
    + rewrite H400. split; [eauto | intros (data' & [= <-] & Hfalsy); exact Hfalsy].
    + rewrite H503. split; [eauto | intros (data' & [= <-] & Hpath); exact Hpath].
  - split; [cbn; in_list|]. split; [intros e' [= <-]; reflexivity|].
    split; (split; [discriminate | intros (data & [=] & _)]).
Qed.

(** The model path in terms of the frame. *)
Lemma predict_fraud_model_frame (st : models) (model : classifier) (data : json) :
  fraud_model st = Some model ->
  predict_fraud_model st data =
    (X ← fraud_frame data;
     prediction ← clf_predict model X;
     probability ← try_except (clf_predict_proba model X)
                     (fun _ => PyFloat.of_int prediction);
     Ok (jsonify [
       ("is_fraud", JBool (negb (prediction =? 0)%Z));
       ("fraud_probability", JFloat (PyFloat.round probability 4));
       ("risk_level", JStr (risk_level probability));
       ("model_type", JStr "ml_model")])).
Proof.
  intros Hm. unfold predict_fraud_model, fraud_frame. rewrite Hm.
  destruct (mapM _ feature_names); reflexivity.
Qed.




(** X5: on the model path with a fraud model loaded, a field that does not
    convert or a failure of the class prediction is answered with status
    500 and the exception text (no heuristic is substituted); a failure of
    the probability estimate alone is absorbed, the class prediction
    serving as the probability; otherwise [is_fraud] is the predicted class
    and [fraud_probability] the estimate rounded to four decimals. *)
Theorem fraud_model_path (st : models) (m : classifier) (data flag : json) :
  truthy data = true ->
  py_get data "simplified" (JBool false) = Ok flag ->
  truthy flag = false ->
  fraud_model st = Some m ->
  (forall e, fraud_frame data = Raise e ->
     predict_fraud st (Ok data) = Resp 500 (dict [("error", JStr (str_exn e))])) /\
  (forall X e, fraud_frame data = Ok X -> clf_predict m X = Raise e ->
     predict_fraud st (Ok data) = Resp 500 (dict [("error", JStr (str_exn e))])) /\
  (forall X p e x, fraud_frame data = Ok X -> clf_predict m X = Ok p ->
     clf_predict_proba m X = Raise e -> PyFloat.of_int p = Ok x ->
     predict_fraud st (Ok data) =
       jsonify [("is_fraud", JBool (negb (p =? 0)%Z));
                ("fraud_probability", JFloat (PyFloat.round x 4));
                ("risk_level", JStr (risk_level x));
                ("model_type", JStr "ml_model")]) /\
  (forall X p q, fraud_frame data = Ok X -> clf_predict m X = Ok p ->
     clf_predict_proba m X = Ok q ->
     predict_fraud st (Ok data) =
       jsonify [("is_fraud", JBool (negb (p =? 0)%Z));
                ("fraud_probability", JFloat (PyFloat.round q 4));
                ("risk_level", JStr (risk_level q));
                ("model_type", JStr "ml_model")]).
Proof.
  intros Hdata Hflag Hfalse Hm.
  assert (predict_fraud st (Ok data) = handler (predict_fraud_model st data)) as ->.
  { unfold predict_fraud. cbn [mbind result_bind]. rewrite Hdata. simpl. rewrite Hflag. simpl.
    rewrite Hfalse. reflexivity. }
  rewrite (predict_fraud_model_frame st m data Hm).
  repeat split.
  - intros e ->. reflexivity.
  - intros X e -> HX. simpl. rewrite HX. reflexivity.
  - intros X p e x -> Hp He Hx. simpl. rewrite Hp. simpl. rewrite He. simpl.
    rewrite Hx. reflexivity.
  - intros X p q -> Hp Hq. simpl. rewrite Hp. simpl. rewrite Hq. reflexivity.
Qed.

End FraudFurther.


Lemma fraud_model_path_witness :
  predict_fraud (with_fraud_model no_proba_model) (Ok full_model_request) =
    jsonify [("is_fraud", JBool true);
             ("fraud_probability", JFloat 1);
             ("risk_level", JStr "HIGH");
             ("model_type", JStr "ml_model")].
Proof.
  assert (truthy full_model_request = true) as Hdata by (vm_compute; reflexivity).
  assert (py_get full_model_request "simplified" (JBool false) = Ok (JBool false))
    as Hflag by (vm_compute; reflexivity).
  assert (fraud_frame full_model_request = Ok full_model_frame) as Hframe
    by (vm_compute; reflexivity).
  assert (PyFloat.of_int 1 = Ok 1%float) as Hone by (vm_compute; reflexivity).
  destruct (fraud_model_path (with_fraud_model no_proba_model) no_proba_model
              full_model_request (JBool false) Hdata Hflag eq_refl eq_refl)
    as (_ & _ & Hproba & _).
  rewrite (Hproba full_model_frame 1%Z
             (AttributeError "predict_proba is not available") 1%float
             Hframe eq_refl eq_refl Hone).
  vm_compute. reflexivity.
Defined.

(** ** Order of the amount thresholds *)

(** A float that does not exceed a threshold does not exceed a larger one
    (thresholds compared by their binary exponents). *)
Lemma ltb_false_up (c1 c2 a : float) (m1 m2 : positive) (e1 e2 : Z) :
  Prim2SF c1 = S754_finite false m1 e1 ->
  Prim2SF c2 = S754_finite false m2 e2 ->
  (e1 < e2)%Z ->
  (c1 <? a)%float = false -> (c2 <? a)%float = false.
Proof.
  intros H1 H2 He. rewrite !ltb_spec, H1, H2.
  destruct (Prim2SF a) as [s|s| |s m e]; try destruct s; cbn; try congruence.
  destruct (Z.compare_spec e1 e), (Z.compare_spec e2 e); try lia; congruence.
Qed.

(** A float below a threshold does not exceed a larger one. *)
Lemma ltb_true_excludes (c1 c2 a : float) (m1 m2 : positive) (e1 e2 : Z) :
  Prim2SF c1 = S754_finite false m1 e1 ->
  Prim2SF c2 = S754_finite false m2 e2 ->
  (e1 < e2)%Z ->
  (a <? c1)%float = true -> (c2 <? a)%float = false.
Proof.
  intros H1 H2 He. rewrite !ltb_spec, H1, H2.
  destruct (Prim2SF a) as [s|s| |s m e]; try destruct s; cbn; try congruence.
  destruct (Z.compare_spec e e1), (Z.compare_spec e2 e); try lia; congruence.
Qed.

Lemma not_over_1000 (a : float) :
  PyFloat.gt a 1000 = false ->
  PyFloat.gt a 2000 = false /\ PyFloat.gt a 5000 = false /\ PyFloat.gt a 10000 = false.
Proof.
  unfold PyFloat.gt. intros Ha.
  repeat split; eapply ltb_false_up; try exact Ha;
    try (vm_compute; reflexivity); lia.
Qed.

Lemma not_over_5000 (a : float) :
  PyFloat.gt a 5000 = false -> PyFloat.gt a 10000 = false.
Proof.
  unfold PyFloat.gt. intros Ha.
  eapply ltb_false_up; try exact Ha; try (vm_compute; reflexivity); lia.
Qed.

Lemma not_over_2000 (a : float) :
  PyFloat.gt a 2000 = false -> PyFloat.gt a 5000 = false.
Proof.
  unfold PyFloat.gt. intros Ha.
  eapply ltb_false_up; try exact Ha; try (vm_compute; reflexivity); lia.
Qed.

Lemma below_1 (a : float) :
  PyFloat.lt a 1 = true ->
  PyFloat.gt a 2000 = false /\ PyFloat.gt a 5000 = false /\ PyFloat.gt a 10000 = false.
Proof.
  unfold PyFloat.gt, PyFloat.lt. intros Ha.
  repeat split; eapply ltb_true_excludes; try exact Ha;
    try (vm_compute; reflexivity); lia.
Qed.

(** ** Batch scoring *)

Section BatchFurther.
Context `{PyBuiltins}.

(** The amount [predict_fraud_batch] reads from a transaction. *)
Lemma score_transaction_dict (tx : gmap string json) (a : float) :
  py_float (default (default (JInt 0) (tx !! "amount")) (tx !! "Amount")) = Ok a ->
  score_transaction (JDict tx) =
    Ok (dict [
      ("transaction_id", default (default JNull (tx !! "transaction_id")) (tx !! "id"));
      ("is_fraud",
        JBool (PyFloat.gt a 10000 && truthy (default (JBool false) (tx !! "is_foreign"))));
      ("fraud_probability",
        JFloat (if PyFloat.gt a 10000
                then (if truthy (default (JBool false) (tx !! "is_foreign"))
                      then 0.65 else 0.5)
                else if PyFloat.gt a 5000
                then (if truthy (default (JBool false) (tx !! "is_foreign"))
                      then 0.45 else 0.3)
                else if PyFloat.gt a 2000
                then (if truthy (default (JBool false) (tx !! "is_foreign"))
                      then 0.3 else 0.15)
                else if PyFloat.lt a 1
                then (if truthy (default (JBool false) (tx !! "is_foreign"))
                      then 0.35 else 0.2)
                else (if truthy (default (JBool false) (tx !! "is_foreign"))
                      then 0.15 else 0)));
      ("risk_level",
        JStr (if PyFloat.gt a 10000 || (PyFloat.gt a 5000
                 && truthy (default (JBool false) (tx !! "is_foreign")))
              then "MEDIUM" else "LOW"))]).
Proof.
  intros Ha. unfold score_transaction. simpl. rewrite Ha. simpl.
  destruct (PyFloat.gt a 10000) eqn:H10000.
  - destruct (PyFloat.gt a 5000) eqn:H5000;
      [|apply not_over_5000 in H5000; congruence].
    destruct (PyFloat.gt a 2000) eqn:H2000;
      [|apply not_over_2000 in H2000; congruence].
    destruct (PyFloat.lt a 1) eqn:H1;
      [apply below_1 in H1 as (? & ? & ?); congruence|].
    destruct (truthy (default (JBool false) (tx !! "is_foreign"))); reflexivity.
  - destruct (PyFloat.lt a 1) eqn:H1.
    + apply below_1 in H1 as (-> & -> & _).
      destruct (truthy (default (JBool false) (tx !! "is_foreign"))); reflexivity.
    + destruct (PyFloat.gt a 5000) eqn:H5000.
      * destruct (truthy (default (JBool false) (tx !! "is_foreign"))); reflexivity.
      * destruct (PyFloat.gt a 2000) eqn:H2000;
          destruct (truthy (default (JBool false) (tx !! "is_foreign"))); reflexivity.
Qed.

(** X6: in a batch, a transaction is flagged exactly when its amount
    exceeds 10000 and it is foreign; its probability is at most 0.65 and
    its risk level is LOW or MEDIUM, never HIGH. *)
Theorem batch_flag_rule (tx : gmap string json) (a : float) :
  py_float (default (default (JInt 0) (tx !! "amount")) (tx !! "Amount")) = Ok a ->
  exists r p level,
    score_transaction (JDict tx) = Ok (JDict r) /\
    r !! "is_fraud" =
      Some (JBool (PyFloat.gt a 10000 &&
                   truthy (default (JBool false) (tx !! "is_foreign")))) /\
    r !! "fraud_probability" = Some (JFloat p) /\
    PyFloat.le p 0.65 = true /\
    r !! "risk_level" = Some (JStr level) /\
    (level = "LOW" \/ level = "MEDIUM").
Proof.
  intros Ha. rewrite (score_transaction_dict tx a Ha).
  do 3 eexists. split; [reflexivity|].
  split; [reflexivity|]. split; [reflexivity|].
  split; [|split; [reflexivity|]].
  - repeat match goal with
           | |- context [if ?c then _ else _] => destruct c
           end; reflexivity.
  - destruct (_ || _); auto.
Qed.

Lemma score_transaction_id (tx r : json) :
  score_transaction tx = Ok r ->
  exists d, r = JDict d /\
    d !! "transaction_id" =
      Some (get_default tx "id" (get_default tx "transaction_id" JNull)).
Proof.
  unfold score_transaction. intros Hr.
  bind_inv Hr. apply py_get_Ok in Ha as (d & -> & ->). simpl in Hr.
  repeat bind_inv Hr. simplify_eq.
  eexists. split; reflexivity.
Qed.

(** X7: when every transaction of a batch can be scored, the answer is 200
    with one result per transaction, in order and carrying the
    transaction's [id] (or else its [transaction_id]); [total] is the number
    of transactions and [flagged], the number of results with [is_fraud],
    is between 0 and [total].  A body without [transactions] is an empty
    batch. *)
Theorem batch_totals (data : json) (txs results : list json) :
  py_get data "transactions" (JList []) = Ok (JList txs) ->
  mapM score_transaction txs = Ok results ->
  status (predict_fraud_batch data) = 200%Z /\
  field "results" (predict_fraud_batch data) = Some (JList results) /\
  field "total" (predict_fraud_batch data) = Some (JInt (Z.of_nat (length txs))) /\
  length results = length txs /\
  Forall2 (fun tx r =>
             exists d, r = JDict d /\
               d !! "transaction_id" =
                 Some (get_default tx "id" (get_default tx "transaction_id" JNull)))
          txs results /\
  exists flagged,
    field "flagged" (predict_fraud_batch data) = Some (JInt flagged) /\
    (0 <= flagged <= Z.of_nat (length txs))%Z.
Proof.
  intros Hget Hresults.
  pose proof (mapM_length _ _ _ Hresults) as Hlen.
  unfold predict_fraud_batch. rewrite Hget. simpl. rewrite Hresults. simpl.
  rewrite Hlen.
  split; [reflexivity|]. split; [reflexivity|]. split; [reflexivity|].
  split; [reflexivity|]. split.
  - eapply Forall2_impl; [exact (mapM_Forall2 _ _ _ Hresults)|].
    intros tx r Hr. exact (score_transaction_id tx r Hr).
  - eexists. split; [reflexivity|].
    pose proof (length_filter (fun r => is_flagged r = true) results). lia.
Qed.

(** X8: a batch is answered as a whole: if one entry cannot be scored (it
    is not an object, or its amount does not convert), the answer is 500
    and carries no results. *)
Theorem batch_all_or_nothing (data : json) (txs : list json) (tx : json) (e : exn) :
  py_get data "transactions" (JList []) = Ok (JList txs) ->
  tx ∈ txs ->
  score_transaction tx = Raise e ->
  status (predict_fraud_batch data) = 500%Z /\
  field "results" (predict_fraud_batch data) = None.
Proof.
  intros Hget Hin Htx.
  destruct (mapM_Raise score_transaction txs tx e Hin Htx) as [e' He'].
  unfold predict_fraud_batch. rewrite Hget. simpl. rewrite He'. simpl.
  split; reflexivity.
Qed.

End BatchFurther.

Lemma batch_flag_rule_witness :
  exists r, score_transaction (JDict foreign_big_tx) = Ok (JDict r) /\
            r !! "is_fraud" = Some (JBool true).
Proof.
  assert (py_float (default (default (JInt 0) (foreign_big_tx !! "amount"))
                      (foreign_big_tx !! "Amount")) = Ok 12000%float) as Ha
    by (vm_compute; reflexivity).
  destruct (batch_flag_rule foreign_big_tx 12000 Ha) as (r & p & level & Hr & Hf & _).
  exists r. split; [exact Hr|]. rewrite Hf. vm_compute. reflexivity.
Defined.

Lemma batch_totals_witness :
  status (predict_fraud_batch two_transaction_batch) = 200%Z /\
  field "total" (predict_fraud_batch two_transaction_batch) = Some (JInt 2).
Proof.
  assert (py_get two_transaction_batch "transactions" (JList []) =
            Ok (JList two_transactions)) as Hget by (vm_compute; reflexivity).
  destruct (mapM score_transaction two_transactions) as [results|e] eqn:Hres;
    [|vm_compute in Hres; discriminate].
  destruct (batch_totals two_transaction_batch two_transactions results Hget Hres)
    as (Hstatus & _ & Htotal & _).
  split; [exact Hstatus | exact Htotal].
Defined.

Lemma batch_all_or_nothing_witness :
  status (predict_fraud_batch unscorable_batch) = 500%Z /\
  field "results" (predict_fraud_batch unscorable_batch) = None.
Proof.
  assert (py_get unscorable_batch "transactions" (JList []) =
            Ok (JList [JDict foreign_big_tx; unscorable_request])) as Hget
    by (vm_compute; reflexivity).
  destruct (score_transaction unscorable_request) as [r|e] eqn:Htx;
    [vm_compute in Htx; discriminate|].
  apply (batch_all_or_nothing unscorable_batch [JDict foreign_big_tx; unscorable_request]
           unscorable_request e Hget); [|exact Htx].
  apply elem_of_cons. right. apply elem_of_cons. left. reflexivity.
Defined.

(** ** Simplified scoring: what the score implies *)

Section SimplifiedFurther.
Context `{PyBuiltins}.

(** The whole answer of the simplified mode. *)
Lemma predict_fraud_simplified_response (st : models) (data : json)
    (p : risk_predicates) :
  truthy (get_default data "simplified" (JBool false)) = true ->
  request_predicates data = Ok p ->
  predict_fraud st (Ok data) =
    jsonify [
      ("is_fraud", JBool (PyFloat.gt (predicate_score p) 0.5));
      ("fraud_probability", JFloat (PyFloat.round (predicate_score p) 4));
      ("risk_level", JStr (risk_level (predicate_score p)));
      ("model_type", JStr "heuristic")].
Proof.
  intros Hflag Hp.
  destruct (simplified_request_truthy data p Hp Hflag) as [Hdata Hget].
  unfold predict_fraud. cbn [mbind result_bind]. rewrite Hdata. simpl. rewrite Hget.
  simpl. rewrite Hflag.
  rewrite (predict_fraud_simplified_score data p Hp). reflexivity.
Qed.

(** The amount predicates of a request are those of its amount. *)
Lemma request_predicates_amount (d : gmap string json) (p : risk_predicates)
    (a : float) :
  request_predicates (JDict d) = Ok p ->
  py_float (default (JInt 0) (d !! "Amount")) = Ok a ->
  over_5000 p = PyFloat.gt a 5000 /\
  over_2000 p = PyFloat.gt a 2000 /\
  over_1000 p = PyFloat.gt a 1000 /\
  extreme_amount p = PyFloat.lt a 1 || PyFloat.gt a 10000.
Proof.
  unfold request_predicates. simpl. intros Hp Ha. rewrite Ha in Hp. simpl in Hp.
  repeat bind_inv Hp. injection Hp as <-. simpl. auto.
Qed.

Lemma flag_and_level_reported (p : risk_predicates) :
  let prob := PyFloat.round (predicate_score p) 4 in
  let level := risk_level (predicate_score p) in
  PyFloat.gt (predicate_score p) 0.5 = PyFloat.gt prob 0.5 /\
  (level = "HIGH" /\ PyFloat.ge prob 0.7 = true \/
   level = "MEDIUM" /\ PyFloat.gt prob 0.4 = true /\ PyFloat.le prob 0.7 = true \/
   level = "LOW" /\ PyFloat.le prob 0.4 = true).
Proof.
  destruct p as [[] [] [] [] [] [] []]; vm_compute; split; auto 10.
Qed.

(** X9: in simplified mode the flag and the level agree with the
    probability that is reported (the score rounded to four decimals):
    [is_fraud] is true exactly when the reported probability exceeds 0.5;
    a HIGH answer reports at least 0.7, a MEDIUM one more than 0.4 and at
    most 0.7, a LOW one at most 0.4.  So a HIGH answer is always flagged
    and a flagged answer is never LOW. *)
Theorem simplified_flag_and_level (st : models) (data : json) (p : risk_predicates) :
  truthy (get_default data "simplified" (JBool false)) = true ->
  request_predicates data = Ok p ->
  exists flagged prob level,
    field "is_fraud" (predict_fraud st (Ok data)) = Some (JBool flagged) /\
    field "fraud_probability" (predict_fraud st (Ok data)) = Some (JFloat prob) /\
    field "risk_level" (predict_fraud st (Ok data)) = Some (JStr level) /\
    flagged = PyFloat.gt prob 0.5 /\
    (level = "HIGH" /\ PyFloat.ge prob 0.7 = true \/
     level = "MEDIUM" /\ PyFloat.gt prob 0.4 = true /\ PyFloat.le prob 0.7 = true \/
     level = "LOW" /\ PyFloat.le prob 0.4 = true).
Proof.
  intros Hflag Hp.
  rewrite (predict_fraud_simplified_response st data p Hflag Hp).
  destruct (flag_and_level_reported p) as [Hgt Hlevel].
  exists (PyFloat.gt (predicate_score p) 0.5), (PyFloat.round (predicate_score p) 4),
    (risk_level (predicate_score p)).
  split; [reflexivity|]. split; [reflexivity|]. split; [reflexivity|].
  split; [exact Hgt | exact Hlevel].
Qed.

(** X10: in simplified mode an amount from 1 to 1000 is never flagged,
    whatever the hour and the foreign and rapid marks: the probability is
    at most 0.5 and [is_fraud] is false. *)
Theorem small_amount_never_flagged (st : models) (d : gmap string json)
    (p : risk_predicates) (a : float) :
  truthy (get_default (JDict d) "simplified" (JBool false)) = true ->
  request_predicates (JDict d) = Ok p ->
  py_float (default (JInt 0) (d !! "Amount")) = Ok a ->
  PyFloat.lt a 1 = false ->
  PyFloat.gt a 1000 = false ->
  field "is_fraud" (predict_fraud st (Ok (JDict d))) = Some (JBool false) /\
  exists r, field "fraud_probability" (predict_fraud st (Ok (JDict d))) = Some (JFloat r) /\
            PyFloat.le r 0.5 = true.
Proof.
  intros Hflag Hp Ha Hlow Hhigh.
  rewrite (predict_fraud_simplified_response st (JDict d) p Hflag Hp).
  destruct (request_predicates_amount d p a Hp Ha) as (H5 & H2 & H1 & Hx).
  destruct (not_over_1000 a Hhigh) as (G2 & G5 & G10).
  rewrite G5 in H5. rewrite G2 in H2. rewrite Hhigh in H1.
  rewrite Hlow, G10 in Hx. simpl in Hx.
  destruct p as [o5 o2 o1 ex hr fo ra]. simpl in *. subst.
  split.
  - destruct hr, fo, ra; reflexivity.
  - eexists. split; [reflexivity|]. destruct hr, fo, ra; reflexivity.
Qed.

(** X11: scored as a batch entry, a transaction that names its [Amount]
    never gets a higher probability than as a simplified request, and is
    flagged in the batch only if it is flagged alone. *)
Theorem batch_below_simplified (st : models) (d : gmap string json)
    (p : risk_predicates) :
  truthy (get_default (JDict d) "simplified" (JBool false)) = true ->
  request_predicates (JDict d) = Ok p ->
  is_Some (d !! "Amount") ->
  exists single batch r,
    field "fraud_probability" (predict_fraud st (Ok (JDict d))) = Some (JFloat single) /\
    score_transaction (JDict d) = Ok (JDict r) /\
    r !! "fraud_probability" = Some (JFloat batch) /\
    PyFloat.le batch single = true /\
    (r !! "is_fraud" = Some (JBool true) ->
     field "is_fraud" (predict_fraud st (Ok (JDict d))) = Some (JBool true)).
Proof.
  intros Hflag Hp [v Hv].
  rewrite (predict_fraud_simplified_response st (JDict d) p Hflag Hp).
  assert (exists a, py_float (default (JInt 0) (d !! "Amount")) = Ok a) as [a Ha].
  { unfold request_predicates in Hp. simpl in Hp. bind_inv Hp. eauto. }
  assert (py_float (default (default (JInt 0) (d !! "amount")) (d !! "Amount")) = Ok a)
    as Ha' by (rewrite Hv in *; exact Ha).
  destruct (request_predicates_amount d p a Hp Ha) as (H5 & H2 & H1 & Hx).
  assert (foreign p = truthy (default (JBool false) (d !! "is_foreign"))) as Hf.
  { unfold request_predicates in Hp. simpl in Hp. rewrite Ha in Hp. simpl in Hp.
    repeat bind_inv Hp. injection Hp as <-. reflexivity. }
  set (q := {| over_5000 := over_5000 p; over_2000 := over_2000 p;
               over_1000 := false; extreme_amount := extreme_amount p;
               odd_hour := false; foreign := foreign p; rapid := false |}).
  assert (implies q p = true) as Himp.
  { unfold implies, q. simpl. rewrite !implb_same. reflexivity. }
  destruct (predicate_score_monotone q p Himp) as [Hraw Hrounded].
  assert (score_transaction (JDict d) =
            Ok (dict [
              ("transaction_id",
                default (default JNull (d !! "transaction_id")) (d !! "id"));
              ("is_fraud", JBool (PyFloat.gt (predicate_score q) 0.5));
              ("fraud_probability", JFloat (PyFloat.round (predicate_score q) 4));
              ("risk_level", JStr (risk_level (predicate_score q)))])) as Hbatch.
  { unfold score_transaction. simpl. rewrite Ha'. simpl.
    unfold q, predicate_score. simpl. rewrite H5, H2, Hx, Hf.
    destruct (PyFloat.gt a 5000), (PyFloat.gt a 2000),
      (PyFloat.lt a 1 || PyFloat.gt a 10000),
      (truthy (default (JBool false) (d !! "is_foreign"))); reflexivity. }
  rewrite Hbatch.
  do 3 eexists. split; [reflexivity|]. split; [reflexivity|].
  split; [reflexivity|]. split; [exact Hrounded|].
  intros Hb.
  assert (PyFloat.gt (predicate_score q) 0.5 = true) as Hq.
  { change (Some (JBool (PyFloat.gt (predicate_score q) 0.5)) = Some (JBool true)) in Hb.
    congruence. }
  assert (PyFloat.gt (predicate_score p) 0.5 = true) as Hgt.
  { clear -Hq Himp. destruct p as [[] [] [] [] [] [] []];
      vm_compute in Hq |- *; congruence. }
  change (Some (JBool (PyFloat.gt (predicate_score p) 0.5)) = Some (JBool true)).
  rewrite Hgt. reflexivity.
Qed.

End SimplifiedFurther.

Lemma simplified_flag_and_level_witness :
  exists flagged prob level,
    field "is_fraud" (predict_fraud no_models (Ok night_foreign_request)) = Some (JBool flagged) /\
    field "fraud_probability" (predict_fraud no_models (Ok night_foreign_request)) =
      Some (JFloat prob) /\
    field "risk_level" (predict_fraud no_models (Ok night_foreign_request)) = Some (JStr level) /\
    flagged = PyFloat.gt prob 0.5.
Proof.
  assert (truthy (get_default night_foreign_request "simplified" (JBool false)) = true)
    as Hflag by (vm_compute; reflexivity).
  assert (request_predicates night_foreign_request = Ok night_foreign_predicates)
    as Hp by (vm_compute; reflexivity).
  destruct (simplified_flag_and_level no_models night_foreign_request
              night_foreign_predicates Hflag Hp)
    as (flagged & prob & level & Hf & Hpr & Hl & Hgt & _).
  exists flagged, prob, level. repeat split; assumption.
Defined.

Lemma small_amount_never_flagged_witness :
  field "is_fraud" (predict_fraud no_models (Ok (JDict small_marked_fields))) =
    Some (JBool false).
Proof.
  assert (truthy (get_default (JDict small_marked_fields) "simplified" (JBool false)) = true)
    as Hflag by (vm_compute; reflexivity).
  assert (request_predicates (JDict small_marked_fields) = Ok small_marked_predicates)
    as Hp by (vm_compute; reflexivity).
  assert (py_float (default (JInt 0) (small_marked_fields !! "Amount")) = Ok 500%float)
    as Ha by (vm_compute; reflexivity).
  assert (PyFloat.lt 500 1 = false) as Hlow by (vm_compute; reflexivity).
  assert (PyFloat.gt 500 1000 = false) as Hhigh by (vm_compute; reflexivity).
  exact (proj1 (small_amount_never_flagged no_models small_marked_fields
                  small_marked_predicates 500 Hflag Hp Ha Hlow Hhigh)).
Defined.

Lemma batch_below_simplified_witness :
  exists single batch r,
    field "fraud_probability" (predict_fraud no_models (Ok (JDict small_marked_fields))) =
      Some (JFloat single) /\
    score_transaction (JDict small_marked_fields) = Ok (JDict r) /\
    r !! "fraud_probability" = Some (JFloat batch) /\
    PyFloat.le batch single = true.
Proof.
  assert (truthy (get_default (JDict small_marked_fields) "simplified" (JBool false)) = true)
    as Hflag by (vm_compute; reflexivity).
  assert (request_predicates (JDict small_marked_fields) = Ok small_marked_predicates)
    as Hp by (vm_compute; reflexivity).
  assert (small_marked_fields !! "Amount" = Some (JInt 500)) as Hamount
    by (vm_compute; reflexivity).
  destruct (batch_below_simplified no_models small_marked_fields small_marked_predicates
              Hflag Hp (ex_intro _ (JInt 500) Hamount))
    as (single & batch & r & Hs & Hb & Hr & Hle & _).
  exists single, batch, r. repeat split; assumption.
Defined.

(** ** Loan eligibility: status codes and what the answer depends on *)

Section LoanFurther.
Context `{PyBuiltins}.

Lemma loan_model_path_ok (m : classifier) (data : json) (i : loan_inputs)
    (r : response) :
  loan_prelude data = Ok i ->
  loan_model_path m data i = Ok r ->
  status r = 200%Z /\ field "model_type" r = Some (JStr "ml_model").
Proof.
  intros Hi Hr. unfold loan_model_path in Hr.
  rewrite (get_risk_factors_breakdown data i Hi) in Hr.
  repeat bind_inv Hr. simplify_eq. split; reflexivity.
Qed.

(** The status of [predict_loan] on a decoded body. *)
Lemma decoded_loan_status (st : models) (data : json) :
  (status (predict_loan st (Ok data)) = 400%Z <-> truthy data = false) /\
  (status (predict_loan st (Ok data)) = 500%Z <->
   truthy data = true /\ exists e, loan_prelude data = Raise e) /\
  (status (predict_loan st (Ok data)) = 200%Z <->
   truthy data = true /\ exists i, loan_prelude data = Ok i) /\
  (status (predict_loan st (Ok data)) = 200%Z ->
   field "model_type" (predict_loan st (Ok data)) = Some (JStr "ml_model") \/
   field "model_type" (predict_loan st (Ok data)) = Some (JStr "heuristic")) /\
  (status (predict_loan st (Ok data)) = 200%Z -> loan_model st = None ->
   field "model_type" (predict_loan st (Ok data)) = Some (JStr "heuristic")).
Proof.
  destruct (truthy data) eqn:Hdata.
  2: { unfold predict_loan. cbn [mbind result_bind]. rewrite Hdata. simpl.
       repeat split; intros; try reflexivity; try discriminate;
         destruct_and?; discriminate. }
  destruct (loan_prelude data) as [i|e] eqn:Hi.
  2: { unfold predict_loan. cbn [mbind result_bind]. rewrite Hdata, Hi. simpl.
       repeat split; intros; try reflexivity; try discriminate; eauto;
         destruct_and?; try discriminate;
         match goal with H : exists _, _ |- _ => destruct H; discriminate end. }
  assert (status (predict_loan st (Ok data)) = 200%Z /\
          (field "model_type" (predict_loan st (Ok data)) = Some (JStr "ml_model") \/
           field "model_type" (predict_loan st (Ok data)) = Some (JStr "heuristic")) /\
          (loan_model st = None ->
           field "model_type" (predict_loan st (Ok data)) = Some (JStr "heuristic")))
    as (Hstatus & Htype & Hnone).
  { destruct (loan_model st) as [m|] eqn:Hm.
    - destruct (loan_model_path m data i) as [r|e] eqn:Hpath.
      + destruct (loan_model_path_ok m data i r Hi Hpath) as [Hs Ht].
        unfold predict_loan. cbn [mbind result_bind]. rewrite Hdata, Hi. simpl.
        rewrite Hm, Hpath. simpl.
        split; [exact Hs|]. split; [left; exact Ht | discriminate].
      + rewrite (predict_loan_heuristic st data i Hdata Hi) by (right; eauto).
        split; [reflexivity|]. split; [right; reflexivity | reflexivity].
    - rewrite (predict_loan_heuristic st data i Hdata Hi) by (left; exact Hm).
      split; [reflexivity|]. split; [right; reflexivity | reflexivity]. }
  rewrite Hstatus.
  repeat split; intros; try reflexivity; try discriminate; eauto;
    destruct_and?; try discriminate;
    match goal with H : exists _, _ |- _ => destruct H; discriminate end.
Qed.

(** X12: [predict_loan] answers 400 exactly when [request.json] returns a
    falsy value (null, an empty object); 500 exactly when [request.json]
    raises (a missing body, for one) or the body is non-empty and reading
    and deriving the inputs raises (a field that does not convert, a
    division by zero, an integer too large for a float); and 200 exactly
    when the body is non-empty and the inputs are read and derived: from
    there on no behaviour of the loan model leads to an error.  A 200
    answer is marked ml_model or heuristic, and heuristic whenever no model
    is loaded. *)
Theorem predict_loan_status (st : models) (request_json : result json) :
  (status (predict_loan st request_json) = 400%Z <->
   exists data, request_json = Ok data /\ truthy data = false) /\
  (status (predict_loan st request_json) = 500%Z <->
   (exists e, request_json = Raise e) \/
   (exists data e, request_json = Ok data /\ truthy data = true /\
      loan_prelude data = Raise e)) /\
  (status (predict_loan st request_json) = 200%Z <->
   exists data i, request_json = Ok data /\ truthy data = true /\
     loan_prelude data = Ok i) /\
  (forall e, request_json = Raise e ->
     predict_loan st request_json = Resp 500 (dict [("error", JStr (str_exn e))])) /\
  (status (predict_loan st request_json) = 200%Z ->
   field "model_type" (predict_loan st request_json) = Some (JStr "ml_model") \/
   field "model_type" (predict_loan st request_json) = Some (JStr "heuristic")) /\
  (status (predict_loan st request_json) = 200%Z -> loan_model st = None ->
   field "model_type" (predict_loan st request_json) = Some (JStr "heuristic")).
Proof.
  destruct request_json as [data|e].
  - destruct (decoded_loan_status st data) as (H400 & H500 & H200 & Htype & Hnone).
    split; [|split; [|split; [|split; [discriminate | split; [exact Htype | exact Hnone]]]]].
    + rewrite H400. split; [eauto | intros (data' & [= <-] & Hfalsy); exact Hfalsy].
    + rewrite H500. split.
      * intros (Htruthy & e & He). right. eauto.
      * intros [(e & [=]) | (data' & e & [= <-] & Htruthy & He)]. eauto.
    + rewrite H200. split.
      * intros (Htruthy & i & Hi). eauto.
      * intros (data' & i & [= <-] & Htruthy & Hi). eauto.
  - split; [split; [discriminate | intros (data & [=] & _)]|].
    split; [split; [eauto | reflexivity]|].
    split; [split; [discriminate | intros (data & i & [=] & _)]|].
    split; [intros e' [= <-]; reflexivity|].
    split; discriminate.
Qed.

(** The prelude on a dict, step by step. *)
Lemma loan_prelude_dict (d : gmap string json) :
  loan_prelude (JDict d) =
    (applicant_income ← py_float (default (JInt 0) (d !! "ApplicantIncome"));
     coapplicant_income ← py_float (default (JInt 0) (d !! "CoapplicantIncome"));
     loan_amount ← py_float (default (JInt 0) (d !! "LoanAmount"));
     loan_term ← py_float (default (JInt 360) (d !! "Loan_Amount_Term"));
     credit_history ← py_float (default (JInt 1) (d !! "Credit_History"));
     dependents ← read_dependents (default (JInt 0) (d !! "Dependents"));
     derive_inputs applicant_income coapplicant_income loan_amount loan_term
       credit_history dependents).
Proof. reflexivity. Qed.

(** The instalment ratio never divides by zero. *)
Lemma emi_defined (loan_amount loan_term : float) :
  exists emi,
    truediv (if PyFloat.eq loan_amount 0 then Int 1 else Float loan_amount)
            (if PyFloat.eq loan_term 0 then Int 360 else Float loan_term) = Ok emi.
Proof.
  destruct (PyFloat.eq loan_amount 0), (PyFloat.eq loan_term 0) eqn:Hterm; simpl;
    unfold PyFloat.div, PyFloat.div_int; unfold PyFloat.eq in Hterm;
    try rewrite Hterm; simpl; eauto.
Qed.

(** X13: the zero guards of [predict_loan] leave two divisions open: a
    request whose inputs are otherwise read and derived gets status 500
    once its LoanAmount is -1 (the ratio divides by [loan_amount + 1]), and
    status 500 once its Dependents is -1 (by [dependents + 1]). *)
Theorem predict_loan_minus_one (st : models) (d : gmap string json) (i : loan_inputs) :
  loan_prelude (JDict d) = Ok i ->
  status (predict_loan st (Ok (JDict (<["LoanAmount" := JInt (-1)]> d)))) = 500%Z /\
  status (predict_loan st (Ok (JDict (<["Dependents" := JInt (-1)]> d)))) = 500%Z.
Proof.
  intros Hi. rewrite loan_prelude_dict in Hi.
  apply bind_Ok in Hi as (ai & Hai & Hi). apply bind_Ok in Hi as (ci & Hci & Hi).
  apply bind_Ok in Hi as (la & Hla & Hi). apply bind_Ok in Hi as (lt & Hlt & Hi).
  apply bind_Ok in Hi as (ch & Hch & Hi). apply bind_Ok in Hi as (dep & Hdep & Hi).
  split.
  - unfold predict_loan. cbn [mbind result_bind].
    replace (truthy (JDict (<["LoanAmount" := JInt (-1)]> d))) with true
      by (simpl; rewrite bool_decide_eq_false_2; [reflexivity | apply insert_non_empty]).
    simpl negb. cbv iota. rewrite loan_prelude_dict.
    rewrite lookup_insert_eq. rewrite !lookup_insert_ne by discriminate.
    rewrite Hai, Hci, Hlt, Hch, Hdep. simpl.
    unfold derive_inputs.
    destruct (emi_defined (-1) lt) as [emi Hemi]. rewrite Hemi.
    vm_compute. reflexivity.
  - unfold predict_loan. cbn [mbind result_bind].
    replace (truthy (JDict (<["Dependents" := JInt (-1)]> d))) with true
      by (simpl; rewrite bool_decide_eq_false_2; [reflexivity | apply insert_non_empty]).
    simpl negb. cbv iota. rewrite loan_prelude_dict.
    rewrite lookup_insert_eq. rewrite !lookup_insert_ne by discriminate.
    rewrite Hai, Hci, Hla, Hlt, Hch. simpl.
    unfold derive_inputs in *.
    apply bind_Ok in Hi as (emi & Hemi & Hi). apply bind_Ok in Hi as (itl & Hitl & Hi).
    rewrite Hemi, Hitl. simpl.
    destruct (PyFloat.eq la 0); reflexivity.
Qed.

Ltac use_agreement :=
  repeat match goal with
         | H : ?d !! ?k = _ !! ?k |- _ => try rewrite H; clear H
         end.

Lemma truthy_insert (k : string) (v : json) (d : gmap string json) :
  truthy (JDict (<[k := v]> d)) = true.
Proof.
  simpl. rewrite bool_decide_eq_false_2; [reflexivity | apply insert_non_empty].
Qed.

Lemma get_risk_factors_agree (d d' : gmap string json) (e r c : float) :
  d !! "ApplicantIncome" = d' !! "ApplicantIncome" ->
  d !! "CoapplicantIncome" = d' !! "CoapplicantIncome" ->
  get_risk_factors (JDict d) e r c = get_risk_factors (JDict d') e r c.
Proof. intros Ha Hc. unfold get_risk_factors, py_get. rewrite Ha, Hc. reflexivity. Qed.

Lemma loan_heuristic_agree (d d' : gmap string json) (i : loan_inputs) :
  Forall (fun k => d !! k = d' !! k)
    ["ApplicantIncome"; "CoapplicantIncome"; "Education"; "Married"; "Property_Area"] ->
  loan_heuristic (JDict d) i = loan_heuristic (JDict d') i.
Proof.
  intros Hagree. repeat (apply Forall_cons in Hagree as [? Hagree]).
  unfold loan_heuristic. rewrite (get_risk_factors_agree d d') by assumption.
  unfold py_get. use_agreement. reflexivity.
Qed.

Lemma loan_model_path_agree (m : classifier) (d d' : gmap string json) (i : loan_inputs) :
  Forall (fun k => d !! k = d' !! k)
    ["ApplicantIncome"; "CoapplicantIncome"; "Education"; "Married"; "Property_Area";
     "Gender"; "Self_Employed"] ->
  loan_model_path m (JDict d) i = loan_model_path m (JDict d') i.
Proof.
  intros Hagree. repeat (apply Forall_cons in Hagree as [? Hagree]).
  unfold loan_model_path. rewrite (get_risk_factors_agree d d') by assumption.
  unfold loan_features, one_hot, py_get. use_agreement. reflexivity.
Qed.

Lemma loan_prelude_agree (d d' : gmap string json) :
  Forall (fun k => d !! k = d' !! k)
    ["ApplicantIncome"; "CoapplicantIncome"; "LoanAmount"; "Loan_Amount_Term";
     "Credit_History"; "Dependents"] ->
  loan_prelude (JDict d) = loan_prelude (JDict d').
Proof.
  intros Hagree. repeat (apply Forall_cons in Hagree as [? Hagree]).
  rewrite (loan_prelude_dict d), (loan_prelude_dict d'). use_agreement. reflexivity.
Qed.

(** The answer of [predict_loan] is a function of the prelude's outcome and
    of the fields the chosen path reads. *)
Lemma predict_loan_agree (st : models) (d d' : gmap string json) :
  truthy (JDict d) = truthy (JDict d') ->
  loan_prelude (JDict d) = loan_prelude (JDict d') ->
  Forall (fun k => d !! k = d' !! k)
    ["ApplicantIncome"; "CoapplicantIncome"; "Education"; "Married"; "Property_Area"] ->
  (is_Some (loan_model st) ->
   d !! "Gender" = d' !! "Gender" /\ d !! "Self_Employed" = d' !! "Self_Employed") ->
  predict_loan st (Ok (JDict d)) = predict_loan st (Ok (JDict d')).
Proof.
  intros Htruthy Hprelude Hagree Hmodel. unfold predict_loan. cbn [mbind result_bind].
  rewrite Htruthy, Hprelude. destruct (truthy (JDict d')); [|reflexivity].
  destruct (loan_prelude (JDict d')) as [i|e]; [|reflexivity].
  simpl. rewrite (loan_heuristic_agree d d' i Hagree).
  destruct (loan_model st) as [m|]; [|reflexivity].
  destruct Hmodel as [Hg Hs]; [eauto|].
  rewrite (loan_model_path_agree m d d' i); [reflexivity|].
  repeat (apply Forall_cons in Hagree as [? Hagree]).
  repeat (apply Forall_cons; split; [assumption|]). constructor.
Qed.

(** X14: a Dependents field of "3+" is answered exactly as the number 3,
    on both paths and whatever the rest of the request. *)
Theorem predict_loan_three_plus (st : models) (d : gmap string json) :
  predict_loan st (Ok (JDict (<["Dependents" := JStr "3+"]> d))) =
  predict_loan st (Ok (JDict (<["Dependents" := JInt 3]> d))).
Proof.
  apply predict_loan_agree.
  - rewrite !truthy_insert. reflexivity.
  - rewrite (loan_prelude_dict (<["Dependents" := JStr "3+"]> d)),
      (loan_prelude_dict (<["Dependents" := JInt 3]> d)).
    rewrite !lookup_insert_eq. rewrite !lookup_insert_ne by discriminate. reflexivity.
  - repeat (apply Forall_cons; split;
      [rewrite !lookup_insert_ne by discriminate; reflexivity|]). constructor.
  - intros _. rewrite !lookup_insert_ne by discriminate. split; reflexivity.
Qed.

(** X15: with no loan model loaded, two requests that agree on the nine
    fields ApplicantIncome, CoapplicantIncome, LoanAmount, Loan_Amount_Term,
    Credit_History, Dependents, Education, Married and Property_Area get the
    same answer: Gender, Self_Employed and every other field are ignored. *)
Theorem heuristic_answer_reads_nine_fields (st : models) (d d' : gmap string json) :
  loan_model st = None ->
  truthy (JDict d) = true -> truthy (JDict d') = true ->
  Forall (fun k => d !! k = d' !! k) heuristic_fields ->
  predict_loan st (Ok (JDict d)) = predict_loan st (Ok (JDict d')).
Proof.
  intros Hnone Ht Ht' Hagree. apply predict_loan_agree.
  - congruence.
  - apply loan_prelude_agree.
    unfold heuristic_fields in Hagree.
    repeat (apply Forall_cons in Hagree as [? Hagree]).
    repeat (apply Forall_cons; split; [assumption|]). constructor.
  - unfold heuristic_fields in Hagree.
    repeat (apply Forall_cons in Hagree as [? Hagree]).
    repeat (apply Forall_cons; split; [assumption|]). constructor.
  - rewrite Hnone. intros [? [=]].
Qed.

(** A term of zero and a term of 360 give the same instalment ratio. *)
Lemma emi_zero_term (x : float) :
  let loan_amount := if PyFloat.eq x 0 then Int 1 else Float x in
  truediv loan_amount (Int 360) = truediv loan_amount (Float 360).
Proof.
  destruct (PyFloat.eq x 0); simpl.
  - vm_compute. reflexivity.
  - unfold PyFloat.div_int, PyFloat.div.
    replace (PyFloat.of_int 360) with (Ok 360%float) by (vm_compute; reflexivity).
    reflexivity.
Qed.

(** The heuristic path reads five of the derived quantities. *)
Lemma loan_heuristic_inputs (data : json) (i i' : loan_inputs) :
  credit_history i = credit_history i' ->
  income_to_loan i = income_to_loan i' ->
  total_income i = total_income i' ->
  emi i = emi i' ->
  coapplicant_income i = coapplicant_income i' ->
  loan_heuristic data i = loan_heuristic data i'.
Proof.
  intros Hc Hr Ht He Hco. unfold loan_heuristic, heuristic_score.
  rewrite Hc, Hr, Ht, He, Hco. reflexivity.
Qed.

Lemma prelude_zero_term {A} (d : gmap string json) (k k' : loan_inputs -> result A) :
  (forall i i',
     credit_history i = credit_history i' ->
     income_to_loan i = income_to_loan i' ->
     total_income i = total_income i' ->
     emi i = emi i' ->
     coapplicant_income i = coapplicant_income i' -> k i = k' i') ->
  loan_prelude (JDict (<["Loan_Amount_Term" := JInt 0]> d)) ≫= k =
  loan_prelude (JDict (<["Loan_Amount_Term" := JInt 360]> d)) ≫= k'.
Proof.
  intros Hk.
  rewrite (loan_prelude_dict (<["Loan_Amount_Term" := JInt 0]> d)),
    (loan_prelude_dict (<["Loan_Amount_Term" := JInt 360]> d)).
  rewrite !lookup_insert_eq. rewrite !lookup_insert_ne by discriminate.
  replace (py_float (default (JInt 360) (Some (JInt 0)))) with (Ok 0%float)
    by (vm_compute; reflexivity).
  replace (py_float (default (JInt 360) (Some (JInt 360)))) with (Ok 360%float)
    by (vm_compute; reflexivity).
  destruct (py_float (default (JInt 0) (d !! "ApplicantIncome"))) as [ai|];
    cbn [mbind result_bind]; [|reflexivity].
  destruct (py_float (default (JInt 0) (d !! "CoapplicantIncome"))) as [ci|];
    cbn [mbind result_bind]; [|reflexivity].
  destruct (py_float (default (JInt 0) (d !! "LoanAmount"))) as [la|];
    cbn [mbind result_bind]; [|reflexivity].
  destruct (py_float (default (JInt 1) (d !! "Credit_History"))) as [ch|];
    cbn [mbind result_bind]; [|reflexivity].
  destruct (read_dependents (default (JInt 0) (d !! "Dependents"))) as [dep|];
    cbn [mbind result_bind]; [|reflexivity].
  unfold derive_inputs.
  replace (PyFloat.eq 0 0) with true by (vm_compute; reflexivity).
  replace (PyFloat.eq 360 0) with false by (vm_compute; reflexivity).
  rewrite <- (emi_zero_term la).
  set (amount := if PyFloat.eq la 0 then Int 1 else Float la).
  destruct (truediv amount (Int 360)) as [emi|]; cbn [mbind result_bind]; [|reflexivity].
  destruct (truediv (Float (ai + ci)) (add_int amount 1)) as [itl|];
    cbn [mbind result_bind]; [|reflexivity].
  destruct (truediv amount (Int (dep + 1))) as [lpp|];
    cbn [mbind result_bind]; [|reflexivity].
  apply Hk; reflexivity.
Qed.

(** X16: on the heuristic path a Loan_Amount_Term of 0 is answered exactly
    as a term of 360 months. *)
Theorem zero_term_is_360 (st : models) (d : gmap string json) :
  loan_model st = None ->
  predict_loan st (Ok (JDict (<["Loan_Amount_Term" := JInt 0]> d))) =
  predict_loan st (Ok (JDict (<["Loan_Amount_Term" := JInt 360]> d))).
Proof.
  intros Hnone. unfold predict_loan. cbn [mbind result_bind].
  rewrite Hnone, !truthy_insert. simpl negb. cbv iota.
  apply (f_equal handler). apply (prelude_zero_term d). intros i i' Hc Hr Ht He Hco.
  rewrite (loan_heuristic_agree (<["Loan_Amount_Term" := JInt 0]> d) d)
    by (repeat (apply Forall_cons; split;
          [rewrite lookup_insert_ne by discriminate; reflexivity|]); apply Forall_nil_2).
  rewrite (loan_heuristic_agree (<["Loan_Amount_Term" := JInt 360]> d) d)
    by (repeat (apply Forall_cons; split;
          [rewrite lookup_insert_ne by discriminate; reflexivity|]); apply Forall_nil_2).
  apply loan_heuristic_inputs; assumption.
Qed.

End LoanFurther.

Lemma predict_loan_minus_one_witness :
  status (predict_loan no_models (Ok (JDict (<["LoanAmount" := JInt (-1)]> salaried_fields)))) =
    500%Z /\
  status (predict_loan no_models (Ok (JDict (<["Dependents" := JInt (-1)]> salaried_fields)))) =
    500%Z.
Proof.
  destruct (loan_prelude (JDict salaried_fields)) as [i|e] eqn:Hi;
    [|vm_compute in Hi; discriminate].
  destruct (predict_loan_minus_one no_models salaried_fields i Hi) as [Hamount Hdep].
  split; [exact Hamount | exact Hdep].
Defined.

Lemma heuristic_answer_reads_nine_fields_witness :
  predict_loan no_models (Ok (JDict salaried_fields)) =
  predict_loan no_models
    (Ok (JDict (<["Gender" := JStr "Female"]>
                 (<["Self_Employed" := JStr "Yes"]> salaried_fields)))).
Proof.
  apply (heuristic_answer_reads_nine_fields no_models salaried_fields
           (<["Gender" := JStr "Female"]> (<["Self_Employed" := JStr "Yes"]> salaried_fields))).
  - reflexivity.
  - vm_compute. reflexivity.
  - vm_compute. reflexivity.
  - unfold heuristic_fields.
    repeat (apply Forall_cons; split; [vm_compute; reflexivity|]). apply Forall_nil_2.
Defined.

Lemma zero_term_is_360_witness :
  predict_loan no_models (Ok (JDict (<["Loan_Amount_Term" := JInt 0]> salaried_fields))) =
  predict_loan no_models (Ok (JDict (<["Loan_Amount_Term" := JInt 360]> salaried_fields))).
Proof. exact (zero_term_is_360 no_models salaried_fields eq_refl). Defined.

(** ** The feature row of the loan model *)

Lemma eq_str_true (v : json) (s : string) : eq_str v s = true <-> v = JStr s.
Proof.
  destruct v; simpl; try (split; [discriminate | intros [=]]).
  rewrite String.eqb_eq. split; [intros ->; reflexivity | intros [= ->]; reflexivity].
Qed.

(** A frame with distinct column names has one value per column. *)
Lemma frame_functional (X : frame) (name : string) (v v' : json) :
  NoDup X.*1 -> (name, v) ∈ X -> (name, v') ∈ X -> v = v'.
Proof.
  induction X as [|[n w] X IH]; simpl; intros Hnd Hv Hv'; [inversion Hv|].
  apply NoDup_cons in Hnd as [Hn Hnd].
  apply elem_of_cons in Hv as [Hv | Hv]; apply elem_of_cons in Hv' as [Hv' | Hv'].
  - congruence.
  - injection Hv as -> ->. destruct Hn.
    apply (list_elem_of_fmap_2 fst) in Hv'. exact Hv'.
  - injection Hv' as -> ->. destruct Hn.
    apply (list_elem_of_fmap_2 fst) in Hv. exact Hv.
  - exact (IH Hnd Hv Hv').
Qed.

(** A one-hot column holds 1 exactly when its test succeeds. *)
Lemma one_hot_column (X : frame) (n : nat) (name : string) (b : bool) :
  NoDup X.*1 ->
  X !! n = Some (name, JInt (if b then 1 else 0)) ->
  ((name, JInt 1) ∈ X <-> b = true) /\
  (forall v, (name, v) ∈ X -> v = JInt 0 \/ v = JInt 1).
Proof.
  intros Hnd Hn. apply list_elem_of_lookup_2 in Hn. split; [split|].
  - intros H1. pose proof (frame_functional X name _ _ Hnd Hn H1) as Hb.
    destruct b; [reflexivity | discriminate].
  - intros ->. exact Hn.
  - intros v Hv. rewrite (frame_functional X name _ _ Hnd Hv Hn). destruct b; auto.
Qed.

Lemma eq_str_default (o : option json) (dflt s : string) :
  dflt <> s -> eq_str (default (JStr dflt) o) s = true <-> o = Some (JStr s).
Proof.
  intros Hne. rewrite eq_str_true. destruct o as [v|]; simpl.
  - split; [intros ->; reflexivity | intros [= ->]; reflexivity].
  - split; [intros [= ?]; contradiction | discriminate].
Qed.

(** X26: the row [predict_loan] hands to the loan model has the sixteen
    columns of the [features] dict in their order; each of the six one-hot
    columns holds 0 or 1, set exactly when the field has the encoded value,
    an absent field counting as Male, not married, Graduate, not
    self-employed and Urban; the two Property_Area columns are never both
    1, and both are 0 for every other area (Rural, or a misspelt one). *)
Theorem loan_features_columns (d : gmap string json) (i : loan_inputs) (X : frame) :
  loan_features (JDict d) i = Ok X ->
  X.*1 = loan_feature_names /\
  (forall name v, (name, v) ∈ X -> name ∈ one_hot_names -> v = JInt 0 \/ v = JInt 1) /\
  (("Gender_Male", JInt 1) ∈ X <-> default (JStr "Male") (d !! "Gender") = JStr "Male") /\
  (("Married_Yes", JInt 1) ∈ X <-> d !! "Married" = Some (JStr "Yes")) /\
  (("Education_Not Graduate", JInt 1) ∈ X <-> d !! "Education" = Some (JStr "Not Graduate")) /\
  (("Self_Employed_Yes", JInt 1) ∈ X <-> d !! "Self_Employed" = Some (JStr "Yes")) /\
  (("Property_Area_Semiurban", JInt 1) ∈ X <->
   d !! "Property_Area" = Some (JStr "Semiurban")) /\
  (("Property_Area_Urban", JInt 1) ∈ X <->
   default (JStr "Urban") (d !! "Property_Area") = JStr "Urban") /\
  ~ (("Property_Area_Semiurban", JInt 1) ∈ X /\ ("Property_Area_Urban", JInt 1) ∈ X).
Proof.
  unfold loan_features, one_hot. cbn [py_get mbind result_bind]. intros HX.
  destruct (PyFloat.of_int (dependents i)) as [dependents_f|]; [|discriminate].
  cbn [mbind result_bind] in HX. injection HX as <-.
  match goal with |- (?l).*1 = _ /\ _ => set (X := l) end.
  assert (Hnames : X.*1 = loan_feature_names) by reflexivity.
  assert (Hnd : NoDup X.*1).
  { rewrite Hnames. apply (bool_decide_unpack _). vm_compute. reflexivity. }
  destruct (one_hot_column X 10 "Gender_Male" _ Hnd eq_refl) as [Hgender Hgender'].
  destruct (one_hot_column X 11 "Married_Yes" _ Hnd eq_refl) as [Hmarried Hmarried'].
  destruct (one_hot_column X 12 "Education_Not Graduate" _ Hnd eq_refl)
    as [Heducation Heducation'].
  destruct (one_hot_column X 13 "Self_Employed_Yes" _ Hnd eq_refl) as [Hself Hself'].
  destruct (one_hot_column X 14 "Property_Area_Semiurban" _ Hnd eq_refl) as [Hsemi Hsemi'].
  destruct (one_hot_column X 15 "Property_Area_Urban" _ Hnd eq_refl) as [Hurban Hurban'].
  rewrite eq_str_true in Hgender, Hurban.
  rewrite eq_str_default in Hmarried, Heducation, Hself, Hsemi by discriminate.
  split; [exact Hnames|]. split.
  { intros name v Hv Hname. unfold one_hot_names in Hname.
    repeat (apply elem_of_cons in Hname as [-> | Hname]; [eauto|]). inversion Hname. }
  repeat (split; [assumption|]).
  intros [Hs Hu]. apply Hsemi in Hs. apply Hurban in Hu. rewrite Hs in Hu. discriminate.
Qed.

Lemma loan_features_columns_witness :
  exists i X,
    loan_prelude (JDict rural_fields) = Ok i /\
    loan_features (JDict rural_fields) i = Ok X /\
    X.*1 = loan_feature_names.
Proof.
  destruct (loan_prelude (JDict rural_fields)) as [i|e] eqn:Hi;
    [|vm_compute in Hi; discriminate].
  pose proof Hi as Hvalue. vm_compute in Hvalue. injection Hvalue as <-.
  match type of Hi with _ = Ok ?i =>
    destruct (loan_features (JDict rural_fields) i) as [X|e] eqn:HX;
      [|vm_compute in HX; discriminate];
    exists i, X; split; [exact Hi|]; split; [exact HX|];
    exact (proj1 (loan_features_columns rural_fields i X HX))
  end.
Defined.

(** ** The approval flag and the reported probability *)

Lemma approval_reported (emi_applies : bool) (i : loan_inputs)
    (education married property_area : json) :
  let score := rules_score emi_applies i education married property_area in
  (PyFloat.ge score 0.5 = true -> PyFloat.ge (PyFloat.round score 4) 0.5 = true) /\
  (PyFloat.gt (PyFloat.round score 4) 0.5 = true -> PyFloat.ge score 0.5 = true) /\
  PyFloat.le 0.05 (PyFloat.round score 4) = true /\
  PyFloat.le (PyFloat.round score 4) 0.95 = true.
Proof.
  unfold rules_score, credit_rule, income_rule, emi_rule, education_rule,
    married_rule, area_rule.
  destruct emi_applies;
  repeat match goal with
         | |- context [if ?c then _ else _] => destruct c
         end; vm_compute; repeat split; auto; discriminate.
Qed.

Section ApprovalFurther.
Context `{PyBuiltins}.

(** X17: on the heuristic path the reported approval probability (the
    score rounded to four decimals) lies between 0.05 and 0.95; an approved
    request reports at least 0.5 and a request that reports more than 0.5
    is approved.  At exactly 0.5 the flag can be false: the rules can sum
    to 0.49999999999999994, which is refused and reported as 0.5. *)
Theorem approval_matches_reported (st : models) (data : json) (i : loan_inputs) :
  truthy data = true ->
  loan_prelude data = Ok i ->
  loan_model st = None \/
    (exists m e, loan_model st = Some m /\ loan_model_path m data i = Raise e) ->
  exists approved prob,
    field "is_approved" (predict_loan st (Ok data)) = Some (JBool approved) /\
    field "approval_probability" (predict_loan st (Ok data)) = Some (JFloat prob) /\
    (approved = true -> PyFloat.ge prob 0.5 = true) /\
    (PyFloat.gt prob 0.5 = true -> approved = true) /\
    PyFloat.le 0.05 prob = true /\ PyFloat.le prob 0.95 = true.
Proof.
  intros Hdata Hi Hpath. rewrite (predict_loan_heuristic st data i Hdata Hi Hpath).
  exists (PyFloat.ge (request_score data i) 0.5), (PyFloat.round (request_score data i) 4).
  split; [reflexivity|]. split; [reflexivity|].
  apply approval_reported.
Qed.

End ApprovalFurther.

Lemma approval_matches_reported_witness :
  exists prob,
    field "is_approved" (predict_loan no_models (Ok borderline_request)) = Some (JBool false) /\
    field "approval_probability" (predict_loan no_models (Ok borderline_request)) =
      Some (JFloat prob) /\
    PyFloat.le 0.05 prob = true /\ PyFloat.le prob 0.95 = true.
Proof.
  destruct (loan_prelude borderline_request) as [i|e] eqn:Hi;
    [|vm_compute in Hi; discriminate].
  destruct (approval_matches_reported no_models borderline_request i eq_refl Hi
              (or_introl eq_refl))
    as (approved & prob & Ha & Hp & _ & _ & Hlow & Hhigh).
  assert (field "is_approved" (predict_loan no_models (Ok borderline_request)) =
            Some (JBool false)) as Ha' by (vm_compute; reflexivity).
  exists prob. split; [exact Ha'|]. split; [exact Hp|]. split; [exact Hlow | exact Hhigh].
Defined.

(** ** Loan calculator: validation and key aliases *)

Section CalculatorFurther.
Context `{PyBuiltins}.

Lemma loan_terms_dict (d : gmap string json) :
  loan_terms (JDict d) =
    (principal ← py_float (default (default (JInt 0) (d !! "LoanAmount")) (d !! "principal"));
     rate ← py_float (default (default (JInt 12) (d !! "interest_rate")) (d !! "rate"));
     months ← py_int (default (default (JInt 360) (d !! "Loan_Amount_Term")) (d !! "months"));
     Ok (principal, (rate / 100)%float, months)).
Proof. reflexivity. Qed.

Lemma loan_terms_not_dict (data : json) :
  (forall d, data <> JDict d) ->
  loan_terms data = Raise (AttributeError "object has no attribute 'get'").
Proof. intros Hdata. destruct data; try reflexivity. destruct (Hdata _ eq_refl). Qed.

Lemma loan_summary_status (principal annual_rate : float) (months : Z) (emi : float)
    (r : response) :
  loan_summary principal annual_rate months emi = Ok r ->
  status r = 200%Z /\
  field "principal" r = Some (JFloat principal) /\
  field "months" r = Some (JInt months).
Proof.
  unfold loan_summary. intros Hr. bind_inv Hr. simplify_eq. repeat split; reflexivity.
Qed.

(** X18: [calculate_loan] answers 400 exactly when the three terms are
    read and the principal is <= 0 or the months are <= 0; a body that is
    not a JSON object (a missing body included) is answered 500, not 400;
    every other answer is 200 or 500, and a 200 answer repeats the principal
    and the months it was computed from. *)
Theorem calculate_loan_status (data : json) :
  (status (calculate_loan data) = 400%Z <->
   exists principal annual_rate months,
     loan_terms data = Ok (principal, annual_rate, months) /\
     (PyFloat.le principal 0 = true \/ (months <= 0)%Z)) /\
  ((forall d, data <> JDict d) -> status (calculate_loan data) = 500%Z) /\
  (forall e, loan_terms data = Raise e ->
     calculate_loan data = Resp 500 (dict [("error", JStr (str_exn e))])) /\
  (status (calculate_loan data) = 200%Z \/ status (calculate_loan data) = 400%Z \/
   status (calculate_loan data) = 500%Z) /\
  (status (calculate_loan data) = 200%Z ->
   exists principal annual_rate months,
     loan_terms data = Ok (principal, annual_rate, months) /\
     PyFloat.le principal 0 = false /\ (0 < months)%Z /\
     field "principal" (calculate_loan data) = Some (JFloat principal) /\
     field "months" (calculate_loan data) = Some (JInt months)).
Proof.
  assert (Hnd : (forall d, data <> JDict d) -> status (calculate_loan data) = 500%Z).
  { intros Hdata. unfold calculate_loan. rewrite (loan_terms_not_dict data Hdata).
    reflexivity. }
  split; [|split; [exact Hnd|]]; unfold calculate_loan;
    destruct (loan_terms data) as [[[p r] m]|e] eqn:Hterms; simpl.
  - destruct (PyFloat.le p 0) eqn:Hp; simpl.
    { split; [intros _; exists p, r, m; auto | reflexivity]. }
    destruct (m <=? 0)%Z eqn:Hm; simpl.
    { split; [intros _; exists p, r, m; split; [reflexivity | right; lia] | reflexivity]. }
    split.
    + destruct (instalment p r m) as [emi|]; simpl; [|discriminate].
      destruct (loan_summary p r m emi) as [resp|] eqn:Hs; simpl; [|discriminate].
      destruct (loan_summary_status _ _ _ _ _ Hs) as [-> _]. discriminate.
    + intros (p' & r' & m' & [= <- <- <-] & [Hp' | Hm']); [congruence | lia].
  - split; [discriminate | intros (? & ? & ? & [=] & _)].
  - split; [discriminate|].
    destruct (PyFloat.le p 0) eqn:Hp; simpl.
    { split; [auto | discriminate]. }
    destruct (m <=? 0)%Z eqn:Hm; simpl.
    { split; [auto | discriminate]. }
    destruct (instalment p r m) as [emi|]; simpl; [|split; [auto | discriminate]].
    destruct (loan_summary p r m emi) as [resp|] eqn:Hs; simpl;
      [|split; [auto | discriminate]].
    destruct (loan_summary_status _ _ _ _ _ Hs) as (Hst & Hpr & Hmo).
    split; [auto|]. intros _. exists p, r, m. repeat split; auto. lia.
  - split; [intros e' [= <-]; reflexivity|]. split; [auto | discriminate].
Qed.

(** X19: in [calculate_loan] the short keys win: when principal, rate and
    months are all present (with any value), the values given under
    LoanAmount, interest_rate and Loan_Amount_Term do not change the
    answer. *)
Theorem calculate_loan_short_keys_win (d : gmap string json) (v1 v2 v3 : json) :
  is_Some (d !! "principal") -> is_Some (d !! "rate") -> is_Some (d !! "months") ->
  calculate_loan
    (JDict (<["LoanAmount" := v1]> (<["interest_rate" := v2]>
             (<["Loan_Amount_Term" := v3]> d)))) =
  calculate_loan (JDict d).
Proof.
  intros [p Hp] [r Hr] [m Hm]. unfold calculate_loan.
  rewrite (loan_terms_dict d), (loan_terms_dict (<["LoanAmount" := v1]> _)).
  repeat (rewrite lookup_insert_eq || rewrite lookup_insert_ne by discriminate).
  rewrite Hp, Hr, Hm. reflexivity.
Qed.

End CalculatorFurther.

Lemma calculate_loan_short_keys_win_witness :
  calculate_loan
    (JDict (<["LoanAmount" := JInt 5]> (<["interest_rate" := JStr "high"]>
             (<["Loan_Amount_Term" := JNull]> one_year_fields)))) =
  calculate_loan (JDict one_year_fields).
Proof.
  assert (one_year_fields !! "principal" = Some (JInt 1200)) as Hp by (vm_compute; reflexivity).
  assert (one_year_fields !! "rate" = Some (JInt 12)) as Hr by (vm_compute; reflexivity).
  assert (one_year_fields !! "months" = Some (JInt 12)) as Hm by (vm_compute; reflexivity).
  exact (calculate_loan_short_keys_win one_year_fields (JInt 5) (JStr "high") JNull
           (ex_intro _ _ Hp) (ex_intro _ _ Hr) (ex_intro _ _ Hm)).
Defined.

(** ** Expense categorization: the two endpoints *)

Section ExpenseFurther.
Context `{PyBuiltins}.

(** The keyword fallback as the endpoints return it: category, rounded
    confidence in percent, and the category's own entry of the table. *)
Lemma fallback_percent (description : string) :
  exists category confidence meta,
    get_category_fallback description = (category, confidence) /\
    (category, PyFloat.round (confidence * 100) 2) ∈ fallback_answers /\
    CATEGORY_METADATA !! category = Some meta.
Proof.
  assert (H85 : PyFloat.round (0.85 * 100) 2 = 85%float) by (vm_compute; reflexivity).
  assert (H50 : PyFloat.round (0.5 * 100) 2 = 50%float) by (vm_compute; reflexivity).
  unfold get_category_fallback, match_keywords.
  repeat match goal with
         | |- context [if ?c then _ else _] => destruct c
         end;
    do 3 eexists; (split; [reflexivity|]);
    (split; [|vm_compute; reflexivity]);
    rewrite ?H85, ?H50; unfold fallback_answers; rewrite !elem_of_cons; auto 12.
Qed.

(** X20: without an expense model (classifier or vectorizer missing),
    [categorize_expense] answers 400 when the description is absent, empty
    or otherwise falsy; on a non-empty string it answers 200 with one of
    the nine keyword answers (confidence 85.0, or 50.0 for Others) and the
    icon and colour the table has for that very category; on any other
    truthy description (a number, a list) it answers 500. *)
Theorem categorize_expense_without_model (st : models) (data description : json) :
  expense_classifier st = None \/ expense_vectorizer st = None ->
  py_get data "description" (JStr "") = Ok description ->
  (truthy description = false ->
   categorize_expense st data = Resp 400 (dict [("error", JStr "Description is required")])) /\
  (forall s, description = JStr s -> s <> "" ->
   exists category confidence meta,
     (category, confidence) ∈ fallback_answers /\
     category = (get_category_fallback s).1 /\
     CATEGORY_METADATA !! category = Some meta /\
     categorize_expense st data = expense_answer st category confidence meta) /\
  (truthy description = true -> (forall s, description <> JStr s) ->
   status (categorize_expense st data) = 500%Z /\
   field "category" (categorize_expense st data) = None).
Proof.
  intros Hst Hget. unfold categorize_expense. rewrite Hget. cbn [mbind result_bind negb handler].
  split; [|split].
  - intros ->. reflexivity.
  - intros s -> Hs.
    replace (truthy (JStr s)) with true
      by (simpl; destruct (String.eqb_spec s ""); [contradiction | reflexivity]).
    cbn [mbind result_bind negb handler]. rewrite (categorize_fallback st s Hst).
    destruct (fallback_percent s) as (category & confidence & meta & Hcat & Hin & Hmeta).
    rewrite Hcat. cbn [mbind result_bind handler fst snd]. rewrite Hmeta.
    exists category, (PyFloat.round (confidence * 100) 2), meta.
    repeat split; auto.
  - intros -> Hns. cbn [mbind result_bind negb handler].
    assert (categorize st description =
              Raise (AttributeError "object has no attribute 'lower'")) as ->.
    { unfold categorize.
      destruct description; try (destruct (Hns _ eq_refl));
        destruct Hst as [-> | ->]; [|destruct (expense_classifier st)| |
          destruct (expense_classifier st)| |destruct (expense_classifier st)| |
          destruct (expense_classifier st)| |destruct (expense_classifier st)| |
          destruct (expense_classifier st)]; reflexivity. }
    split; reflexivity.
Qed.

(** X21: with both expense handles loaded, a truthy description is
    answered from the model: the label as category, the largest class
    probability in percent rounded to two decimals, model_used ml, and the
    Others icon and colour when the label is not one of the ten of the
    table; when the vectorizer or the classifier raises, the answer is 500:
    the keyword fallback is not tried. *)
Theorem categorize_expense_with_model (st : models) (c : text_classifier) (v : vectorizer)
    (data description : json) :
  expense_classifier st = Some c -> expense_vectorizer st = Some v ->
  py_get data "description" (JStr "") = Ok description ->
  truthy description = true ->
  (forall x label p,
     vec_transform v description = Ok x -> txt_predict c x = Ok label ->
     txt_predict_proba_max c x = Ok p ->
     categorize_expense st data =
       jsonify [("category", JStr label);
                ("confidence", JFloat (PyFloat.round (p * 100) 2));
                ("icon", JStr (icon (default others_metadata (CATEGORY_METADATA !! label))));
                ("color", JStr (color (default others_metadata (CATEGORY_METADATA !! label))));
                ("model_used", JStr "ml")] /\
     (CATEGORY_METADATA !! label = None ->
      field "icon" (categorize_expense st data) = Some (JStr "category") /\
      field "color" (categorize_expense st data) = Some (JStr "#6b7280"))) /\
  (forall e,
     vec_transform v description = Raise e \/
     (exists x, vec_transform v description = Ok x /\
        (txt_predict c x = Raise e \/
         (exists label, txt_predict c x = Ok label) /\ txt_predict_proba_max c x = Raise e)) ->
     categorize_expense st data = Resp 500 (dict [("error", JStr (str_exn e))])).
Proof.
  intros Hc Hv Hget Htruthy.
  assert (Hexp : categorize_expense st data =
    handler ('(prediction, confidence) ← categorize st description;
      Ok (expense_answer st prediction (PyFloat.round confidence 2)
            (default others_metadata (CATEGORY_METADATA !! prediction))))).
  { unfold categorize_expense. rewrite Hget. cbn [mbind result_bind negb handler].
    rewrite Htruthy. reflexivity. }
  assert (Hcat : categorize st description =
    (input_tfidf ← vec_transform v description;
     prediction ← txt_predict c input_tfidf;
     p ← txt_predict_proba_max c input_tfidf;
     Ok (prediction, (p * 100)%float))).
  { unfold categorize. rewrite Hc, Hv. reflexivity. }
  rewrite Hexp, Hcat. unfold expense_answer, model_used. rewrite Hc. split.
  - intros x label p -> Hl Hp. cbn [mbind result_bind negb handler]. rewrite Hl.
    cbn [mbind result_bind negb handler]. rewrite Hp.
    cbn [mbind result_bind negb handler].
    split; [reflexivity|]. intros ->. split; reflexivity.
  - intros e [-> | (x & -> & [Hl | [[label Hl] Hp]])]; cbn [mbind result_bind negb handler].
    + reflexivity.
    + rewrite Hl. reflexivity.
    + rewrite Hl. cbn [mbind result_bind negb handler]. rewrite Hp. reflexivity.
Qed.

Lemma categorize_transaction_entry (st : models) (txn r : json) :
  categorize_transaction st txn = Ok r ->
  exists category confidence,
    categorize st (get_default txn "description" (JStr "")) = Ok (category, confidence) /\
    r = dict [("id", get_default txn "id" (JStr ""));
              ("description", get_default txn "description" (JStr ""));
              ("category", JStr category);
              ("confidence", JFloat (PyFloat.round confidence 2));
              ("icon", JStr (icon (default others_metadata (CATEGORY_METADATA !! category))));
              ("color", JStr (color (default others_metadata (CATEGORY_METADATA !! category))))].
Proof.
  unfold categorize_transaction. intros Hr.
  destruct txn; try discriminate. cbn [py_get mbind result_bind get_default] in *.
  destruct (categorize st _) as [[category confidence]|]; [|discriminate].
  cbn [mbind result_bind] in Hr. injection Hr as <-. eauto.
Qed.

(** X22: [categorize_batch] on a non-empty list either answers 200 with one
    result per transaction, in order, each repeating the id and the
    description of its transaction (the empty string when absent), and
    count equal to the number of transactions; or, when one entry cannot be
    categorized, answers 500 with no results at all. *)
Theorem categorize_batch_results (st : models) (d : gmap string json) (txns : list json) :
  d !! "transactions" = Some (JList txns) -> txns <> [] ->
  (forall results, mapM (categorize_transaction st) txns = Ok results ->
     categorize_batch st (JDict d) =
       jsonify [("results", JList results);
                ("count", JInt (Z.of_nat (length txns)));
                ("model_used", JStr (model_used st))] /\
     Forall2 (fun txn r =>
                member "id" r = Some (get_default txn "id" (JStr "")) /\
                member "description" r = Some (get_default txn "description" (JStr "")))
             txns results) /\
  (forall txn e, txn ∈ txns -> categorize_transaction st txn = Raise e ->
     status (categorize_batch st (JDict d)) = 500%Z /\
     field "results" (categorize_batch st (JDict d)) = None).
Proof.
  intros Hd Hne.
  assert (Hbatch : categorize_batch st (JDict d) =
    handler (results ← mapM (categorize_transaction st) txns;
             Ok (jsonify [("results", JList results);
                          ("count", JInt (Z.of_nat (length results)));
                          ("model_used", JStr (model_used st))]))).
  { unfold categorize_batch. cbn [py_get mbind result_bind]. rewrite Hd.
    destruct txns; [contradiction | reflexivity]. }
  rewrite Hbatch. split.
  - intros results Hres. rewrite Hres. cbn [mbind result_bind handler].
    rewrite (mapM_length _ _ _ Hres). split; [reflexivity|].
    apply mapM_Forall2 in Hres.
    eapply Forall2_impl; [exact Hres|]. intros txn r Hr. cbv beta in Hr.
    apply categorize_transaction_entry in Hr as (category & confidence & _ & ->).
    split; reflexivity.
  - intros txn e Hin He.
    destruct (mapM_Raise _ _ _ _ Hin He) as [e' ->]. split; reflexivity.
Qed.

(** X23: the batch repeats the single-item logic: for a transaction with a
    truthy description, the category, confidence, icon and colour of its
    batch result are those [categorize_expense] answers for it (with status
    200); a transaction whose description is absent or empty is
    categorized by the batch all the same, while [categorize_expense]
    rejects it with 400. *)
Theorem batch_entry_matches_single (st : models) (txn r : json) :
  categorize_transaction st txn = Ok r ->
  (truthy (get_default txn "description" (JStr "")) = true ->
   status (categorize_expense st txn) = 200%Z /\
   Forall (fun k => field k (categorize_expense st txn) = member k r)
     ["category"; "confidence"; "icon"; "color"]) /\
  (truthy (get_default txn "description" (JStr "")) = false ->
   status (categorize_expense st txn) = 400%Z /\ is_Some (member "category" r)).
Proof.
  intros Hr.
  destruct (categorize_transaction_entry st txn r Hr) as (category & confidence & Hcat & ->).
  unfold categorize_transaction in Hr. destruct txn; try discriminate.
  unfold categorize_expense. cbn [py_get mbind result_bind get_default] in *.
  split; intros ->; cbn [negb mbind result_bind handler].
  - rewrite Hcat. cbn [mbind result_bind handler].
    split; [reflexivity|]. repeat constructor.
  - split; [reflexivity|]. eexists. reflexivity.
Qed.

End ExpenseFurther.

Lemma categorize_expense_without_model_witness :
  exists category confidence meta,
    (category, confidence) ∈ fallback_answers /\
    categorize_expense no_models swiggy_request =
      expense_answer no_models category confidence meta.
Proof.
  assert (py_get swiggy_request "description" (JStr "") =
            Ok (JStr "Swiggy order delivered Rs 450")) as Hget by (vm_compute; reflexivity).
  destruct (categorize_expense_without_model no_models swiggy_request
              (JStr "Swiggy order delivered Rs 450") (or_introl eq_refl) Hget)
    as (_ & Hstring & _).
  destruct (Hstring "Swiggy order delivered Rs 450" eq_refl)
    as (category & confidence & meta & Hin & _ & _ & Hanswer); [discriminate|].
  exists category, confidence, meta. split; assumption.
Defined.

Lemma categorize_expense_with_model_witness :
  field "category"
    (categorize_expense (with_expense_model crypto_classifier crypto_vectorizer)
       swiggy_request) = Some (JStr "Crypto") /\
  field "icon"
    (categorize_expense (with_expense_model crypto_classifier crypto_vectorizer)
       swiggy_request) = Some (JStr "category").
Proof.
  assert (py_get swiggy_request "description" (JStr "") =
            Ok (JStr "Swiggy order delivered Rs 450")) as Hget by (vm_compute; reflexivity).
  destruct (categorize_expense_with_model
              (with_expense_model crypto_classifier crypto_vectorizer)
              crypto_classifier crypto_vectorizer swiggy_request
              (JStr "Swiggy order delivered Rs 450") eq_refl eq_refl Hget eq_refl)
    as [Hanswer _].
  destruct (Hanswer [] "Crypto" 0.6%float eq_refl eq_refl eq_refl) as [Hresp Hothers].
  split; [rewrite Hresp; reflexivity|].
  apply Hothers. vm_compute. reflexivity.
Defined.

Lemma categorize_batch_results_witness :
  exists results,
    categorize_batch no_models (JDict description_batch_fields) =
      jsonify [("results", JList results); ("count", JInt 2);
               ("model_used", JStr "fallback")].
Proof.
  assert (description_batch_fields !! "transactions" = Some (JList two_descriptions))
    as Hd by (vm_compute; reflexivity).
  destruct (mapM (categorize_transaction no_models) two_descriptions)
    as [results|e] eqn:Hres; [|vm_compute in Hres; discriminate].
  assert (two_descriptions <> []) as Hne by discriminate.
  destruct (categorize_batch_results no_models description_batch_fields two_descriptions
              Hd Hne) as [Hall _].
  exists results. exact (proj1 (Hall results Hres)).
Defined.

Lemma batch_entry_matches_single_witness :
  status (categorize_expense no_models uber_transaction) = 200%Z.
Proof.
  destruct (categorize_transaction no_models uber_transaction) as [r|e] eqn:Hr;
    [|vm_compute in Hr; discriminate].
  destruct (batch_entry_matches_single no_models uber_transaction r Hr) as [Htruthy _].
  apply Htruthy. vm_compute. reflexivity.
Defined.

(** ** The keyword fallback on the description as given *)

(** The ASCII lower-casing works letter by letter. *)
Lemma ascii_lower_app (a b : string) :
  CPython.ascii_lower (a +:+ b) = CPython.ascii_lower a +:+ CPython.ascii_lower b.
Proof.
  induction a as [|c a IH]; [reflexivity|].
  change (CPython.ascii_lower (String c a +:+ b))
    with (String (CPython.lower_ascii c) (CPython.ascii_lower (a +:+ b))).
  rewrite IH. reflexivity.
Qed.

Section KeywordFurther.
Context `{PyBuiltins}.

(** X24: provided [str.lower] lowers an ASCII word in place whatever
    surrounds it (as the interpreter's does), a description that contains
    a word of the Food & Dining list, in any letter case and at any
    position, also inside a longer word, is answered Food & Dining with
    confidence 0.85, whatever keywords of the other lists it contains. *)
Theorem food_keyword_wins (pre word post : string) :
  lowers_ascii_words ->
  isascii word = true ->
  CPython.ascii_lower word ∈ food_keywords ->
  get_category_fallback (pre +:+ word +:+ post) = ("Food & Dining", 0.85%float).
Proof.
  intros Hlower Hascii Hword.
  destruct (Hlower pre word post Hascii) as (pre' & post' & Htext).
  unfold get_category_fallback. apply match_keywords_stated. left.
  exists [], food_keywords, (tail keyword_table).
  split; [reflexivity|]. split; [|split; [|reflexivity]].
  - exists (CPython.ascii_lower word). split; [exact Hword|].
    exists pre', post'. exact Htext.
  - intros entry kw Hentry. inversion Hentry.
Qed.

End KeywordFurther.

Lemma food_keyword_wins_witness :
  get_category_fallback ("Paid " +:+ "SWIGGY" +:+ " order 450") =
    ("Food & Dining", 0.85%float).
Proof.
  apply (food_keyword_wins "Paid " "SWIGGY" " order 450").
  - intros pre word post _. exists (CPython.ascii_lower pre), (CPython.ascii_lower post).
    change (str_lower (pre +:+ word +:+ post)) with (CPython.ascii_lower (pre +:+ word +:+ post)).
    rewrite !ascii_lower_app. reflexivity.
  - vm_compute. reflexivity.
  - apply (bool_decide_unpack _). vm_compute. reflexivity.
Defined.

(** ** Column identification of the retraining script *)




Section RetrainingFurther.
Context `{PyBuiltins}.



End RetrainingFurther.
